(** * python_web_scraper: a shallow embedding of the stock scraper

    The development follows the two versions of the scraper in the
    repository: [main.py] (module [Main]: plain requests, no error
    handling) and [main2.py] (module [Main2]: retrying transport, rate
    limiting, error-tagged records, batch runner).

    Python values are embedded as follows.
    - [str] is a [string] holding the UTF-8 encoding of the text; [len]
      counts code points ([py_len]), [in] is byte-wise substring search
      (sound for UTF-8).  Case mapping, [\d] and [strip] are the ASCII
      ones: bytes outside ASCII pass through unchanged.
    - [int] is [Z]; a [float] is the exact rational denoted by the decimal
      literal ([pyfloat]), where Python would round to binary64.
    - a [dict] literal is an association list in insertion order
      ([pyval]); the batch runner's symbol-keyed mapping is a [gmap].
    - side effects (network, browser, clock, files, sleep, logging) go
      through one monad [M]: a clock that indexes the answers of the
      outside world, a list of emitted events, and a result that is
      either a value or a raised exception. *)

From Stdlib Require Import ZArith QArith String Ascii List Lia.
From stdpp Require Import gmap strings list pretty.

Set Warnings "-register-all".
Local Open Scope string_scope.

(** ** Python string operations *)

Module PyStr.

Definition is_upper (c : ascii) : bool :=
  (65 <=? nat_of_ascii c)%nat && (nat_of_ascii c <=? 90)%nat.

Definition is_lower (c : ascii) : bool :=
  (97 <=? nat_of_ascii c)%nat && (nat_of_ascii c <=? 122)%nat.

Definition is_digit (c : ascii) : bool :=
  (48 <=? nat_of_ascii c)%nat && (nat_of_ascii c <=? 57)%nat.

(** " ", "\t", "\n", "\v", "\f", "\r" and the separators 0x1c-0x1f. *)
Definition is_space (c : ascii) : bool :=
  let n := nat_of_ascii c in
  (n =? 32)%nat || ((9 <=? n)%nat && (n <=? 13)%nat)
  || ((28 <=? n)%nat && (n <=? 31)%nat).

Definition lower_char (c : ascii) : ascii :=
  if is_upper c then ascii_of_nat (nat_of_ascii c + 32) else c.

Definition upper_char (c : ascii) : ascii :=
  if is_lower c then ascii_of_nat (nat_of_ascii c - 32) else c.

Fixpoint map_chars (f : ascii -> ascii) (s : string) : string :=
  match s with
  | EmptyString => EmptyString
  | String c t => String (f c) (map_chars f t)
  end.

(** [s.lower()] and [s.upper()] *)
Definition lower : string -> string := map_chars lower_char.
Definition upper : string -> string := map_chars upper_char.

(** [s.startswith(p)] *)
Definition startswith (p s : string) : bool := String.prefix p s.

(** [sub in s] *)
Fixpoint contains (sub s : string) : bool :=
  if String.prefix sub s then true
  else match s with
       | EmptyString => false
       | String _ t => contains sub t
       end.

Fixpoint drop (n : nat) (s : string) : string :=
  match n, s with
  | S k, String _ t => drop k t
  | _, _ => s
  end.

Fixpoint replace_from (fuel : nat) (old new s : string) : string :=
  match fuel with
  | O => s
  | S k =>
      match s with
      | EmptyString => EmptyString
      | String c t =>
          if String.prefix old s
          then new +:+ replace_from k old new (drop (String.length old) s)
          else String c (replace_from k old new t)
      end
  end.

(** [s.replace(old, new)] for a non-empty [old]. *)
Definition replace (old new s : string) : string :=
  replace_from (String.length s) old new s.

(** [len(s)]: the code points of [s] are its bytes that are not UTF-8
    continuation bytes (10xxxxxx). *)
Fixpoint py_len (s : string) : Z :=
  match s with
  | EmptyString => 0
  | String c t =>
      (if (128 <=? nat_of_ascii c)%nat && (nat_of_ascii c <? 192)%nat
       then 0 else 1) + py_len t
  end%Z.

Fixpoint lstrip (s : string) : string :=
  match s with
  | String c t => if is_space c then lstrip t else s
  | EmptyString => s
  end.

Fixpoint rstrip (s : string) : string :=
  match s with
  | EmptyString => EmptyString
  | String c t =>
      match rstrip t with
      | EmptyString => if is_space c then EmptyString else String c EmptyString
      | t' => String c t'
      end
  end.

(** [s.strip()] *)
Definition strip (s : string) : string := rstrip (lstrip s).

(** [s.split(sep)] for a one-character separator: never empty. *)
Fixpoint split (sep : ascii) (s : string) : list string :=
  match s with
  | EmptyString => [EmptyString]
  | String c t =>
      if Ascii.eqb c sep then EmptyString :: split sep t
      else match split sep t with
           | [] => [String c EmptyString]
           | h :: r => String c h :: r
           end
  end.

(** [s.split(sep)[-1]] *)
Definition split_last (sep : ascii) (s : string) : string :=
  List.last (split sep s) EmptyString.

End PyStr.

(** ** Numbers read from text: the builtins [int] and [float] *)

Inductive pyfloat : Type :=
| FFinite (q : Q)
| FInf (negative : bool)
| FNaN.

Module PyNum.
Import PyStr.

Definition digit_val (c : ascii) : Z := Z.of_nat (nat_of_ascii c) - 48.

(** A run of digits, single underscores allowed between two digits.
    Returns the accumulated value, the number of digits read and the
    unread rest. *)
Fixpoint read_digits (s : string) (acc : Z) (n : nat) : Z * nat * string :=
  match s with
  | String c t =>
      if is_digit c then read_digits t (10 * acc + digit_val c)%Z (S n)
      else if Ascii.eqb c "_" && (0 <? n)%nat then
        match t with
        | String d _ => if is_digit d then read_digits t acc n else (acc, n, s)
        | EmptyString => (acc, n, s)
        end
      else (acc, n, s)
  | EmptyString => (acc, n, s)
  end.

(** An optional sign: [(negative, rest)]. *)
Definition read_sign (s : string) : bool * string :=
  match s with
  | String "-" t => (true, t)
  | String "+" t => (false, t)
  | _ => (false, s)
  end.

Definition signed (neg : bool) (z : Z) : Z := if neg then (- z)%Z else z.

(** [int(s)]: [None] stands for ValueError. *)
Definition py_int (s : string) : option Z :=
  let '(neg, body) := read_sign (strip s) in
  match read_digits body 0 0 with
  | (v, S _, EmptyString) => Some (signed neg v)
  | _ => None
  end.

(** mantissa * 10^e as a reduced fraction *)
Definition decimal (mantissa e : Z) : Q :=
  if (0 <=? e)%Z then Qred (Qmake (mantissa * 10 ^ e) 1)
  else Qred (Qmake mantissa (Z.to_pos (10 ^ (- e)))).

(** The optional exponent part: [Some (exponent, rest)], [None] when an
    exponent marker is not followed by digits. *)
Definition read_exponent (s : string) : option (Z * string) :=
  match s with
  | String c t =>
      if Ascii.eqb c "e" || Ascii.eqb c "E" then
        let '(neg, body) := read_sign t in
        match read_digits body 0 0 with
        | (v, S _, rest) => Some (signed neg v, rest)
        | _ => None
        end
      else Some (0%Z, s)
  | EmptyString => Some (0%Z, s)
  end.

(** [float(s)]: [None] stands for ValueError. *)
Definition py_float (s : string) : option pyfloat :=
  let '(neg, body) := read_sign (strip s) in
  let word := lower body in
  if String.eqb word "inf" || String.eqb word "infinity" then Some (FInf neg)
  else if String.eqb word "nan" then Some FNaN
  else
    let '(ip, ni, r1) := read_digits body 0 0 in
    let '(m, nf, r2) :=
      match r1 with
      | String "." t => read_digits t ip 0
      | _ => (ip, 0%nat, r1)
      end in
    match (ni + nf)%nat with
    | O => None
    | S _ =>
        match read_exponent r2 with
        | Some (e, EmptyString) =>
            Some (FFinite (decimal (signed neg m) (e - Z.of_nat nf)))
        | _ => None
        end
    end.

End PyNum.

(** ** Regular expressions: the fragment of [re] the scraper uses *)

Module Re.
Import PyStr.

Inductive regex : Type :=
| Lit (c : ascii)                (* a literal character *)
| Class (p : ascii -> bool)      (* \d, [1-4] *)
| Seq (r1 r2 : regex)
| Alt (r1 r2 : regex)            (* r1|r2, r1 tried first *)
| Opt (r : regex)                (* r?, greedy *)
| Eps
| Eol.                           (* $ *)

Fixpoint lits (s : string) : regex :=
  match s with
  | EmptyString => Eps
  | String c EmptyString => Lit c
  | String c t => Seq (Lit c) (lits t)
  end.

(** Backtracking match of [r] at the head of [s]; [k] is the rest of the
    pattern, called on the unread text.  [icase] is re.IGNORECASE. *)
Fixpoint exec {A} (icase : bool) (r : regex) (s : string)
    (k : string -> option A) : option A :=
  match r with
  | Lit c =>
      match s with
      | String d t =>
          if (if icase then Ascii.eqb (lower_char c) (lower_char d)
              else Ascii.eqb c d)
          then k t else None
      | EmptyString => None
      end
  | Class p =>
      match s with
      | String d t => if p d then k t else None
      | EmptyString => None
      end
  | Seq r1 r2 => exec icase r1 s (fun s' => exec icase r2 s' k)
  | Alt r1 r2 =>
      match exec icase r1 s k with
      | Some x => Some x
      | None => exec icase r2 s k
      end
  | Opt r1 =>
      match exec icase r1 s k with
      | Some x => Some x
      | None => k s
      end
  | Eps => k s
  | Eol =>
      (* end of text, or just before a final newline *)
      if String.eqb s "" || String.eqb s (String (ascii_of_nat 10) "")
      then k s else None
  end.

Fixpoint take (n : nat) (s : string) : string :=
  match n, s with
  | S k, String c t => String c (take k t)
  | _, _ => EmptyString
  end.

(** The text matched at the head of [s], if any. *)
Definition match_here (icase : bool) (r : regex) (s : string) : option string :=
  match exec icase r s Some with
  | Some rest => Some (take (String.length s - String.length rest) s)
  | None => None
  end.

(** [re.search(r, s)]: the leftmost match; [Some] carries [group(0)]. *)
Fixpoint search (icase : bool) (r : regex) (s : string) : option string :=
  match match_here icase r s with
  | Some m => Some m
  | None =>
      match s with
      | EmptyString => None
      | String _ t => search icase r t
      end
  end.

Definition digit : regex := Class is_digit.

Definition one_to_four (c : ascii) : bool :=
  (49 <=? nat_of_ascii c)%nat && (nat_of_ascii c <=? 52)%nat.

End Re.

(** ** Python values and exceptions *)

Inductive pyval : Type :=
| VNone
| VBool (b : bool)
| VInt (n : Z)
| VFloat (x : pyfloat)
| VStr (s : string)
| VList (items : list pyval)
| VDict (entries : list (string * pyval)).

(** A dict literal: keys in insertion order. *)
Abbreviation pydict := (list (string * pyval)).

Module Dict.

(** [key in d] *)
Fixpoint has_key (key : string) (d : pydict) : bool :=
  match d with
  | [] => false
  | (k, _) :: rest => String.eqb k key || has_key key rest
  end.

(** [d.get(key)] *)
Fixpoint get (key : string) (d : pydict) : option pyval :=
  match d with
  | [] => None
  | (k, v) :: rest => if String.eqb k key then Some v else get key rest
  end.

(** [d[key] = v]: overwrite in place, or append a new key. *)
Fixpoint set (key : string) (v : pyval) (d : pydict) : pydict :=
  match d with
  | [] => [(key, v)]
  | (k, v') :: rest =>
      if String.eqb k key then (k, v) :: rest else (k, v') :: set key v rest
  end.

Definition keys (d : pydict) : list string := map fst d.

End Dict.

(** The exception classes the scraper can meet.  The first five are
    [requests.exceptions.RequestException] and its subclasses. *)
Inductive exn_class : Type :=
| RequestException
| ConnectionError
| Timeout
| HTTPError
| InvalidURL
| WebDriverException
| ValueError
| IndexError
| AttributeError
| TypeError
| JSONDecodeError
| OSError
| RuntimeError.

Record exn : Type := mkExn { exn_class_of : exn_class; exn_str : string }.

Definition is_RequestException (e : exn) : bool :=
  match exn_class_of e with
  | RequestException | ConnectionError | Timeout | HTTPError | InvalidURL => true
  | _ => false
  end.

Definition is_WebDriverException (e : exn) : bool :=
  match exn_class_of e with WebDriverException => true | _ => false end.

Definition is_JSONDecodeError (e : exn) : bool :=
  match exn_class_of e with JSONDecodeError => true | _ => false end.

Definition is_ValueError_or_IndexError (e : exn) : bool :=
  match exn_class_of e with ValueError | IndexError => true | _ => false end.

(** [except Exception] and a bare [except]: every class above. *)
Definition is_Exception (e : exn) : bool := true.

(** ** Effects *)

Inductive Res (A : Type) : Type :=
| Ret (a : A)
| Raise (e : exn).
Arguments Ret {A} a.
Arguments Raise {A} e.

Inductive LogLevel : Type := INFO | WARNING | ERROR.

Inductive Event : Type :=
| EvLog (level : LogLevel) (msg : string)
| EvSleep (seconds : Z)
| EvHttpGet (url : string) (params : list (string * string)) (timeout : option Z)
| EvChrome (created : bool)
| EvDriverGet (url : string)
| EvPageSource
| EvRefresh
| EvQuit
| EvNow
| EvMakedirs (path : string)
| EvOpen (path : string)
| EvWrite (path : string).

(** What one run of a computation leaves behind: its outcome, the clock
    after it and the events it emitted, oldest first. *)
Record Run (A : Type) : Type := mkRun {
  outcome : Res A;
  now : nat;
  events : list Event
}.
Arguments mkRun {A} outcome now events.
Arguments outcome {A} r.
Arguments now {A} r.
Arguments events {A} r.

Definition M (A : Type) : Type := nat -> Run A.

Definition ret {A} (a : A) : M A := fun t => mkRun (Ret a) t [].

Definition raise {A} (e : exn) : M A := fun t => mkRun (Raise e) t [].

Definition bind {A B} (m : M A) (k : A -> M B) : M B :=
  fun t =>
    let r := m t in
    match outcome r with
    | Ret a =>
        let r' := k a (now r) in
        mkRun (outcome r') (now r') (events r ++ events r')
    | Raise e => mkRun (Raise e) (now r) (events r)
    end.

Declare Scope py_scope.
Delimit Scope py_scope with py.
Notation "x <- m ;; k" := (bind m (fun x => k))
  (at level 100, m at next level, right associativity) : py_scope.
Notation "m >> k" := (bind m (fun _ => k))
  (at level 100, right associativity) : py_scope.
Local Open Scope py_scope.

Definition emit (e : Event) : M unit := fun t => mkRun (Ret tt) t [e].

(** One question to the outside world: the answer is the one the world
    holds for the current clock, and the clock advances. *)
Definition ask {A} (answer : nat -> Res A) (e : Event) : M A :=
  fun t => mkRun (answer t) (S t) [e].

(** The same, where the event records whether the answer was a value. *)
Definition ask_flagged {A} (answer : nat -> Res A) (e : bool -> Event) : M A :=
  fun t =>
    mkRun (answer t) (S t)
          [e (match answer t with Ret _ => true | Raise _ => false end)].

(** [try: body / except <catches> as e: handler e] *)
Definition try_except {A} (body : M A) (catches : exn -> bool)
    (handler : exn -> M A) : M A :=
  fun t =>
    let r := body t in
    match outcome r with
    | Ret _ => r
    | Raise e =>
        if catches e then
          let r' := handler e (now r) in
          mkRun (outcome r') (now r') (events r ++ events r')
        else r
    end.

(** [try: body / finally: cleanup] *)
Definition try_finally {A} (body : M A) (cleanup : M unit) : M A :=
  fun t =>
    let r := body t in
    let c := cleanup (now r) in
    mkRun (match outcome c with Raise e => Raise e | Ret _ => outcome r end)
          (now c) (events r ++ events c).

(** The step of a loop body: leave the function with a value, or go on
    with the next iteration. *)
Inductive Flow (A : Type) : Type :=
| Return (a : A)
| Next.
Arguments Return {A} a.
Arguments Next {A}.

Definition log (level : LogLevel) (msg : string) : M unit := emit (EvLog level msg).

(** [time.sleep(secs)]: ValueError on a negative length. *)
Definition sleep (secs : Z) : M unit :=
  if (secs <? 0)%Z
  then raise (mkExn ValueError "sleep length must be non-negative")
  else emit (EvSleep secs).

(** [range(n)] *)
Definition py_range (n : Z) : list Z := map Z.of_nat (seq 0 (Z.to_nat n)).

(** ** The outside world *)

Record Response : Type := mkResponse { status_code : Z; text : string }.

(** [bool(response)] is [response.ok]: no 4xx or 5xx status. *)
Definition response_ok (r : Response) : bool :=
  negb ((400 <=? status_code r)%Z && (status_code r <? 600)%Z).

(** One [<table>]: its text and, per [<tr>], the [get_text(strip=True)]
    of its [<td>] cells. *)
Record Table : Type := mkTable {
  table_text : string;
  table_rows : list (list string)
}.

(** The four fields [main2.py] reads off the rendered factsheet.  How
    they are located in the markup (the selector chains of lines
    111-174, each in its own try/except) is left to the world. *)
Record FactsheetFields : Type := mkFactsheetFields {
  ff_company_name : pyval;
  ff_price : pyval;
  ff_market_cap : pyval;
  ff_factsheet_table : pyval
}.

(** The views of a parsed document that the extractors consume. *)
Record Soup : Type := mkSoup {
  (* soup.find_all("table") *)
  soup_tables : list Table;
  (* link["href"] for link in soup.find_all("a", href=True) *)
  soup_hrefs : list string;
  (* main2.py, rendered factsheet *)
  soup_factsheet : string -> FactsheetFields;
  (* main.py fetch_factsheet: text of .header-1 *)
  soup_header_1 : option string;
  (* text of div.quote-summary .price *)
  soup_quote_price : option string;
  (* the market-cap <th>, and the text of its next <td> sibling if any *)
  soup_market_cap : option (option string);
  (* find("table", class table-info): per <tr>, the text of its <td>s *)
  soup_ratio_table : option (list (list string));
  (* select("table.table-info tr"): per <tr>, the text of its <td>s *)
  soup_info_rows : list (list string);
  (* the 10-day average volume <th>, and its next <td> sibling if any *)
  soup_avg_volume : option (option string);
  (* main.py fetch_factsheet_selenium: name, price and market cap *)
  soup_quote : pyval * pyval * pyval
}.

Record Env : Type := mkEnv {
  (* requests.get(url, params=..., timeout=...) at a given clock *)
  requests_get : nat -> string -> list (string * string) -> Res Response;
  (* webdriver.Chrome(options=options) *)
  webdriver_Chrome : nat -> Res unit;
  driver_get : nat -> string -> Res unit;
  driver_page_source : nat -> Res string;
  driver_refresh : nat -> Res unit;
  driver_quit : nat -> Res unit;
  (* datetime.datetime.now().isoformat() *)
  datetime_now : nat -> string;
  (* the "start_end" range of the last [months] months, formatted *)
  date_range : nat -> Z -> string;
  os_makedirs : nat -> string -> Res unit;
  (* open(path, "w", encoding="utf-8") *)
  file_open : nat -> string -> Res unit;
  (* json.dump(data, f) or f.write(text) on the open file *)
  file_write : nat -> string -> Res unit;
  (* BeautifulSoup(markup, "html.parser") *)
  BeautifulSoup : string -> Soup;
  (* json decoding of a response body; None is JSONDecodeError *)
  json_loads : string -> option pyval
}.

(** A question the world always answers (the clock, the calendar). *)
Definition ask_total {A} (answer : nat -> A) (e : Event) : M A :=
  ask (fun t => Ret (answer t)) e.

(** [try: steps / except <catches> as e: handler] where the steps update
    local variables [S]: each step commits its update when it completes,
    and the handler sees the variables as they were when the exception
    was raised. *)
Fixpoint try_steps {S} (steps : list (S -> M S)) (catches : exn -> bool)
    (handler : exn -> S -> M S) (s : S) : M S :=
  match steps with
  | [] => ret s
  | step :: rest =>
      r <- try_except (s' <- step s ;; ret (inr s')) catches
             (fun e => s' <- handler e s ;; ret (inl s')) ;;
      match r with
      | inl s' => ret s'
      | inr s' => try_steps rest catches handler s'
      end
  end.

(** [for x in xs: out.extend(f x)] *)
Fixpoint for_each {A B} (f : A -> M (list B)) (xs : list A) : M (list B) :=
  match xs with
  | [] => ret []
  | x :: rest => ys <- f x ;; zs <- for_each f rest ;; ret (ys ++ zs)%list
  end.

(** ** Operations on values whose type is only known at run time *)

Module Dyn.

(** [v.get(key, default)]: AttributeError unless [v] is a dict. *)
Definition get (v : pyval) (key : string) (default : pyval) : M pyval :=
  match v with
  | VDict d => ret (match Dict.get key d with Some x => x | None => default end)
  | _ => raise (mkExn AttributeError "object has no attribute 'get'")
  end.

(** The code points of a text, each as a one-character string. *)
Fixpoint code_points (s : string) : list string :=
  match s with
  | EmptyString => []
  | String c t =>
      match code_points t with
      | h :: r =>
          match h with
          | String d _ =>
              if (128 <=? nat_of_ascii d)%nat && (nat_of_ascii d <? 192)%nat
              then String c h :: r
              else String c EmptyString :: h :: r
          | EmptyString => String c EmptyString :: r
          end
      | [] => [String c EmptyString]
      end
  end.

(** [for item in v]: TypeError unless [v] is iterable. *)
Definition iter (v : pyval) : M (list pyval) :=
  match v with
  | VList items => ret items
  | VDict d => ret (map VStr (Dict.keys d))
  | VStr s => ret (map VStr (code_points s))
  | _ => raise (mkExn TypeError "object is not iterable")
  end.

(** [len(v)]: TypeError unless [v] is sized. *)
Definition len (v : pyval) : M Z :=
  match v with
  | VList items => ret (Z.of_nat (length items))
  | VDict d => ret (Z.of_nat (length d))
  | VStr s => ret (PyStr.py_len s)
  | _ => raise (mkExn TypeError "object has no len()")
  end.

(** [v == s] for a string [s] *)
Definition is_str (v : pyval) (s : string) : bool :=
  match v with
  | VStr s' => String.eqb s' s
  | _ => false
  end.

End Dyn.

(** ** [float(s)] and [int(s)] as they are called: ValueError on failure *)

Module Conv.

Definition to_float (s : string) : M pyfloat :=
  match PyNum.py_float s with
  | Some x => ret x
  | None => raise (mkExn ValueError
                     ("could not convert string to float: '" +:+ s +:+ "'"))
  end.

Definition to_int (s : string) : M Z :=
  match PyNum.py_int s with
  | Some n => ret n
  | None => raise (mkExn ValueError
                     ("invalid literal for int() with base 10: '" +:+ s +:+ "'"))
  end.

(** [x * 1e6] *)
Definition times_1e6 (x : pyfloat) : pyfloat :=
  match x with
  | FFinite q => FFinite (Qred (q * 1000000))
  | other => other
  end.

End Conv.

(** ** Statement files: metadata read off the link

    [main.py] (lines 225-235) and [main2.py] (lines 304-318) compute the
    entry of a link with the same expressions. *)

Module Statements.
Import PyStr Re.

Definition set_or_th : string := "https://www.set.or.th".

(** r"\.(pdf|xls|xlsx)$" *)
Definition extension_re : regex :=
  Seq (Lit ".") (Seq (Alt (lits "pdf") (Alt (lits "xls") (lits "xlsx"))) Eol).

(** r"(20\d{2})" *)
Definition year_re : regex := Seq (lits "20") (Seq digit digit).

(** r"q[1-4]|y(?:early)?" *)
Definition period_re : regex :=
  Alt (Seq (Lit "q") (Class one_to_four)) (Seq (Lit "y") (Opt (lits "early"))).

Definition file_name_of (file_url : string) : string :=
  lower (split_last "/" file_url).

Definition year_of (file_name : string) : pyval :=
  match search false year_re file_name with
  | Some y => VStr y
  | None => VNone
  end.

Definition period_of (file_name : string) : string :=
  match search false period_re file_name with
  | Some p => upper p
  | None => "UNKNOWN"
  end.

Definition language_of (file_name : string) : string :=
  if contains "th" file_name then "th"
  else if contains "en" file_name then "en"
  else "unknown".

Definition type_of (file_url : string) : string :=
  upper (split_last "." file_url).

(** The dict appended to [file_links]. *)
Definition file_entry (file_url : string) : pydict :=
  let file_name := file_name_of file_url in
  [("url", VStr file_url);
   ("year", year_of file_name);
   ("period", VStr (period_of file_name));
   ("language", VStr (language_of file_name));
   ("type", VStr (type_of file_url))].

(** The entries one link adds to [file_links]: one or none. *)
Definition link_entries (symbol href : string) : list pyval :=
  match search true extension_re href with
  | Some _ =>
      if contains (lower symbol) (lower href) then
        let file_url := if startswith "http" href then href
                        else set_or_th +:+ href in
        [VDict (file_entry file_url)]
      else []
  | None => []
  end.

End Statements.

(** * main2.py *)

Module Main2.
Import PyStr Conv.

Section WithEnv.
Variable env : Env.

(** ** Rate limiting (lines 28-37) *)

(** [@rate_limit(delay)] applied to [func], whose [__name__] is [name]. *)
Definition rate_limit {A} (delay : Z) (name : string) (func : M A) : M A :=
  log INFO ("Rate limiting: waiting " +:+ pretty delay
            +:+ " seconds before " +:+ name) >>
  sleep delay >>
  func.

(** ** Transport (lines 40-59) *)

(** [response.raise_for_status()]: HTTPError on a 4xx or 5xx status. *)
Definition raise_for_status (url : string) (r : Response) : M unit :=
  if (400 <=? status_code r)%Z && (status_code r <? 500)%Z then
    raise (mkExn HTTPError
             (pretty (status_code r) +:+ " Client Error for url: " +:+ url))
  else if (500 <=? status_code r)%Z && (status_code r <? 600)%Z then
    raise (mkExn HTTPError
             (pretty (status_code r) +:+ " Server Error for url: " +:+ url))
  else ret tt.

(** The body of [for attempt in range(max_retries)]. *)
Definition safe_request_attempt (url : string) (params : list (string * string))
    (max_retries timeout attempt : Z) : M (Flow (option Response)) :=
  try_except
    (log INFO ("Making request to " +:+ url +:+ " (attempt "
               +:+ pretty (attempt + 1)%Z +:+ ")") >>
     response <- ask (fun t => requests_get env t url params)
                     (EvHttpGet url params (Some timeout)) ;;
     raise_for_status url response >>
     ret (Return (Some response)))
    is_RequestException
    (fun e =>
       log WARNING ("Request attempt " +:+ pretty (attempt + 1)%Z
                    +:+ " failed: " +:+ exn_str e) >>
       if (attempt <? max_retries - 1)%Z then
         let wait_time := (2 ^ attempt)%Z in
         log INFO ("Waiting " +:+ pretty wait_time
                   +:+ " seconds before retry...") >>
         sleep wait_time >>
         ret Next
       else
         log ERROR ("All " +:+ pretty max_retries
                    +:+ " attempts failed for " +:+ url) >>
         ret (Return None)).

Fixpoint safe_request_loop (url : string) (params : list (string * string))
    (max_retries timeout : Z) (attempts : list Z) : M (option Response) :=
  match attempts with
  | [] => ret None      (* the loop ran out: the function returns None *)
  | attempt :: rest =>
      flow <- safe_request_attempt url params max_retries timeout attempt ;;
      match flow with
      | Return r => ret r
      | Next => safe_request_loop url params max_retries timeout rest
      end
  end.

(** [safe_request(url, params=params, max_retries=3, timeout=10)];
    the fixed User-Agent header is not modelled. *)
Definition safe_request (url : string) (params : list (string * string))
    (max_retries timeout : Z) : M (option Response) :=
  safe_request_loop url params max_retries timeout (py_range max_retries).

(** The test [if not response] picks None and, as [bool(response)] is
    [response.ok], a response with an error status; [truthy] keeps the
    response that passes the test. *)
Definition truthy (r : option Response) : option Response :=
  match r with
  | Some resp => if response_ok resp then Some resp else None
  | None => None
  end.

(** ** Browser sessions (lines 62-82) *)

Inductive Driver : Type := ChromeDriver.

Definition get_safe_driver_attempt (headless : bool) (max_retries attempt : Z)
    : M (Flow (option Driver)) :=
  try_except
    (log INFO ("Creating Chrome driver (attempt "
               +:+ pretty (attempt + 1)%Z +:+ ")") >>
     created <- ask_flagged (webdriver_Chrome env) EvChrome ;;
     ret (Return (Some ChromeDriver)))
    is_WebDriverException
    (fun e =>
       log WARNING ("Driver creation attempt " +:+ pretty (attempt + 1)%Z
                    +:+ " failed: " +:+ exn_str e) >>
       if (attempt <? max_retries - 1)%Z then
         sleep 2 >>
         ret Next
       else
         log ERROR "Failed to create Chrome driver after all attempts" >>
         ret (Return None)).

Fixpoint get_safe_driver_loop (headless : bool) (max_retries : Z)
    (attempts : list Z) : M (option Driver) :=
  match attempts with
  | [] => ret None
  | attempt :: rest =>
      flow <- get_safe_driver_attempt headless max_retries attempt ;;
      match flow with
      | Return d => ret d
      | Next => get_safe_driver_loop headless max_retries rest
      end
  end.

(** [get_safe_driver(headless=True, max_retries=3)] *)
Definition get_safe_driver (headless : bool) (max_retries : Z) : M (option Driver) :=
  get_safe_driver_loop headless max_retries (py_range max_retries).

(** ** Rendered factsheet (lines 84-194) *)

Definition quote_url (symbol page : string) : string :=
  Statements.set_or_th +:+ "/th/market/product/stock/quote/" +:+ symbol +:+ page.

Definition not_found_marker : string := "ไม่พบข้อมูล".

(** [logger.level] of a logger obtained with [getLogger(__name__)] and
    never given a level of its own is NOTSET; [logging.DEBUG] is 10. *)
Definition logger_level : Z := 0.
Definition logging_DEBUG : Z := 10.

(** [driver.page_source]: every read asks the browser again. *)
Definition page_source : M string :=
  ask (driver_page_source env) EvPageSource.

(** The condition of line 102; [or] reads the page a second time only
    when the marker is absent. *)
Definition looks_incomplete : M bool :=
  src <- page_source ;;
  if contains not_found_marker src then ret true
  else
    src' <- page_source ;;
    ret (py_len src' <? 1000)%Z.

(** Lines 102-106: one refresh and one more wait when the page looks
    incomplete. *)
Definition reload_if_incomplete (symbol : string) : M unit :=
  incomplete <- looks_incomplete ;;
  if incomplete : bool then
    log WARNING ("Page may not have loaded properly for " +:+ symbol) >>
    ask (driver_refresh env) EvRefresh >>
    sleep 5
  else ret tt.

(** Lines 108-184: the record read off the page. *)
Definition read_factsheet (symbol : string) : M pydict :=
  src <- page_source ;;
  let fields := soup_factsheet (BeautifulSoup env src) symbol in
  let data := [("symbol", VStr symbol);
               ("company_name", ff_company_name fields);
               ("price", ff_price fields);
               ("market_cap", ff_market_cap fields);
               ("factsheet_table", ff_factsheet_table fields)] in
  src_len <- page_source ;;
  log INFO ("Page source length: " +:+ pretty (py_len src_len)
            +:+ " characters") >>
  (if (logger_level <=? logging_DEBUG)%Z then
     let path := "debug_" +:+ symbol +:+ "_factsheet.html" in
     ask (fun t => file_open env t path) (EvOpen path) >>
     dump <- page_source ;;
     ask (fun t => file_write env t path) (EvWrite path)
   else ret tt) >>
  log INFO ("Successfully fetched factsheet for " +:+ symbol) >>
  ret data.

(** Lines 95-184: the work done once the driver exists. *)
Definition render_factsheet (symbol url : string) : M pydict :=
  log INFO ("Fetching factsheet for " +:+ symbol) >>
  ask (fun t => driver_get env t url) (EvDriverGet url) >>
  sleep 5 >>
  reload_if_incomplete symbol >>
  read_factsheet symbol.

Definition failed_record (symbol msg : string) (rest : pydict) : pydict :=
  ("symbol", VStr symbol) :: ("error", VStr msg) :: rest.

(** The [finally] clause once [driver] is bound to a driver. *)
Definition quit_driver : M unit :=
  try_except (ask (driver_quit env) EvQuit) is_Exception (fun _ => ret tt).

(** The undecorated function.  [driver] is assigned once, by
    [get_safe_driver]; the [finally] clause quits it when it is bound to
    a driver, so the three ways out of that assignment are told apart
    first: an exception (handled, nothing to quit), None (early return,
    nothing to quit) and a driver (the rest runs under the handler and
    the clause). *)
Definition fetch_factsheet_selenium_body (symbol : string) : M pydict :=
  let url := quote_url symbol "/factsheet" in
  let unexpected (e : exn) : M pydict :=
    log ERROR ("Unexpected error in fetch_factsheet_selenium for "
               +:+ symbol +:+ ": " +:+ exn_str e) >>
    ret (failed_record symbol (exn_str e) []) in
  bound <- try_except (driver <- get_safe_driver true 3 ;; ret (inr driver))
             is_Exception (fun e => r <- unexpected e ;; ret (inl r)) ;;
  match bound with
  | inl r => ret r
  | inr None => ret (failed_record symbol "Failed to create driver" [])
  | inr (Some ChromeDriver) =>
      try_finally
        (try_except (render_factsheet symbol url) is_Exception unexpected)
        quit_driver
  end.

Definition fetch_factsheet_selenium (symbol : string) : M pydict :=
  rate_limit 2 "fetch_factsheet_selenium" (fetch_factsheet_selenium_body symbol).

(** ** Company highlights (lines 196-244) *)

(** [cols[i]] *)
Definition item_at (cols : list string) (i : nat) : M string :=
  match cols !! i with
  | Some c => ret c
  | None => raise (mkExn IndexError "list index out of range")
  end.

(** [float(c) if c and c != '-' else None] *)
Definition float_or_none (c : string) : M pyval :=
  if negb (String.eqb c "") && negb (String.eqb c "-") then x <- to_float c ;; ret (VFloat x)
  else ret VNone.

(** [int(c) if c else None] *)
Definition int_or_none (c : string) : M pyval :=
  if negb (String.eqb c "") then n <- to_int c ;; ret (VInt n)
  else ret VNone.

Definition highlight_keys : list string :=
  ["revenue"; "net_profit"; "eps"; "bvps"; "roe"; "net_profit_margin";
   "pe"; "pbv"].

(** The entries "revenue" .. "pbv" of the item, read from cols[1..8]. *)
Fixpoint highlight_entries (cols : list string) (i : nat) (keys : list string)
    : M pydict :=
  match keys with
  | [] => ret []
  | key :: rest =>
      c <- item_at cols i ;;
      v <- float_or_none c ;;
      more <- highlight_entries cols (S i) rest ;;
      ret ((key, v) :: more)
  end.

(** One [<tr>] (lines 220-237): the items it adds to "financials". *)
Definition highlight_row (symbol : string) (row : list string) : M (list pyval) :=
  try_except
    (let cols := map (replace "," "") row in
     if (9 <=? length cols)%nat then
       c0 <- item_at cols 0 ;;
       year <- int_or_none c0 ;;
       more <- highlight_entries cols 1 highlight_keys ;;
       ret [VDict (("year", year) :: more)]
     else ret [])
    is_ValueError_or_IndexError
    (fun e =>
       log WARNING ("Error parsing financial row for " +:+ symbol
                    +:+ ": " +:+ exn_str e) >>
       ret []).

Definition highlight_table (symbol : string) (table : Table) : M (list pyval) :=
  if contains "ปี" (table_text table) && contains "รายได้รวม" (table_text table)
  then for_each (highlight_row symbol) (tail (table_rows table))
  else ret [].

Definition fetch_company_highlights_body (symbol : string) : M pydict :=
  let url := quote_url symbol "/financial-statement/company-highlights" in
  try_except
    (log INFO ("Fetching company highlights for " +:+ symbol) >>
     response <- safe_request url [] 3 10 ;;
     match truthy response with
     | None => ret (failed_record symbol "Failed to fetch highlights page" [])
     | Some response =>
         let soup := BeautifulSoup env (text response) in
         financials <- for_each (highlight_table symbol) (soup_tables soup) ;;
         log INFO ("Successfully fetched highlights for " +:+ symbol) >>
         ret [("symbol", VStr symbol);
              ("highlights", VDict [("financials", VList financials)])]
     end)
    is_Exception
    (fun e =>
       log ERROR ("Unexpected error in fetch_company_highlights for "
                  +:+ symbol +:+ ": " +:+ exn_str e) >>
       ret (failed_record symbol (exn_str e) [])).

Definition fetch_company_highlights (symbol : string) : M pydict :=
  rate_limit 1 "fetch_company_highlights" (fetch_company_highlights_body symbol).

(** ** Rights and benefits (lines 246-285) *)

Definition dividend_marker : string := "เงินปันผล".

Definition dividend_fields : list (string * string) :=
  [("year", "entitlementYear"); ("type", "benefitType");
   ("announce_date", "signPostDate"); ("xd_date", "xdDate");
   ("payment_date", "paymentDate"); ("amount_per_share", "amount");
   ("note", "remark")].

Fixpoint dividend_entries (item : pyval) (fields : list (string * string))
    : M pydict :=
  match fields with
  | [] => ret []
  | (key, source) :: rest =>
      v <- Dyn.get item source VNone ;;
      more <- dividend_entries item rest ;;
      ret ((key, v) :: more)
  end.

(** One item of the payload (lines 265-278). *)
Definition dividend_item (symbol : string) (item : pyval) : M (list pyval) :=
  try_except
    (rights_type <- Dyn.get item "rightsType" VNone ;;
     if Dyn.is_str rights_type dividend_marker then
       d <- dividend_entries item dividend_fields ;;
       ret [VDict d]
     else ret [])
    is_Exception
    (fun e =>
       log WARNING ("Error parsing dividend data for " +:+ symbol
                    +:+ ": " +:+ exn_str e) >>
       ret []).

(** [response.json()] under [except json.JSONDecodeError]: the decoded
    payload, or the record to return. *)
Definition decode_json (response : Response) (what symbol : string)
    (failure : pydict) : M (pydict + pyval) :=
  try_except
    (match json_loads env (text response) with
     | Some data => ret (inr data)
     | None => raise (mkExn JSONDecodeError "Expecting value")
     end)
    is_JSONDecodeError
    (fun e =>
       log WARNING ("Invalid JSON response for " +:+ what +:+ symbol
                    +:+ ": " +:+ exn_str e) >>
       ret (inl failure)).

Definition fetch_rights_benefits_body (symbol : string) : M pydict :=
  let url := Statements.set_or_th +:+ "/api/set/company-rights-and-benefits/"
             +:+ symbol +:+ "?type=financial" in
  let no_dividends := [("dividends", VList [])] in
  try_except
    (log INFO ("Fetching rights & benefits for " +:+ symbol) >>
     response <- safe_request url [] 3 10 ;;
     match truthy response with
     | None =>
         ret (failed_record symbol "Failed to fetch rights & benefits" no_dividends)
     | Some response =>
         decoded <- decode_json response "" symbol
                      (failed_record symbol "Invalid JSON response" no_dividends) ;;
         match decoded with
         | inl failure => ret failure
         | inr data =>
             payload <- Dyn.get data "data" (VList []) ;;
             items <- Dyn.iter payload ;;
             dividend_data <- for_each (dividend_item symbol) items ;;
             log INFO ("Successfully fetched "
                       +:+ pretty (Z.of_nat (length dividend_data))
                       +:+ " dividend records for " +:+ symbol) >>
             ret [("symbol", VStr symbol); ("dividends", VList dividend_data)]
         end
     end)
    is_Exception
    (fun e =>
       log ERROR ("Unexpected error in fetch_rights_benefits for "
                  +:+ symbol +:+ ": " +:+ exn_str e) >>
       ret (failed_record symbol (exn_str e) no_dividends)).

Definition fetch_rights_benefits (symbol : string) : M pydict :=
  rate_limit 1 "fetch_rights_benefits" (fetch_rights_benefits_body symbol).

(** ** Financial statement index (lines 287-328) *)

(** One link (lines 302-321). *)
Definition statement_link (symbol href : string) : M (list pyval) :=
  try_except
    (ret (Statements.link_entries symbol href))
    is_Exception
    (fun e =>
       log WARNING ("Error parsing file link for " +:+ symbol
                    +:+ ": " +:+ exn_str e) >>
       ret []).

Definition fetch_financial_statements_body (symbol : string) : M pydict :=
  let url := quote_url symbol "/financial-statement/financial-position" in
  let no_files := [("financial_statements", VList [])] in
  try_except
    (log INFO ("Fetching financial statements for " +:+ symbol) >>
     response <- safe_request url [] 3 10 ;;
     match truthy response with
     | None =>
         ret (failed_record symbol "Failed to fetch financial statements page"
                no_files)
     | Some response =>
         let soup := BeautifulSoup env (text response) in
         file_links <- for_each (statement_link symbol) (soup_hrefs soup) ;;
         log INFO ("Successfully found "
                   +:+ pretty (Z.of_nat (length file_links))
                   +:+ " financial statement files for " +:+ symbol) >>
         ret [("symbol", VStr symbol);
              ("financial_statements", VList file_links)]
     end)
    is_Exception
    (fun e =>
       log ERROR ("Unexpected error in fetch_financial_statements for "
                  +:+ symbol +:+ ": " +:+ exn_str e) >>
       ret (failed_record symbol (exn_str e) no_files)).

Definition fetch_financial_statements (symbol : string) : M pydict :=
  rate_limit 1 "fetch_financial_statements"
    (fetch_financial_statements_body symbol).

(** ** Historical prices (lines 330-362) *)

Definition fetch_historical_prices_body (symbol : string) (months : Z)
    : M pydict :=
  let url := Statements.set_or_th +:+ "/api/set/stock/price-chart" in
  let no_prices := [("historical_prices", VList [])] in
  try_except
    (log INFO ("Fetching historical prices for " +:+ symbol) >>
     range <- ask_total (fun t => date_range env t months) EvNow ;;
     let params := [("symbol", symbol); ("type", "month"); ("range", range)] in
     response <- safe_request url params 3 10 ;;
     match truthy response with
     | None =>
         ret (failed_record symbol "Failed to fetch historical prices" no_prices)
     | Some response =>
         decoded <- decode_json response "historical prices " symbol
                      (failed_record symbol "Invalid JSON response" no_prices) ;;
         match decoded with
         | inl failure => ret failure
         | inr data =>
             prices <- Dyn.get data "price" (VList []) ;;
             n <- Dyn.len prices ;;
             log INFO ("Successfully fetched " +:+ pretty n
                       +:+ " price records for " +:+ symbol) >>
             ret [("symbol", VStr symbol); ("historical_prices", prices)]
         end
     end)
    is_Exception
    (fun e =>
       log ERROR ("Unexpected error in fetch_historical_prices for "
                  +:+ symbol +:+ ": " +:+ exn_str e) >>
       ret (failed_record symbol (exn_str e) no_prices)).

Definition fetch_historical_prices (symbol : string) (months : Z) : M pydict :=
  rate_limit 1 "fetch_historical_prices"
    (fetch_historical_prices_body symbol months).

(** ** Aggregation (lines 364-392) *)

Definition critical_record (symbol : string) (e : exn) : pydict :=
  failed_record symbol ("Critical error: " +:+ exn_str e) [].

Definition save_stock_data (symbol : string) : M pydict :=
  try_except
    (log INFO ("Starting data collection for " +:+ symbol) >>
     timestamp <- ask_total (datetime_now env) EvNow ;;
     factsheet <- fetch_factsheet_selenium symbol ;;
     company_highlights <- fetch_company_highlights symbol ;;
     rights_benefits <- fetch_rights_benefits symbol ;;
     financial_statements <- fetch_financial_statements symbol ;;
     historical_trading <- fetch_historical_prices symbol 60 ;;
     let data := [("symbol", VStr symbol);
                  ("timestamp", VStr timestamp);
                  ("factsheet", VDict factsheet);
                  ("company_highlights", VDict company_highlights);
                  ("rights_benefits", VDict rights_benefits);
                  ("financial_statements", VDict financial_statements);
                  ("historical_trading", VDict historical_trading)] in
     ask (fun t => os_makedirs env t "data") (EvMakedirs "data") >>
     let filename := "data/" +:+ symbol +:+ ".json" in
     ask (fun t => file_open env t filename) (EvOpen filename) >>
     ask (fun t => file_write env t filename) (EvWrite filename) >>
     log INFO ("Successfully saved data for " +:+ symbol +:+ " to " +:+ filename) >>
     ret data)
    is_Exception
    (fun e =>
       log ERROR ("Critical error saving data for " +:+ symbol
                  +:+ ": " +:+ exn_str e) >>
       ret (critical_record symbol e)).

(** ** Batch runner (lines 394-428) *)

(** [results] and [failed_symbols] *)
Abbreviation BatchState := (gmap string pydict * list string)%type.

(** [repr] of a list of strings, as the f-string of line 426 prints it. *)
Definition repr_list (l : list string) : string :=
  "[" +:+ String.concat ", " (map (fun s => "'" +:+ s +:+ "'") l) +:+ "]".

(** The body of the loop for the [i]-th of [n] symbols (lines 402-422). *)
Definition batch_step (delay n i : Z) (symbol : string) : BatchState -> M BatchState :=
  try_steps
    [ (fun st =>
         log INFO ("Processing " +:+ symbol +:+ " (" +:+ pretty i +:+ "/"
                   +:+ pretty n +:+ ")") >>
         result <- save_stock_data symbol ;;
         let results := <[symbol := result]> (fst st) in
         if Dict.has_key "error" result then
           log WARNING ("Failed to scrape " +:+ symbol) >>
           ret (results, (snd st ++ [symbol])%list)
         else
           log INFO ("Successfully scraped " +:+ symbol) >>
           ret (results, snd st));
      (fun st =>
         if (i <? n)%Z then
           log INFO ("Waiting " +:+ pretty delay
                     +:+ " seconds before next symbol...") >>
           sleep delay >>
           ret st
         else ret st) ]
    is_Exception
    (fun e st =>
       log ERROR ("Critical error processing " +:+ symbol +:+ ": "
                  +:+ exn_str e) >>
       ret (<[symbol := critical_record symbol e]> (fst st),
            (snd st ++ [symbol])%list)).

(** [for i, symbol in enumerate(symbols, 1)], from index [i] on. *)
Fixpoint batch_loop (delay n i : Z) (symbols : list string) (st : BatchState)
    : M BatchState :=
  match symbols with
  | [] => ret st
  | symbol :: rest =>
      st' <- batch_step delay n i symbol st ;;
      batch_loop delay n (i + 1) rest st'
  end.

Definition batch_scrape (symbols : list string) (delay : Z) : M BatchState :=
  let n := Z.of_nat (length symbols) in
  log INFO ("Starting batch scrape for " +:+ pretty n +:+ " symbols") >>
  st <- batch_loop delay n 1 symbols (∅, []) ;;
  let failed := Z.of_nat (length (snd st)) in
  log INFO ("Batch scrape completed. Success: " +:+ pretty (n - failed)%Z
            +:+ ", Failed: " +:+ pretty failed) >>
  (match snd st with
   | [] => ret tt
   | _ :: _ => log WARNING ("Failed symbols: " +:+ repr_list (snd st))
   end) >>
  ret st.

End WithEnv.
End Main2.

(** * main.py *)

Module Main.
Import PyStr Conv.

Section WithEnv.
Variable env : Env.

Definition quote_url (symbol page : string) : string :=
  Statements.set_or_th +:+ "/th/market/product/stock/quote/" +:+ symbol +:+ page.

(** [requests.get(url, headers=headers)]: no timeout, no status check. *)
Definition get (url : string) : M Response :=
  ask (fun t => requests_get env t url []) (EvHttpGet url [] None).

(** [tag.find_next_sibling("td").text]: AttributeError on a missing
    sibling. *)
Definition sibling_text (sibling : option string) : M string :=
  match sibling with
  | Some t => ret t
  | None => raise (mkExn AttributeError
                     "'NoneType' object has no attribute 'text'")
  end.

(** ** Factsheet (lines 16-94) *)

(** Lines 56-59: the value stored for a ratio. *)
Definition ratio_value (val : string) : M pyval :=
  try_except
    (x <- to_float (replace "," "" (replace "%" "" val)) ;; ret (VFloat x))
    is_Exception
    (fun _ => ret (VStr val)).

(** Lines 51-60 *)
Fixpoint ratio_rows (rows : list (list string)) (ratios : pydict) : M pydict :=
  match rows with
  | [] => ret ratios
  | cols :: rest =>
      match cols with
      | [c0; c1] =>
          let key := strip c0 in
          v <- ratio_value (strip c1) ;;
          ratio_rows rest (Dict.set key v ratios)
      | _ => ratio_rows rest ratios
      end
  end.

(** Lines 74-82 *)
Fixpoint week52_rows (rows : list (list string)) (price_52w : pydict) : M pydict :=
  match rows with
  | [] => ret price_52w
  | tds :: rest =>
      match tds with
      | [t0; t1] =>
          let label := strip t0 in
          let val := strip t1 in
          if contains "สูงสุด 52 สัปดาห์" label then
            x <- to_float (replace "," "" val) ;;
            week52_rows rest (Dict.set "high_52w" (VFloat x) price_52w)
          else if contains "ต่ำสุด 52 สัปดาห์" label then
            x <- to_float (replace "," "" val) ;;
            week52_rows rest (Dict.set "low_52w" (VFloat x) price_52w)
          else week52_rows rest price_52w
      | _ => week52_rows rest price_52w
      end
  end.

Definition fetch_factsheet (symbol : string) : M pydict :=
  let url := quote_url symbol "/factsheet" in
  resp <- get url ;;
  let soup := BeautifulSoup env (text resp) in
  let data := [("symbol", VStr symbol)] in
  (* 1. company name *)
  let data := Dict.set "company_name"
                (match soup_header_1 soup with
                 | Some t => VStr (strip t)
                 | None => VNone
                 end) data in
  (* 2. price and market cap *)
  price <- match soup_quote_price soup with
           | Some t => x <- to_float (replace "," "" t) ;; ret (VFloat x)
           | None => ret VNone
           end ;;
  let data := Dict.set "price" price data in
  market_cap <- match soup_market_cap soup with
                | Some sibling =>
                    t <- sibling_text sibling ;;
                    let market_cap_value := replace "," "" (strip t) in
                    try_except
                      (x <- to_float market_cap_value ;;
                       ret (VFloat (times_1e6 x)))
                      is_Exception
                      (fun _ => ret VNone)
                | None => ret VNone
                end ;;
  let data := Dict.set "market_cap" market_cap data in
  (* 3. financial ratios *)
  ratios <- match soup_ratio_table soup with
            | Some rows => ratio_rows rows []
            | None => ret []
            end ;;
  let data := Dict.set "financial_ratios" (VDict ratios) data in
  (* 4. dividend info *)
  let dividend_info :=
    List.filter
      (fun kv => contains "Dividend" (fst kv) || contains "ปันผล" (fst kv))
      ratios in
  let data := Dict.set "dividend_info" (VDict dividend_info) data in
  (* 5. 52-week price range *)
  price_52w <- week52_rows (soup_info_rows soup) [] ;;
  let data := Dict.set "price_52w" (VDict price_52w) data in
  (* 6. 10-day average volume *)
  match soup_avg_volume soup with
  | Some sibling =>
      t <- sibling_text sibling ;;
      let avg_vol_val := replace "," "" (strip t) in
      v <- try_except (n <- to_int avg_vol_val ;; ret (VInt n))
             is_Exception (fun _ => ret VNone) ;;
      ret (Dict.set "avg_volume_10d" v data)
  | None => ret data
  end.

(** ** Financial statement index (lines 214-240) *)

Definition fetch_financial_statements (symbol : string) : M pydict :=
  let url := quote_url symbol "/financial-statement/financial-position" in
  response <- get url ;;
  let soup := BeautifulSoup env (text response) in
  let file_links := flat_map (Statements.link_entries symbol) (soup_hrefs soup) in
  ret [("symbol", VStr symbol); ("financial_statements", VList file_links)].

(** ** Rendered factsheet (lines 262-287) *)

Definition fetch_factsheet_selenium (symbol : string) : M pydict :=
  let url := quote_url symbol "/factsheet" in
  ask_flagged (webdriver_Chrome env) EvChrome >>
  ask (fun t => driver_get env t url) (EvDriverGet url) >>
  sleep 3 >>
  src <- ask (driver_page_source env) EvPageSource ;;
  let soup := BeautifulSoup env src in
  ask (driver_quit env) EvQuit >>
  (* lines 274-280, after the driver is gone *)
  let '(company_name, price, market_cap) := soup_quote soup in
  ret [("symbol", VStr symbol);
       ("company_name", company_name);
       ("price", price);
       ("market_cap", market_cap)].

(** ** Company highlights (lines 98-141) *)

(** [float(c) if c else None] *)
Definition float_if_text (c : string) : M pyval :=
  if negb (String.eqb c "") then x <- to_float c ;; ret (VFloat x)
  else ret VNone.

(** The entries "revenue" .. "pbv" of the item, read from cols[1..8]. *)
Fixpoint highlight_entries (cols : list string) (i : nat) (keys : list string)
    : M pydict :=
  match keys with
  | [] => ret []
  | key :: rest =>
      c <- Main2.item_at cols i ;;
      v <- float_if_text c ;;
      more <- highlight_entries cols (S i) rest ;;
      ret ((key, v) :: more)
  end.

(** One [<tr>] (lines 122-139): the items it adds to "financials"; the
    bare [except] skips the row. *)
Definition highlight_row (row : list string) : M (list pyval) :=
  let cols := map (replace "," "") row in
  if (length cols <? 2)%nat then ret []
  else
    try_except
      (c0 <- Main2.item_at cols 0 ;;
       year <- to_int c0 ;;
       more <- highlight_entries cols 1 Main2.highlight_keys ;;
       ret [VDict (("year", VInt year) :: more)])
      is_Exception
      (fun _ => ret []).

Definition highlight_table (table : Table) : M (list pyval) :=
  if contains "ปี" (table_text table) && contains "รายได้รวม" (table_text table)
  then for_each highlight_row (tail (table_rows table))
  else ret [].

Definition fetch_company_highlights (symbol : string) : M pydict :=
  let url := quote_url symbol "/financial-statement/company-highlights" in
  response <- get url ;;
  let soup := BeautifulSoup env (text response) in
  financials <- for_each highlight_table (soup_tables soup) ;;
  ret [("symbol", VStr symbol);
       ("highlights", VDict [("financials", VList financials)])].

(** ** Rights and benefits (lines 145-178) *)

(** One item of the payload (lines 163-172): no handler around it. *)
Definition dividend_item (item : pyval) : M (list pyval) :=
  rights_type <- Dyn.get item "rightsType" VNone ;;
  if Dyn.is_str rights_type Main2.dividend_marker then
    d <- Main2.dividend_entries item Main2.dividend_fields ;;
    ret [VDict d]
  else ret [].

(** [res.json()] is the only call under [try]; its [except Exception]
    returns the record without dividends. *)
Definition fetch_rights_benefits (symbol : string) : M pydict :=
  let url := Statements.set_or_th +:+ "/api/set/company-rights-and-benefits/"
             +:+ symbol +:+ "?type=financial" in
  res <- get url ;;
  match json_loads env (text res) with
  | None => ret [("symbol", VStr symbol); ("dividends", VList [])]
  | Some data =>
      payload <- Dyn.get data "data" (VList []) ;;
      items <- Dyn.iter payload ;;
      dividend_data <- for_each dividend_item items ;;
      ret [("symbol", VStr symbol); ("dividends", VList dividend_data)]
  end.

(** ** Historical prices (lines 182-211) *)

Definition fetch_historical_prices (symbol : string) (months : Z) : M pydict :=
  let url := Statements.set_or_th +:+ "/api/set/stock/price-chart" in
  range <- ask_total (fun t => date_range env t months) EvNow ;;
  let params := [("symbol", symbol); ("type", "month"); ("range", range)] in
  res <- ask (fun t => requests_get env t url params)
             (EvHttpGet url params None) ;;
  match json_loads env (text res) with
  | None => ret [("symbol", VStr symbol); ("historical_prices", VList [])]
  | Some data =>
      prices <- Dyn.get data "price" (VList []) ;;
      ret [("symbol", VStr symbol); ("historical_prices", prices)]
  end.

(** ** Snapshot (lines 244-255) *)

(** The dict literal calls the five extractors in order; nothing is
    caught, and the function returns None. *)
Definition save_stock_data (symbol : string) : M unit :=
  factsheet <- fetch_factsheet symbol ;;
  company_highlights <- fetch_company_highlights symbol ;;
  rights_benefits <- fetch_rights_benefits symbol ;;
  financial_statements <- fetch_financial_statements symbol ;;
  historical_trading <- fetch_historical_prices symbol 60 ;;
  let data := [("symbol", VStr symbol);
               ("factsheet", VDict factsheet);
               ("company_highlights", VDict company_highlights);
               ("rights_benefits", VDict rights_benefits);
               ("financial_statements", VDict financial_statements);
               ("historical_trading", VDict historical_trading)] in
  ask (fun t => os_makedirs env t "data") (EvMakedirs "data") >>
  let filename := "data/" +:+ symbol +:+ ".json" in
  ask (fun t => file_open env t filename) (EvOpen filename) >>
  ask (fun t => file_write env t filename) (EvWrite filename).

End WithEnv.
End Main.

(** * Sample worlds *)

Module Worlds.

Definition empty_fields : FactsheetFields :=
  mkFactsheetFields VNone VNone VNone (VDict []).

Definition empty_soup : Soup :=
  mkSoup [] [] (fun _ => empty_fields) None None None None [] None
         (VNone, VNone, VNone).

Definition refused : exn := mkExn ConnectionError "Connection refused".
Definition no_chrome : exn := mkExn WebDriverException "chromedriver not found".
Definition disk_full : exn := mkExn OSError "No space left on device".

(** A healthy world: every request is answered 200 with an empty JSON
    object, the browser starts and serves [page], files can be written. *)
Definition healthy (page : string) : Env :=
  mkEnv (fun _ _ _ => Ret (mkResponse 200 "{}"))
        (fun _ => Ret tt)
        (fun _ _ => Ret tt)
        (fun _ => Ret page)
        (fun _ => Ret tt)
        (fun _ => Ret tt)
        (fun _ => "2024-01-01T00:00:00")
        (fun _ _ => "2019-01-01_2024-01-01")
        (fun _ _ => Ret tt)
        (fun _ _ => Ret tt)
        (fun _ _ => Ret tt)
        (fun _ => empty_soup)
        (fun _ => Some (VDict [])).

(** The healthy world with another answer to every request. *)
Definition answering (answer : nat -> string -> Res Response) : Env :=
  let e := healthy "" in
  mkEnv (fun t url _ => answer t url)
        (webdriver_Chrome e) (driver_get e) (driver_page_source e)
        (driver_refresh e) (driver_quit e) (datetime_now e) (date_range e)
        (os_makedirs e) (file_open e) (file_write e) (BeautifulSoup e)
        (json_loads e).

(** No network and no browser; files can be written. *)
Definition offline : Env :=
  let e := healthy "" in
  mkEnv (fun _ _ _ => Raise refused)
        (fun _ => Raise no_chrome)
        (driver_get e) (driver_page_source e)
        (driver_refresh e) (driver_quit e) (datetime_now e) (date_range e)
        (os_makedirs e) (file_open e) (file_write e) (BeautifulSoup e)
        (json_loads e).

(** The healthy world, except that no file can be opened. *)
Definition read_only (page : string) : Env :=
  let e := healthy page in
  mkEnv (requests_get e) (webdriver_Chrome e) (driver_get e)
        (driver_page_source e) (driver_refresh e) (driver_quit e)
        (datetime_now e) (date_range e) (os_makedirs e)
        (fun _ _ => Raise disk_full) (file_write e) (BeautifulSoup e)
        (json_loads e).

(** The healthy world, except that the browser fails to load any page. *)
Definition unreachable_page : Env :=
  let e := healthy "" in
  mkEnv (requests_get e) (webdriver_Chrome e)
        (fun _ _ => Raise (mkExn WebDriverException "net::ERR_NAME_NOT_RESOLVED"))
        (driver_page_source e) (driver_refresh e) (driver_quit e)
        (datetime_now e) (date_range e) (os_makedirs e)
        (file_open e) (file_write e) (BeautifulSoup e)
        (json_loads e).

(** A page of [n] letters. *)
Fixpoint page_of (n : nat) : string :=
  match n with
  | O => EmptyString
  | S k => String "a" (page_of k)
  end.

(** Every request is answered 404. *)
Definition not_found : Env :=
  answering (fun _ _ => Ret (mkResponse 404 "Not Found")).

(** The first answer is 404, the following ones are 200. *)
Definition not_found_once : Env :=
  answering
    (fun t _ => Ret (mkResponse (if (t =? 0)%nat then 404 else 200) "{}")).

(** The healthy world whose pages all parse to [soup] and whose response
    bodies all decode to [payload]. *)
Definition serving (soup : Soup) (payload : option pyval) : Env :=
  let e := healthy "" in
  mkEnv (requests_get e) (webdriver_Chrome e) (driver_get e)
        (driver_page_source e) (driver_refresh e) (driver_quit e)
        (datetime_now e) (date_range e) (os_makedirs e)
        (file_open e) (file_write e)
        (fun _ => soup) (fun _ => payload).

(** A page with a highlights table (a header row, a plain row and a row
    with a dash) and three links. *)
Definition sample_page : Soup :=
  mkSoup [mkTable "ปี รายได้รวม"
            [["ปี"; "รายได้รวม"];
             ["2023"; "1,000"; "10"; "1"; "1"; "1"; "1"; "1"; "1"];
             ["2022"; "-"; "10"; "1"; "1"; "1"; "1"; "1"; "1"]]]
         ["/files/AOT_2023_Q1_th.pdf"; "http://example.org/aot.XLS"; "/about"]
         (fun _ => empty_fields) None None None None [] None
         (VNone, VNone, VNone).

(** A rights payload: one dividend and one right of another type. *)
Definition rights_payload : pyval :=
  VDict [("data",
          VList [VDict [("rightsType", VStr Main2.dividend_marker);
                        ("entitlementYear", VInt 2023);
                        ("amount", VFloat (FFinite (1 # 2)))];
                 VDict [("rightsType", VStr "XM")]])].

Definition prices_payload : pyval :=
  VDict [("price", VList [VInt 1; VInt 2])].

End Worlds.

(** * Vocabulary of the properties *)

Module Spec.

(** The computation returns a value at every clock, in every state of
    the world it is parameterised by. *)
Definition never_raises {A} (m : M A) : Prop :=
  forall t, exists a, outcome (m t) = Ret a.

(** Every event the computation emits satisfies [Q]. *)
Definition emits_only {A} (Q : Event -> Prop) (m : M A) : Prop :=
  forall t, Forall Q (events (m t)).

(** How many of the emitted events satisfy [p]. *)
Definition tally {A} (p : Event -> bool) (r : Run A) : nat :=
  length (List.filter p (events r)).

Definition is_http_get (e : Event) : bool :=
  match e with EvHttpGet _ _ _ => true | _ => false end.

Definition is_chrome_attempt (e : Event) : bool :=
  match e with EvChrome _ => true | _ => false end.

Definition is_acquire (e : Event) : bool :=
  match e with EvChrome true => true | _ => false end.

Definition is_release (e : Event) : bool :=
  match e with EvQuit => true | _ => false end.

(** The events that open or close a browser session. *)
Definition is_session (e : Event) : bool := is_acquire e || is_release e.

Definition is_refresh (e : Event) : bool :=
  match e with EvRefresh => true | _ => false end.

(** The line the batch runner logs when it takes up a symbol. *)
Definition processing_log (n : Z) (i : Z) (symbol : string) : Event :=
  EvLog INFO ("Processing " +:+ symbol +:+ " (" +:+ pretty i +:+ "/"
              +:+ pretty n +:+ ")").

Definition is_processing_log (e : Event) : bool :=
  match e with
  | EvLog INFO msg => String.prefix "Processing " msg
  | _ => false
  end.

(** The processing lines of a whole batch, in input order. *)
Fixpoint processing_logs (n i : Z) (symbols : list string) : list Event :=
  match symbols with
  | [] => []
  | s :: rest => processing_log n i s :: processing_logs n (i + 1) rest
  end.

(** The record carries an error marker. *)
Definition has_error (d : pydict) : bool := Dict.has_key "error" d.

(** What the code of [safe_request] retries on: an exception caught by
    [except RequestException], raised by [requests.get] or by
    [raise_for_status]. *)
Definition rejected (a : Res Response) : bool :=
  match a with
  | Raise e => is_RequestException e
  | Ret r => negb (response_ok r)
  end.

(** The transient conditions of the specification: connection errors,
    timeouts and 5xx responses. *)
Definition transient (a : Res Response) : bool :=
  match a with
  | Raise e =>
      match exn_class_of e with
      | ConnectionError | Timeout => true
      | _ => false
      end
  | Ret r => (500 <=? status_code r)%Z && (status_code r <? 600)%Z
  end.

(** A permanent client error: a 4xx response. *)
Definition client_error (a : Res Response) : bool :=
  match a with
  | Raise _ => false
  | Ret r => (400 <=? status_code r)%Z && (status_code r <? 500)%Z
  end.

(** An event that is not a processing line. *)
Definition quiet (e : Event) : Prop := is_processing_log e = false.

(** What creating a session emits besides the acquisition itself. *)
Definition no_release_no_refresh (e : Event) : Prop :=
  is_release e = false /\ is_refresh e = false /\ is_processing_log e = false.

(** What the work on the rendered page emits. *)
Definition no_session (e : Event) : Prop :=
  is_chrome_attempt e = false /\ is_release e = false
  /\ is_processing_log e = false.

(** What everything but the reload emits. *)
Definition no_refresh (e : Event) : Prop := is_refresh e = false.

(** What [time.sleep] raises on a negative length. *)
Definition sleep_error : exn :=
  mkExn ValueError "sleep length must be non-negative".

(** ** The batch, symbol by symbol *)

(** One turn of the batch loop on a symbol taken up at clock [t]: the
    record stored under the symbol and the names appended to the failed
    list.  The pacing sleep raises on a negative delay, after the record
    was stored; the handler then stores a critical record instead and
    appends the symbol (once more). *)
Definition turn (env : Env) (delay n i : Z) (symbol : string) (t : nat)
    : pydict * list string :=
  match outcome (Main2.save_stock_data env symbol t) with
  | Ret d =>
      let failed := if has_error d then [symbol] else [] in
      if (i <? n)%Z && (delay <? 0)%Z
      then (Main2.critical_record symbol sleep_error, (failed ++ [symbol])%list)
      else (d, failed)
  | Raise e => (Main2.critical_record symbol e, [symbol])
  end.

(** The turns of a batch: each symbol is taken up at the clock the
    previous one left. *)
Fixpoint turns (env : Env) (delay n i : Z) (symbols : list string) (t : nat)
    : list (string * (pydict * list string)) :=
  match symbols with
  | [] => []
  | s :: rest =>
      (s, turn env delay n i s t)
      :: turns env delay n (i + 1) rest (now (Main2.save_stock_data env s t))
  end.

(** The records the aggregator returns for the symbols of a batch, in
    input order, each symbol taken up when the previous one is done. *)
Fixpoint aggregated (env : Env) (symbols : list string) (t : nat)
    : list (string * pydict) :=
  match symbols with
  | [] => []
  | s :: rest =>
      let run := Main2.save_stock_data env s t in
      (s, match outcome run with
          | Ret d => d
          | Raise e => Main2.critical_record s e
          end)
      :: aggregated env rest (now run)
  end.

(** Storing records one after the other: a later record for a symbol
    overwrites the earlier one. *)
Definition store (m : gmap string pydict) (records : list (string * pydict))
    : gmap string pydict :=
  foldl (fun acc sd => <[fst sd := snd sd]> acc) m records.

(** The symbols of the records that carry an error marker, in order. *)
Definition failed_of (records : list (string * pydict)) : list string :=
  map fst (List.filter (fun sd => has_error (snd sd)) records).

(** The records stored and the names appended by the turns of a batch. *)
Definition records_of (T : list (string * (pydict * list string)))
  : list (string * pydict) :=
  map (fun x => (fst x, fst (snd x))) T.

Definition appended_of (T : list (string * (pydict * list string)))
  : list string :=
  concat (map (fun x => snd (snd x)) T).

(** The last line [safe_request] logs when it gives up. *)
Definition all_failed_log (url : string) (max_retries : Z) : Event :=
  EvLog ERROR ("All " +:+ pretty max_retries +:+ " attempts failed for " +:+ url).

(** The five sources of a symbol, under the keys of their slots. *)
Definition sources (env : Env) (symbol : string) : list (string * M pydict) :=
  [("factsheet", Main2.fetch_factsheet_selenium env symbol);
   ("company_highlights", Main2.fetch_company_highlights env symbol);
   ("rights_benefits", Main2.fetch_rights_benefits env symbol);
   ("financial_statements", Main2.fetch_financial_statements env symbol);
   ("historical_trading", Main2.fetch_historical_prices env symbol 60)].

(** The slots filled by running the sources one after the other from
    clock [t]: each slot holds what its extractor returned. *)
Fixpoint slots (srcs : list (string * M pydict)) (t : nat) : pydict :=
  match srcs with
  | [] => []
  | (key, m) :: rest =>
      (key, match outcome (m t) with
            | Ret d => VDict d
            | Raise _ => VNone
            end) :: slots rest (now (m t))
  end.

(** The partial record in a slot carries an error marker. *)
Definition slot_failed (d : pydict) (slot : string) : bool :=
  match Dict.get slot d with
  | Some (VDict p) => has_error p
  | _ => false
  end.

Definition source_slots : list string :=
  ["factsheet"; "company_highlights"; "rights_benefits";
   "financial_statements"; "historical_trading"].

(** The value [main2.py] stores for the text of a cell in columns 1-8
    of a highlights row (lines 221 and 225-232). *)
Definition highlight_cell (cell : string) : M pyval :=
  Main2.float_or_none (PyStr.replace "," "" cell).

(** A highlights row whose revenue cell is [cell]. *)
Definition highlights_row_with (cell : string) : list string :=
  ["2023"; cell; "10"; "1"; "1"; "1"; "1"; "1"; "1"].

(** The numeric normalization of the specification, for a coercion
    [coerce] of cell text. *)
Definition normalizes (coerce : string -> Res pyval) : Prop :=
  coerce "1,234.50%" = Ret (VFloat (FFinite (2469 # 2)))
  /\ coerce "-" = Ret VNone
  /\ coerce "" = Ret VNone.

(** [tail] is [s] or what is left of [s] after some characters. *)
Inductive suffix_of : string -> string -> Prop :=
| suffix_here s : suffix_of s s
| suffix_later c s tail : suffix_of tail s -> suffix_of tail (String c s).

(** A year token: "20" and two digits. *)
Definition year_token (y : string) : Prop :=
  exists d1 d2, PyStr.is_digit d1 = true /\ PyStr.is_digit d2 = true
                /\ y = String "2" (String "0" (String d1 (String d2 ""))).

(** What the period pattern can match. *)
Definition period_token (p : string) : Prop :=
  In p ["q1"; "q2"; "q3"; "q4"; "y"; "yearly"].

(** [block] occurs in [l] as a run of consecutive events. *)
Definition occurs_in (block l : list Event) : Prop :=
  exists pre post, l = (pre ++ block ++ post)%list.

(** ** Pacing *)

Definition is_sleep (e : Event) : bool :=
  match e with EvSleep _ => true | _ => false end.

(** The lengths of the sleeps among the events, in order. *)
Definition slept (l : list Event) : list Z :=
  flat_map (fun e => match e with EvSleep s => [s] | _ => [] end) l.

(** The waits 2^k, 2^(k+1), ..., [n] of them. *)
Definition backoff (k n : nat) : list Z :=
  map (fun i => (2 ^ Z.of_nat i)%Z) (seq k n).

(** What [get_safe_driver] retries on: [webdriver.Chrome] raising a
    WebDriverException. *)
Definition declined (a : Res unit) : bool :=
  match a with
  | Raise e => is_WebDriverException e
  | Ret _ => false
  end.

(** The delays of the [rate_limit] decorators of the five extractors, in
    the order [save_stock_data] calls them. *)
Definition rate_limits : list Z := [2; 1; 1; 1; 1]%Z.

(** The sleeps of a batch: those of the aggregator for each symbol, and
    one pacing sleep between two symbols. *)
Fixpoint batch_sleeps (env : Env) (delay : Z) (symbols : list string) (t : nat)
    : list Z :=
  match symbols with
  | [] => []
  | s :: rest =>
      let run := Main2.save_stock_data env s t in
      (slept (events run)
       ++ match rest with
          | [] => []
          | _ :: _ => [delay]
          end
       ++ batch_sleeps env delay rest (now run))%list
  end.

(** ** Results and exceptions *)

(** Whatever the computation returns satisfies [P]. *)
Definition returns {A} (P : A -> Prop) (m : M A) : Prop :=
  forall t a, outcome (m t) = Ret a -> P a.

(** Whatever the computation raises is caught by [c]. *)
Definition raises_only {A} (c : exn -> bool) (m : M A) : Prop :=
  forall t e, outcome (m t) = Raise e -> c e = true.

Definition returned {A} (r : Run A) : bool :=
  match outcome r with
  | Ret _ => true
  | Raise _ => false
  end.

(** Run one after the other from clock [t], the sources all return. *)
Fixpoint all_return (srcs : list (M pydict)) (t : nat) : bool :=
  match srcs with
  | [] => true
  | m :: rest => returned (m t) && all_return rest (now (m t))
  end.

(** ** Records and payloads *)

Definition rights_url (symbol : string) : string :=
  Statements.set_or_th +:+ "/api/set/company-rights-and-benefits/"
  +:+ symbol +:+ "?type=financial".

Definition prices_url : string :=
  Statements.set_or_th +:+ "/api/set/stock/price-chart".

Definition price_params (symbol range : string) : list (string * string) :=
  [("symbol", symbol); ("type", "month"); ("range", range)].

Definition statements_url (symbol : string) : string :=
  Main2.quote_url symbol "/financial-statement/financial-position".

Definition highlights_url (symbol : string) : string :=
  Main2.quote_url symbol "/financial-statement/company-highlights".

(** The dividend record built from the fields of a payload item: a
    missing field is None. *)
Definition dividend_entry (fields : pydict) : pydict :=
  map (fun ks => (fst ks, match Dict.get (snd ks) fields with
                          | Some v => v
                          | None => VNone
                          end))
      Main2.dividend_fields.

(** What a payload item adds to "dividends": its record when it is a
    dict whose "rightsType" is the dividend marker, nothing otherwise. *)
Definition dividend_of (item : pyval) : list pyval :=
  match item with
  | VDict fields =>
      match Dict.get "rightsType" fields with
      | Some (VStr s) =>
          if String.eqb s Main2.dividend_marker
          then [VDict (dividend_entry fields)] else []
      | _ => []
      end
  | _ => []
  end.

(** An error-tagged record: the symbol, an error message and the empty
    data [empty] of the extractor. *)
Definition failure_of (symbol : string) (empty : pydict) (d : pydict) : Prop :=
  exists msg, d = Main2.failed_record symbol msg empty.

(** A value [len] accepts. *)
Definition sized (v : pyval) : Prop :=
  match v with
  | VList _ | VDict _ | VStr _ => True
  | _ => False
  end.

Definition numeric_or_none (v : pyval) : Prop :=
  match v with
  | VNone | VInt _ | VFloat _ => True
  | _ => False
  end.

(** The keys of the factsheet record of [main2.py], and of [main.py]. *)
Definition factsheet_keys : list string :=
  ["symbol"; "company_name"; "price"; "market_cap"; "factsheet_table"].

Definition main_factsheet_keys : list string :=
  ["symbol"; "company_name"; "price"; "market_cap"; "financial_ratios";
   "dividend_info"; "price_52w"].

(** The labels [main.py] copies into "dividend_info" (line 67). *)
Definition dividend_label (key : string) : bool :=
  PyStr.contains "Dividend" key || PyStr.contains "ปันผล" key.

(** What [main.py] stores for the text of a ratio cell (lines 55-59). *)
Definition ratio_of (val : string) : pyval :=
  match PyNum.py_float (PyStr.replace "," "" (PyStr.replace "%" "" val)) with
  | Some x => VFloat x
  | None => VStr val
  end.

(** The label of a row of the ratio table, when the row has two cells. *)
Definition ratio_label (row : list string) : option string :=
  match row with
  | [c0; _] => Some (PyStr.strip c0)
  | _ => None
  end.

(** What one row of the ratio table does to [ratios]. *)
Definition ratio_step (ratios : pydict) (row : list string) : pydict :=
  match row with
  | [c0; c1] => Dict.set (PyStr.strip c0) (ratio_of (PyStr.strip c1)) ratios
  | _ => ratios
  end.

(** ** Files *)

Definition is_file_event (e : Event) : bool :=
  match e with
  | EvMakedirs _ | EvOpen _ | EvWrite _ => true
  | _ => false
  end.

Definition no_file (e : Event) : Prop := is_file_event e = false.

Definition snapshot_path (symbol : string) : string :=
  "data/" +:+ symbol +:+ ".json".

Definition debug_path (symbol : string) : string :=
  "debug_" +:+ symbol +:+ "_factsheet.html".

(** The five sources of a snapshot of [main.py], in the order of the
    dict literal of [save_stock_data]. *)
Definition main_sources (env : Env) (symbol : string) : list (M pydict) :=
  [Main.fetch_factsheet env symbol;
   Main.fetch_company_highlights env symbol;
   Main.fetch_rights_benefits env symbol;
   Main.fetch_financial_statements env symbol;
   Main.fetch_historical_prices env symbol 60].

(** ** Links *)

Definition newline : string := String (ascii_of_nat 10) "".

(** The pattern [$] as the rest of a match. *)
Definition at_end (s : string) : option string := Re.exec true Re.Eol s Some.

(** ** The snapshot of a symbol *)

(** The clock at which the sources, run one after the other from clock
    [t], are done. *)
Fixpoint collected_at (srcs : list (string * M pydict)) (t : nat) : nat :=
  match srcs with
  | [] => t
  | (_, m) :: rest => collected_at rest (now (m t))
  end.

(** The three steps that write the snapshot of [main2.py], the first of
    them taken at clock [t]: creating the directory, opening the file and
    writing it.  The exception of the first step that raises, if one
    does. *)
Definition write_error (env : Env) (symbol : string) (t : nat) : option exn :=
  match os_makedirs env t "data" with
  | Raise e => Some e
  | Ret _ =>
      match file_open env (S t) (snapshot_path symbol) with
      | Raise e => Some e
      | Ret _ =>
          match file_write env (S (S t)) (snapshot_path symbol) with
          | Raise e => Some e
          | Ret _ => None
          end
      end
  end.

(** Run one after the other from clock [t], every source returns a
    record, and [d] holds that record under the key of the source. *)
Fixpoint slots_hold (srcs : list (string * M pydict)) (t : nat) (d : pydict)
    : Prop :=
  match srcs with
  | [] => True
  | (key, m) :: rest =>
      (exists p, outcome (m t) = Ret p /\ Dict.get key d = Some (VDict p))
      /\ slots_hold rest (now (m t)) d
  end.

(** The symbols of a batch started at clock [t] whose snapshot could not
    be written, in order, each symbol taken up when the previous one is
    done. *)
Fixpoint failed_writes (env : Env) (symbols : list string) (t : nat)
    : list string :=
  match symbols with
  | [] => []
  | s :: rest =>
      (match write_error env s (collected_at (sources env s) (S t)) with
       | Some _ => [s]
       | None => []
       end
       ++ failed_writes env rest (now (Main2.save_stock_data env s t)))%list
  end.

(** The sleeps of an HTTP extractor of [main2.py] whose run is [r]: the
    back-off waits between its requests. *)
Definition retry_waits (r : Run pydict) : list Z :=
  backoff 0 (tally is_http_get r - 1).

(** ** Names and tokens *)

(** [part] is what follows the last [sep] of [s], or all of [s] when
    [s] has no [sep]. *)
Definition last_part (sep : ascii) (part s : string) : Prop :=
  PyStr.contains (String sep "") part = false
  /\ (s = part \/ exists front, s = front +:+ String sep part).

(** In the text [before ++ m ++ after], [m] is the leftmost token: it is
    one, and no token starts at a position inside [before]. *)
Definition first_token (token : string -> Prop) (before m after : string)
    : Prop :=
  token m
  /\ forall skipped tail,
       before = skipped +:+ tail -> tail <> "" ->
       forall m', token m' -> String.prefix m' (tail +:+ m +:+ after) = false.

(** [m] is the longest token at the head of [s]. *)
Definition longest_token (token : string -> Prop) (m s : string) : Prop :=
  forall m', token m' -> String.prefix m' s = true ->
             (String.length m' <= String.length m)%nat.

(** The extensions of a statement file, in upper case. *)
Definition statement_types : list string := ["PDF"; "XLS"; "XLSX"].

End Spec.

(** * Properties *)

Import Spec.
Set Warnings "-clear-no-such-hyp".

(** * Laws of the effect monad *)


Section MonadFacts.
Context {A B : Type}.

Lemma outcome_bind (m : M A) (k : A -> M B) t :
  outcome (bind m k t) =
  match outcome (m t) with
  | Ret a => outcome (k a (now (m t)))
  | Raise e => Raise e
  end.
Proof. unfold bind. destruct (outcome (m t)); reflexivity. Qed.

Lemma now_bind (m : M A) (k : A -> M B) t :
  now (bind m k t) =
  match outcome (m t) with
  | Ret a => now (k a (now (m t)))
  | Raise _ => now (m t)
  end.
Proof. unfold bind. destruct (outcome (m t)); reflexivity. Qed.

Lemma events_bind (m : M A) (k : A -> M B) t :
  events (bind m k t) =
  (events (m t) ++
   match outcome (m t) with
   | Ret a => events (k a (now (m t)))
   | Raise _ => []
   end)%list.
Proof.
  unfold bind. destruct (outcome (m t)); simpl; [reflexivity|].
  symmetry. apply app_nil_r.
Qed.

End MonadFacts.

Section TryFacts.
Context {A : Type}.

Lemma outcome_try_except (m : M A) c h t :
  outcome (try_except m c h t) =
  match outcome (m t) with
  | Ret a => Ret a
  | Raise e => if c e then outcome (h e (now (m t))) else Raise e
  end.
Proof.
  unfold try_except. destruct (outcome (m t)) eqn:E; [exact E|].
  destruct (c e); [reflexivity | exact E].
Qed.

Lemma now_try_except (m : M A) c h t :
  now (try_except m c h t) =
  match outcome (m t) with
  | Ret _ => now (m t)
  | Raise e => if c e then now (h e (now (m t))) else now (m t)
  end.
Proof.
  unfold try_except. destruct (outcome (m t)); [reflexivity|].
  destruct (c e); reflexivity.
Qed.

Lemma events_try_except (m : M A) c h t :
  events (try_except m c h t) =
  (events (m t) ++
   match outcome (m t) with
   | Ret _ => []
   | Raise e => if c e then events (h e (now (m t))) else []
   end)%list.
Proof.
  unfold try_except. destruct (outcome (m t)).
  - symmetry; apply app_nil_r.
  - destruct (c e); [reflexivity | symmetry; apply app_nil_r].
Qed.

Lemma events_try_finally (m : M A) c t :
  events (try_finally m c t) = (events (m t) ++ events (c (now (m t))))%list.
Proof. reflexivity. Qed.

Lemma outcome_try_finally (m : M A) c t :
  outcome (try_finally m c t) =
  match outcome (c (now (m t))) with
  | Raise e => Raise e
  | Ret _ => outcome (m t)
  end.
Proof. reflexivity. Qed.

End TryFacts.

(** ** Computations that never raise *)

Lemma nr_ret {A} (a : A) : never_raises (ret a).
Proof. intros t. exists a. reflexivity. Qed.

Lemma nr_emit e : never_raises (emit e).
Proof. intros t. exists tt. reflexivity. Qed.

Lemma nr_log l msg : never_raises (log l msg).
Proof. apply nr_emit. Qed.

Lemma nr_sleep secs : (0 <= secs)%Z -> never_raises (sleep secs).
Proof.
  intros H t. exists tt. unfold sleep.
  destruct (Z.ltb_spec secs 0); [lia | reflexivity].
Qed.

Lemma nr_ask_total {A} (f : nat -> A) e : never_raises (ask_total f e).
Proof. intros t. exists (f t). reflexivity. Qed.

Lemma nr_bind {A B} (m : M A) (k : A -> M B) :
  never_raises m -> (forall a, never_raises (k a)) -> never_raises (bind m k).
Proof.
  intros Hm Hk t. destruct (Hm t) as [a Ha].
  destruct (Hk a (now (m t))) as [b Hb].
  exists b. rewrite outcome_bind, Ha. exact Hb.
Qed.

(** A handler for every exception makes the whole statement safe,
    whatever the body does. *)
Lemma nr_try_except_all {A} (m : M A) h :
  (forall e, never_raises (h e)) -> never_raises (try_except m is_Exception h).
Proof.
  intros Hh t. rewrite outcome_try_except.
  destruct (outcome (m t)) as [a|e]; [eauto|].
  simpl. apply Hh.
Qed.

Lemma nr_try_finally {A} (m : M A) c :
  never_raises m -> never_raises c -> never_raises (try_finally m c).
Proof.
  intros Hm Hc t. rewrite outcome_try_finally.
  destruct (Hc (now (m t))) as [u ->]. apply Hm.
Qed.

Lemma nr_try_steps {S} (steps : list (S -> M S)) h s :
  (forall e s', never_raises (h e s')) ->
  never_raises (try_steps steps is_Exception h s).
Proof.
  intros Hh. revert s. induction steps as [|step rest IH]; intros s; simpl.
  - apply nr_ret.
  - apply nr_bind.
    + apply nr_try_except_all. intros e. apply nr_bind; [apply Hh|].
      intros; apply nr_ret.
    + intros [s'|s']; [apply nr_ret | apply IH].
Qed.

(** ** Computations whose events all satisfy a predicate *)

Section EmitsOnly.
Variable Q : Event -> Prop.

Lemma eo_ret {A} (a : A) : emits_only Q (ret a).
Proof. intros t. constructor. Qed.

Lemma eo_raise {A} e : emits_only Q (@raise A e).
Proof. intros t. constructor. Qed.

Lemma eo_emit e : Q e -> emits_only Q (emit e).
Proof. intros H t. repeat constructor. exact H. Qed.

Lemma eo_log l msg : Q (EvLog l msg) -> emits_only Q (log l msg).
Proof. apply eo_emit. Qed.

Lemma eo_sleep secs : Q (EvSleep secs) -> emits_only Q (sleep secs).
Proof.
  intros H. unfold sleep. destruct (secs <? 0)%Z; [apply eo_raise | apply eo_emit, H].
Qed.

Lemma eo_ask {A} (f : nat -> Res A) e : Q e -> emits_only Q (ask f e).
Proof. intros H t. repeat constructor. exact H. Qed.

Lemma eo_ask_total {A} (f : nat -> A) e : Q e -> emits_only Q (ask_total f e).
Proof. intros H t. repeat constructor. exact H. Qed.

Lemma eo_ask_flagged {A} (f : nat -> Res A) e :
  (forall b, Q (e b)) -> emits_only Q (ask_flagged f e).
Proof. intros H t. repeat constructor. apply H. Qed.

Lemma eo_bind {A B} (m : M A) (k : A -> M B) :
  emits_only Q m -> (forall a, emits_only Q (k a)) -> emits_only Q (bind m k).
Proof.
  intros Hm Hk t. rewrite events_bind. apply Forall_app. split; [apply Hm|].
  destruct (outcome (m t)); [apply Hk | constructor].
Qed.

Lemma eo_try_except {A} (m : M A) c h :
  emits_only Q m -> (forall e, emits_only Q (h e)) ->
  emits_only Q (try_except m c h).
Proof.
  intros Hm Hh t. rewrite events_try_except. apply Forall_app. split; [apply Hm|].
  destruct (outcome (m t)); [constructor|].
  destruct (c e); [apply Hh | constructor].
Qed.

Lemma eo_try_finally {A} (m : M A) c :
  emits_only Q m -> emits_only Q c -> emits_only Q (try_finally m c).
Proof.
  intros Hm Hc t. rewrite events_try_finally. apply Forall_app.
  split; [apply Hm | apply Hc].
Qed.

Lemma eo_for_each {A B} (f : A -> M (list B)) xs :
  (forall x, emits_only Q (f x)) -> emits_only Q (for_each f xs).
Proof.
  intros Hf. induction xs as [|x rest IH]; simpl.
  - apply eo_ret.
  - apply eo_bind; [apply Hf|]. intros ys.
    apply eo_bind; [apply IH|]. intros zs. apply eo_ret.
Qed.

End EmitsOnly.

(** * Transport *)

Lemma tally_bind {A B} p (m : M A) (k : A -> M B) t :
  tally p (bind m k t) =
  tally p (m t) +
  match outcome (m t) with
  | Ret a => tally p (k a (now (m t)))
  | Raise _ => 0
  end.
Proof.
  unfold tally. rewrite events_bind, List.filter_app, length_app.
  destruct (outcome (m t)); reflexivity.
Qed.

Lemma response_not_ok r :
  response_ok r = false <-> (400 <= status_code r < 600)%Z.
Proof.
  unfold response_ok. rewrite negb_false_iff, andb_true_iff, Z.leb_le, Z.ltb_lt.
  reflexivity.
Qed.

Lemma response_is_ok r :
  response_ok r = true <-> ~ (400 <= status_code r < 600)%Z.
Proof.
  rewrite <- response_not_ok. destruct (response_ok r); split; congruence.
Qed.

Lemma transient_rejected a : transient a = true -> rejected a = true.
Proof.
  destruct a as [r|e]; simpl.
  - unfold response_ok. intros H. rewrite negb_involutive.
    apply andb_prop in H as [H1 H2]. apply Z.leb_le in H1. apply Z.ltb_lt in H2.
    apply andb_true_intro. split; [apply Z.leb_le | apply Z.ltb_lt]; lia.
  - unfold is_RequestException. destruct (exn_class_of e); congruence.
Qed.

Lemma client_error_rejected a : client_error a = true -> rejected a = true.
Proof.
  destruct a as [r|e]; simpl; [|congruence].
  unfold response_ok. intros H. rewrite negb_involutive.
  apply andb_prop in H as [H1 H2]. apply Z.leb_le in H1. apply Z.ltb_lt in H2.
  apply andb_true_intro. split; [apply Z.leb_le | apply Z.ltb_lt]; lia.
Qed.

Section Transport.
Variable env : Env.
Variables (url : string) (params : list (string * string)).
Variables (max_retries timeout : Z).

Lemma sleep_backoff attempt t :
  sleep (2 ^ attempt) t = mkRun (Ret tt) t [EvSleep (2 ^ attempt)].
Proof.
  unfold sleep. destruct (Z.ltb_spec (2 ^ attempt) 0) as [H|H]; [|reflexivity].
  pose proof (Z.pow_nonneg 2 attempt). lia.
Qed.

(** One attempt asks the network exactly once and advances the clock by
    one, whatever the answer. *)
Lemma attempt_once attempt t :
  let r := Main2.safe_request_attempt env url params max_retries timeout attempt t in
  tally is_http_get r = 1 /\ now r = S t.
Proof.
  unfold Main2.safe_request_attempt, try_except, bind, log, emit, ask,
    Main2.raise_for_status, tally. simpl.
  destruct (requests_get env t url params) as [resp|e]; simpl.
  - destruct ((400 <=? status_code resp)%Z && (status_code resp <? 500)%Z); simpl.
    + destruct (attempt <? max_retries - 1)%Z; simpl;
        [rewrite sleep_backoff|]; simpl; auto.
    + destruct ((500 <=? status_code resp)%Z && (status_code resp <? 600)%Z); simpl; auto.
      destruct (attempt <? max_retries - 1)%Z; simpl;
        [rewrite sleep_backoff|]; simpl; auto.
  - destruct (is_RequestException e); simpl; auto.
    destruct (attempt <? max_retries - 1)%Z; simpl;
      [rewrite sleep_backoff|]; simpl; auto.
Qed.

Lemma attempt_rejected attempt t :
  rejected (requests_get env t url params) = true ->
  outcome (Main2.safe_request_attempt env url params max_retries timeout attempt t)
  = Ret (if (attempt <? max_retries - 1)%Z then Next else Return None).
Proof.
  unfold Main2.safe_request_attempt, try_except, bind, log, emit, ask,
    Main2.raise_for_status, rejected. simpl.
  destruct (requests_get env t url params) as [resp|e]; simpl.
  - intros H. apply negb_true_iff in H. apply response_not_ok in H.
    destruct (Z.ltb_spec (status_code resp) 500).
    + replace (400 <=? status_code resp)%Z with true by (symmetry; apply Z.leb_le; lia).
      simpl. destruct (attempt <? max_retries - 1)%Z; simpl;
        [rewrite sleep_backoff|]; reflexivity.
    + rewrite andb_false_r.
      replace (500 <=? status_code resp)%Z with true by (symmetry; apply Z.leb_le; lia).
      replace (status_code resp <? 600)%Z with true by (symmetry; apply Z.ltb_lt; lia).
      simpl. destruct (attempt <? max_retries - 1)%Z; simpl;
        [rewrite sleep_backoff|]; reflexivity.
  - intros ->. destruct (attempt <? max_retries - 1)%Z; simpl;
      [rewrite sleep_backoff|]; reflexivity.
Qed.

(** An answer the code does not retry on ends the call at once: an
    accepted response is returned, any other exception propagates. *)
Lemma attempt_not_rejected attempt t :
  rejected (requests_get env t url params) = false ->
  outcome (Main2.safe_request_attempt env url params max_retries timeout attempt t)
  = match requests_get env t url params with
    | Ret resp => Ret (Return (Some resp))
    | Raise e => Raise e
    end.
Proof.
  unfold Main2.safe_request_attempt, try_except, bind, log, emit, ask,
    Main2.raise_for_status, rejected. simpl.
  destruct (requests_get env t url params) as [resp|e]; simpl.
  - intros H. apply negb_false_iff in H. apply response_is_ok in H.
    replace ((400 <=? status_code resp)%Z && (status_code resp <? 500)%Z)
      with false.
    2:{ symmetry. apply andb_false_iff.
        destruct (Z.leb_spec 400 (status_code resp)); [right|left; reflexivity].
        apply Z.ltb_ge. lia. }
    replace ((500 <=? status_code resp)%Z && (status_code resp <? 600)%Z)
      with false; [reflexivity|].
    symmetry. apply andb_false_iff.
    destruct (Z.leb_spec 500 (status_code resp)); [right|left; reflexivity].
    apply Z.ltb_ge. lia.
  - intros ->. reflexivity.
Qed.

(** The loop over the attempts [k, k+1, ..., k+j-1] when these are the
    last [j] of the budget and every answer is one the code retries on. *)
Lemma loop_all_rejected j : forall k t,
  k + j = Z.to_nat max_retries ->
  (forall i, i < j -> rejected (requests_get env (t + i) url params) = true) ->
  let r := Main2.safe_request_loop env url params max_retries timeout
             (map Z.of_nat (seq k j)) t in
  outcome r = Ret None /\ now r = t + j /\ tally is_http_get r = j.
Proof.
  induction j as [|j IH]; intros k t Hk Hrej; simpl.
  - unfold tally. simpl. repeat split; lia.
  - pose proof (attempt_once (Z.of_nat k) t) as [Htally Hnow].
    assert (Hout := attempt_rejected (Z.of_nat k) t).
    assert (H0 := Hrej 0 ltac:(lia)). rewrite Nat.add_0_r in H0.
    specialize (Hout H0).
    rewrite outcome_bind, now_bind, tally_bind, Hout, Htally, Hnow.
    destruct (Z.ltb_spec (Z.of_nat k) (max_retries - 1)) as [Hlt|Hge].
    + destruct (IH (S k) (S t)) as (Ho & Hn & Ht); [lia| |].
      { intros i Hi. replace (S t + i) with (t + S i) by lia. apply Hrej. lia. }
      rewrite Ho, Hn, Ht. repeat split; lia.
    + assert (j = 0) by lia. subst j. unfold tally. simpl. repeat split; lia.
Qed.

Lemma safe_request_all_rejected t :
  (forall i, i < Z.to_nat max_retries ->
             rejected (requests_get env (t + i) url params) = true) ->
  let r := Main2.safe_request env url params max_retries timeout t in
  outcome r = Ret None /\ now r = t + Z.to_nat max_retries
  /\ tally is_http_get r = Z.to_nat max_retries.
Proof.
  intros H. unfold Main2.safe_request, py_range.
  apply loop_all_rejected; [lia | exact H].
Qed.

End Transport.

(** * Events of the extractors *)

(** ** Structural automation for [emits_only] *)

Ltac eo_leaf := first [ reflexivity | repeat split; reflexivity ].

Ltac eo_step :=
  match goal with
  | |- emits_only _ (ret _) => apply eo_ret
  | |- emits_only _ (raise _) => apply eo_raise
  | |- emits_only _ (log _ _) => apply eo_log; eo_leaf
  | |- emits_only _ (emit _) => apply eo_emit; eo_leaf
  | |- emits_only _ (sleep _) => apply eo_sleep; eo_leaf
  | |- emits_only _ (ask _ _) => apply eo_ask; eo_leaf
  | |- emits_only _ (ask_total _ _) => apply eo_ask_total; eo_leaf
  | |- emits_only _ (ask_flagged _ _) => apply eo_ask_flagged; intros []; eo_leaf
  | |- emits_only _ (bind _ _) => apply eo_bind; [|intros ?]
  | |- emits_only _ (try_except _ _ _) => apply eo_try_except; [|intros ?]
  | |- emits_only _ (try_finally _ _) => apply eo_try_finally
  | |- emits_only _ (for_each _ _) => apply eo_for_each; intros ?
  | |- emits_only _ (match ?x with _ => _ end) => destruct x
  | |- emits_only _ (let (_, _) := ?x in _) => destruct x
  end.

Ltac eo := repeat eo_step.

Section Main2Events.
Variable env : Env.

Lemma rate_limit_quiet {A} delay name (func : M A) :
  emits_only quiet func -> emits_only quiet (Main2.rate_limit delay name func).
Proof. intros H. unfold Main2.rate_limit. eo. exact H. Qed.

Lemma safe_request_quiet url params max_retries timeout :
  emits_only quiet (Main2.safe_request env url params max_retries timeout).
Proof.
  unfold Main2.safe_request. generalize (py_range max_retries) as attempts.
  induction attempts as [|attempt rest IH]; simpl; [apply eo_ret|].
  apply eo_bind.
  - unfold Main2.safe_request_attempt, Main2.raise_for_status. eo.
  - intros [r|]; [apply eo_ret | exact IH].
Qed.

Lemma get_safe_driver_events headless max_retries :
  emits_only no_release_no_refresh (Main2.get_safe_driver env headless max_retries).
Proof.
  unfold Main2.get_safe_driver. generalize (py_range max_retries) as attempts.
  induction attempts as [|attempt rest IH]; simpl; [apply eo_ret|].
  apply eo_bind.
  - unfold Main2.get_safe_driver_attempt. eo.
  - intros [r|]; [apply eo_ret | exact IH].
Qed.

Lemma looks_incomplete_events :
  emits_only no_session (Main2.looks_incomplete env).
Proof. unfold Main2.looks_incomplete, Main2.page_source. eo. Qed.

Lemma render_factsheet_events symbol url :
  emits_only no_session (Main2.render_factsheet env symbol url).
Proof.
  unfold Main2.render_factsheet, Main2.reload_if_incomplete,
    Main2.read_factsheet, Main2.page_source.
  eo; try apply looks_incomplete_events.
Qed.

Lemma get_safe_driver_quiet headless max_retries :
  emits_only quiet (Main2.get_safe_driver env headless max_retries).
Proof.
  intros t. eapply Forall_impl; [apply get_safe_driver_events|].
  intros e (_ & _ & H). exact H.
Qed.

Lemma render_factsheet_quiet symbol url :
  emits_only quiet (Main2.render_factsheet env symbol url).
Proof.
  intros t. eapply Forall_impl; [apply render_factsheet_events|].
  intros e (_ & _ & H). exact H.
Qed.

Lemma fetch_factsheet_selenium_quiet symbol :
  emits_only quiet (Main2.fetch_factsheet_selenium env symbol).
Proof.
  apply rate_limit_quiet. unfold Main2.fetch_factsheet_selenium_body.
  eo; try apply get_safe_driver_quiet; try apply render_factsheet_quiet.
  unfold Main2.quit_driver. eo.
Qed.

Lemma highlight_entries_quiet cols keys : forall i,
  emits_only quiet (Main2.highlight_entries cols i keys).
Proof.
  induction keys as [|key rest IH]; intros i; simpl; [apply eo_ret|].
  unfold Main2.item_at, Main2.float_or_none, Conv.to_float.
  eo. apply IH.
Qed.

Lemma fetch_company_highlights_quiet symbol :
  emits_only quiet (Main2.fetch_company_highlights env symbol).
Proof.
  apply rate_limit_quiet. unfold Main2.fetch_company_highlights_body.
  eo; try apply safe_request_quiet.
  unfold Main2.highlight_table. eo.
  unfold Main2.highlight_row, Main2.item_at, Main2.int_or_none, Conv.to_int.
  eo. apply highlight_entries_quiet.
Qed.

Lemma dividend_entries_quiet item fields :
  emits_only quiet (Main2.dividend_entries item fields).
Proof.
  induction fields as [|[key source] rest IH]; simpl; [apply eo_ret|].
  unfold Dyn.get. eo. apply IH.
Qed.

Lemma decode_json_quiet response what symbol failure :
  emits_only quiet (Main2.decode_json env response what symbol failure).
Proof. unfold Main2.decode_json. eo. Qed.

Lemma fetch_rights_benefits_quiet symbol :
  emits_only quiet (Main2.fetch_rights_benefits env symbol).
Proof.
  apply rate_limit_quiet. unfold Main2.fetch_rights_benefits_body.
  eo; try apply safe_request_quiet; try apply decode_json_quiet.
  - unfold Dyn.get. eo.
  - unfold Dyn.iter. eo.
  - unfold Main2.dividend_item, Dyn.get. eo; apply dividend_entries_quiet.
Qed.

Lemma fetch_financial_statements_quiet symbol :
  emits_only quiet (Main2.fetch_financial_statements env symbol).
Proof.
  apply rate_limit_quiet. unfold Main2.fetch_financial_statements_body.
  eo; try apply safe_request_quiet.
  unfold Main2.statement_link. eo.
Qed.

Lemma fetch_historical_prices_quiet symbol months :
  emits_only quiet (Main2.fetch_historical_prices env symbol months).
Proof.
  apply rate_limit_quiet. unfold Main2.fetch_historical_prices_body.
  eo; try apply safe_request_quiet; try apply decode_json_quiet.
  - unfold Dyn.get. eo.
  - unfold Dyn.len. eo.
Qed.

Lemma save_stock_data_quiet symbol :
  emits_only quiet (Main2.save_stock_data env symbol).
Proof.
  unfold Main2.save_stock_data.
  eo; auto using fetch_factsheet_selenium_quiet, fetch_company_highlights_quiet,
        fetch_rights_benefits_quiet, fetch_financial_statements_quiet,
        fetch_historical_prices_quiet.
Qed.

(** ** The extractors and the aggregator never raise *)

Lemma rate_limit_never_raises {A} delay name (func : M A) :
  (0 <= delay)%Z -> never_raises func ->
  never_raises (Main2.rate_limit delay name func).
Proof.
  intros Hd Hf. unfold Main2.rate_limit.
  apply nr_bind; [apply nr_log|]. intros _.
  apply nr_bind; [apply nr_sleep, Hd|]. intros _. exact Hf.
Qed.

Lemma handler_never_raises l msg (d : pydict) :
  never_raises (log l msg >> ret d).
Proof. apply nr_bind; [apply nr_log|]. intros _. apply nr_ret. Qed.

Lemma quit_driver_never_raises : never_raises (Main2.quit_driver env).
Proof. apply nr_try_except_all. intros e. apply nr_ret. Qed.

Lemma fetch_factsheet_selenium_never_raises symbol :
  never_raises (Main2.fetch_factsheet_selenium env symbol).
Proof.
  apply rate_limit_never_raises; [lia|].
  unfold Main2.fetch_factsheet_selenium_body.
  apply nr_bind.
  - apply nr_try_except_all. intros e.
    apply nr_bind; [apply handler_never_raises|]. intros r. apply nr_ret.
  - intros [r|[[]|]]; try apply nr_ret.
    apply nr_try_finally; [|apply quit_driver_never_raises].
    apply nr_try_except_all. intros e. apply handler_never_raises.
Qed.

Lemma fetch_company_highlights_never_raises symbol :
  never_raises (Main2.fetch_company_highlights env symbol).
Proof.
  apply rate_limit_never_raises; [lia|].
  apply nr_try_except_all. intros e. apply handler_never_raises.
Qed.

Lemma fetch_rights_benefits_never_raises symbol :
  never_raises (Main2.fetch_rights_benefits env symbol).
Proof.
  apply rate_limit_never_raises; [lia|].
  apply nr_try_except_all. intros e. apply handler_never_raises.
Qed.

Lemma fetch_financial_statements_never_raises symbol :
  never_raises (Main2.fetch_financial_statements env symbol).
Proof.
  apply rate_limit_never_raises; [lia|].
  apply nr_try_except_all. intros e. apply handler_never_raises.
Qed.

Lemma fetch_historical_prices_never_raises symbol months :
  never_raises (Main2.fetch_historical_prices env symbol months).
Proof.
  apply rate_limit_never_raises; [lia|].
  apply nr_try_except_all. intros e. apply handler_never_raises.
Qed.

Lemma save_stock_data_never_raises symbol :
  never_raises (Main2.save_stock_data env symbol).
Proof. apply nr_try_except_all. intros e. apply handler_never_raises. Qed.

Lemma batch_step_never_raises delay n i symbol st :
  never_raises (Main2.batch_step env delay n i symbol st).
Proof.
  apply nr_try_steps. intros e s'.
  apply nr_bind; [apply nr_log|]. intros _. apply nr_ret.
Qed.

Lemma batch_loop_never_raises delay n symbols : forall i st,
  never_raises (Main2.batch_loop env delay n i symbols st).
Proof.
  induction symbols as [|s rest IH]; intros i st; simpl; [apply nr_ret|].
  apply nr_bind; [apply batch_step_never_raises | intros st'; apply IH].
Qed.

Lemma batch_scrape_never_raises symbols delay :
  never_raises (Main2.batch_scrape env symbols delay).
Proof.
  unfold Main2.batch_scrape.
  apply nr_bind; [apply nr_log|]. intros _.
  apply nr_bind; [apply batch_loop_never_raises|]. intros st.
  apply nr_bind; [apply nr_log|]. intros _.
  apply nr_bind; [|intros _; apply nr_ret].
  destruct (snd st); [apply nr_ret | apply nr_log].
Qed.

End Main2Events.

(** * The batch loop *)

Lemma filter_quiet (l : list Event) :
  Forall quiet l -> List.filter is_processing_log l = [].
Proof.
  induction 1 as [|e l He _ IH]; [reflexivity|].
  simpl. rewrite He. exact IH.
Qed.

Section Batch.
Variable env : Env.

Lemma run_log_bind {A} l msg (k : unit -> M A) t :
  bind (log l msg) k t
  = mkRun (outcome (k tt t)) (now (k tt t)) (EvLog l msg :: events (k tt t)).
Proof. reflexivity. Qed.

Lemma run_ext {A} (r r' : Run A) :
  outcome r = outcome r' -> now r = now r' -> events r = events r' -> r = r'.
Proof. destruct r, r'. simpl. intros -> -> ->. reflexivity. Qed.

Lemma try_steps_cons_ret {S} (step : S -> M S) rest c h s s' t :
  outcome (step s t) = Ret s' ->
  let R := try_steps rest c h s' (now (step s t)) in
  try_steps (step :: rest) c h s t
  = mkRun (outcome R) (now R) (events (step s t) ++ events R).
Proof.
  intros H R. cbn [try_steps].
  apply run_ext; cbn [outcome now events];
    rewrite ?outcome_bind, ?now_bind, ?events_bind,
      ?outcome_try_except, ?now_try_except, ?events_try_except,
      ?outcome_bind, ?now_bind, ?events_bind, H;
    cbn [ret outcome now events]; rewrite ?app_nil_r; reflexivity.
Qed.

Lemma try_steps_cons_raise {S} (step : S -> M S) rest c h s e s' t :
  outcome (step s t) = Raise e -> c e = true ->
  outcome (h e s (now (step s t))) = Ret s' ->
  let H := h e s (now (step s t)) in
  try_steps (step :: rest) c h s t
  = mkRun (Ret s') (now H) (events (step s t) ++ events H).
Proof.
  intros H1 H2 H3 H. cbn [try_steps].
  apply run_ext; cbn [outcome now events];
    rewrite ?outcome_bind, ?now_bind, ?events_bind,
      ?outcome_try_except, ?now_try_except, ?events_try_except,
      ?outcome_bind, ?now_bind, ?events_bind, H1, H2,
      ?outcome_bind, ?now_bind, ?events_bind, H3;
    cbn [ret outcome now events]; rewrite ?app_nil_r; reflexivity.
Qed.

Lemma processing_log_is n i symbol :
  is_processing_log (processing_log n i symbol) = true.
Proof.
  unfold processing_log, is_processing_log. simpl.
  match goal with |- String.prefix _ ?s = _ => generalize s end.
  intros []; reflexivity.
Qed.

(** What one turn of the loop does to [results] and [failed_symbols]. *)
Lemma batch_step_run delay n i symbol (st : gmap string pydict * list string) t :
  let run := Main2.save_stock_data env symbol t in
  let r := Main2.batch_step env delay n i symbol st t in
  exists d,
    outcome run = Ret d /\
    now r = now run /\
    List.filter is_processing_log (events r) = [processing_log n i symbol] /\
    outcome r =
      Ret (if (i <? n)%Z && (delay <? 0)%Z
           then (<[symbol := Main2.critical_record symbol sleep_error]> (fst st),
                 (snd st ++ (if has_error d then [symbol] else []) ++ [symbol])%list)
           else (<[symbol := d]> (fst st),
                 (snd st ++ (if has_error d then [symbol] else []))%list)).
Proof.
  cbv zeta. unfold Main2.batch_step.
  pose proof (save_stock_data_never_raises env symbol) as Hnr.
  pose proof (save_stock_data_quiet env symbol) as Hqu.
  revert Hnr Hqu. generalize (Main2.save_stock_data env symbol) as agg.
  intros agg Hnr Hqu. set (run := agg t).
  destruct (Hnr t) as [d Hd]. pose proof (filter_quiet _ (Hqu t)) as Hq.
  fold run in Hd, Hq. clear Hnr Hqu.
  exists d. split; [exact Hd|].
  match goal with
  | |- context [try_steps (?s1 :: ?s2 :: nil) ?c ?h st t] =>
      set (step1 := s1); set (step2 := s2); set (handler := h)
  end.
  set (st1 := (<[symbol := d]> (fst st),
               (snd st ++ (if has_error d then [symbol] else []))%list)).
  assert (H1 : outcome (step1 st t) = Ret st1
               /\ now (step1 st t) = now run
               /\ List.filter is_processing_log (events (step1 st t))
                  = [processing_log n i symbol]).
  { unfold step1. rewrite run_log_bind. cbn [outcome now events].
    rewrite outcome_bind, now_bind, events_bind. fold run. rewrite Hd.
    unfold st1, has_error.
    destruct (Dict.has_key "error" d); rewrite run_log_bind;
      cbn [outcome now events ret]; rewrite ?app_nil_r;
      (split; [reflexivity|]; split; [reflexivity|]);
      fold (processing_log n i symbol);
      cbn [List.filter]; rewrite processing_log_is, List.filter_app, Hq;
      reflexivity. }
  destruct H1 as (Ho1 & Hn1 & Hf1).
  rewrite (try_steps_cons_ret step1 [step2] _ handler st st1 t Ho1).
  cbn [outcome now events]. rewrite List.filter_app, Hf1, Hn1.
  destruct (i <? n)%Z eqn:Ei; cbn [andb].
  - destruct (delay <? 0)%Z eqn:Ed.
    + assert (Ho2 : outcome (step2 st1 (now run)) = Raise sleep_error
                    /\ now (step2 st1 (now run)) = now run
                    /\ List.filter is_processing_log (events (step2 st1 (now run))) = []).
      { unfold step2. rewrite ?Ei. cbv beta. rewrite run_log_bind. cbn [outcome now events].
        unfold sleep. rewrite ?Ed. repeat split. }
      destruct Ho2 as (Ho2 & Hn2 & Hf2).
      erewrite (try_steps_cons_raise step2 [] _ handler st1 sleep_error);
        [|exact Ho2|reflexivity|unfold handler; rewrite run_log_bind; reflexivity].
      cbn [outcome now events]. rewrite List.filter_app, Hf2, Hn2.
      unfold handler at 1 2. rewrite run_log_bind. cbn [outcome now events ret].
      unfold st1. cbn [fst snd]. rewrite <- app_assoc, insert_insert_eq.
      repeat split; reflexivity.
    + assert (Ho2 : outcome (step2 st1 (now run)) = Ret st1
                    /\ now (step2 st1 (now run)) = now run
                    /\ List.filter is_processing_log (events (step2 st1 (now run))) = []).
      { unfold step2. rewrite ?Ei. cbv beta. rewrite run_log_bind. cbn [outcome now events].
        unfold sleep. rewrite ?Ed. repeat split. }
      destruct Ho2 as (Ho2 & Hn2 & Hf2).
      rewrite (try_steps_cons_ret step2 [] _ handler st1 st1 _ Ho2).
      cbn [outcome now events try_steps ret]. rewrite List.filter_app, Hf2, Hn2.
      repeat split; reflexivity.
  - assert (Ho2 : outcome (step2 st1 (now run)) = Ret st1
                  /\ now (step2 st1 (now run)) = now run
                  /\ List.filter is_processing_log (events (step2 st1 (now run))) = []).
    { unfold step2. rewrite ?Ei. repeat split. }
    destruct Ho2 as (Ho2 & Hn2 & Hf2).
    rewrite (try_steps_cons_ret step2 [] _ handler st1 st1 _ Ho2).
    cbn [outcome now events try_steps ret]. rewrite List.filter_app, Hf2, Hn2.
    repeat split; reflexivity.
Qed.

Lemma batch_step_turn delay n i symbol (st : gmap string pydict * list string) t :
  let r := Main2.batch_step env delay n i symbol st t in
  let o := turn env delay n i symbol t in
  outcome r = Ret (<[symbol := fst o]> (fst st), (snd st ++ snd o)%list)
  /\ now r = now (Main2.save_stock_data env symbol t)
  /\ List.filter is_processing_log (events r) = [processing_log n i symbol].
Proof.
  destruct (batch_step_run delay n i symbol st t) as (d & Hd & Hn & Hf & Ho).
  simpl. unfold turn. rewrite Hd, Ho.
  destruct ((i <? n)%Z && (delay <? 0)%Z); auto.
Qed.

Lemma batch_loop_run delay n symbols : forall i (st : gmap string pydict * list string) t,
  let r := Main2.batch_loop env delay n i symbols st t in
  let T := turns env delay n i symbols t in
  outcome r = Ret (store (fst st) (records_of T), (snd st ++ appended_of T)%list)
  /\ List.filter is_processing_log (events r) = processing_logs n i symbols.
Proof.
  induction symbols as [|s rest IH]; intros i st t; simpl.
  - unfold appended_of. simpl. rewrite app_nil_r. destruct st; auto.
  - destruct (batch_step_turn delay n i s st t) as (Ho & Hn & Hf).
    rewrite outcome_bind, events_bind, Ho, Hn, List.filter_app, Hf.
    specialize (IH (i + 1)%Z
                  (<[s := fst (turn env delay n i s t)]> (fst st),
                   (snd st ++ snd (turn env delay n i s t))%list)
                  (now (Main2.save_stock_data env s t))).
    destruct IH as (IHo & IHf). rewrite IHo, IHf. split; [|reflexivity].
    unfold appended_of. simpl. rewrite <- app_assoc. reflexivity.
Qed.

Lemma batch_scrape_run symbols delay t :
  let r := Main2.batch_scrape env symbols delay t in
  let T := turns env delay (Z.of_nat (length symbols)) 1 symbols t in
  outcome r = Ret (store ∅ (records_of T), appended_of T)
  /\ List.filter is_processing_log (events r)
     = processing_logs (Z.of_nat (length symbols)) 1 symbols.
Proof.
  cbv zeta. unfold Main2.batch_scrape.
  destruct (batch_loop_run delay (Z.of_nat (length symbols)) symbols 1 (∅, []) t)
    as (Ho & Hf). cbn [fst snd app] in Ho.
  revert Ho Hf.
  generalize (turns env delay (Z.of_nat (length symbols)) 1 symbols t) as T.
  generalize (Main2.batch_loop env delay (Z.of_nat (length symbols)) 1 symbols (∅, [])) as loop.
  intros loop T Ho Hf.
  rewrite run_log_bind. cbn [outcome events List.filter is_processing_log].
  rewrite outcome_bind, events_bind, Ho, List.filter_app, Hf.
  rewrite run_log_bind. cbn [outcome events].
  rewrite outcome_bind, events_bind.
  cbn [snd].
  destruct (appended_of T) as [|f fs];
    cbn [ret log emit outcome events now List.filter is_processing_log app];
    rewrite ?app_nil_r; split; try reflexivity.
Qed.

End Batch.

(** ** Facts about the turns and the store *)



Lemma aggregated_symbols env symbols : forall t,
  map fst (aggregated env symbols t) = symbols.
Proof.
  induction symbols as [|s rest IH]; intros t; simpl; [reflexivity|].
  f_equal. apply IH.
Qed.

Lemma dom_store rs : forall m : gmap string pydict,
  dom (store m rs) = dom m ∪ list_to_set (map fst rs).
Proof.
  induction rs as [|[s d] rs IH]; intros m; simpl.
  - set_solver.
  - unfold store in *. simpl. rewrite IH, dom_insert_L. set_solver.
Qed.

Lemma store_lookup_other rs : forall (m : gmap string pydict) s,
  s ∉ map fst rs -> store m rs !! s = m !! s.
Proof.
  induction rs as [|[s' d'] rs IH]; intros m s Hs; [reflexivity|].
  unfold store in *. simpl in *. rewrite IH by set_solver.
  apply lookup_insert_ne. set_solver.
Qed.

(** The record of the last occurrence of a symbol is the one kept. *)
Lemma store_lookup_last pre s d post (m : gmap string pydict) :
  s ∉ map fst post ->
  store m (pre ++ (s, d) :: post) !! s = Some d.
Proof.
  intros Hs. unfold store. rewrite foldl_app. simpl.
  fold (store (<[s:=d]> (foldl (fun acc sd => <[sd.1:=sd.2]> acc) m pre)) post).
  rewrite store_lookup_other by exact Hs. apply lookup_insert_eq.
Qed.


Lemma size_store_NoDup rs :
  NoDup (map fst rs) -> size (store ∅ rs) = length rs.
Proof.
  intros Hnd. rewrite <- size_dom, dom_store, dom_empty_L, (left_id_L ∅ (∪)).
  rewrite size_list_to_set by exact Hnd. apply length_map.
Qed.

Lemma has_error_critical symbol e :
  has_error (Main2.critical_record symbol e) = true.
Proof. reflexivity. Qed.

(** With a delay that [time.sleep] accepts, a turn stores what the
    aggregator returned and appends the symbol when that record carries an
    error marker. *)
Lemma turns_aggregated env delay n symbols : (0 <= delay)%Z -> forall i t,
  turns env delay n i symbols t =
  map (fun sd => (fst sd, (snd sd, if has_error (snd sd) then [fst sd] else [])))
      (aggregated env symbols t).
Proof.
  intros Hd. induction symbols as [|s rest IH]; intros i t; simpl; [reflexivity|].
  rewrite IH. f_equal. unfold turn.
  replace (delay <? 0)%Z with false by (symmetry; apply Z.ltb_ge; lia).
  rewrite andb_false_r.
  destruct (outcome (Main2.save_stock_data env s t)); reflexivity.
Qed.

Lemma records_of_aggregated (A : list (string * pydict)) :
  records_of (map (fun sd => (fst sd, (snd sd, if has_error (snd sd) then [fst sd] else []))) A) = A.
Proof.
  unfold records_of. rewrite map_map. simpl.
  induction A as [|[s d] A IH]; simpl; [reflexivity|]. f_equal. exact IH.
Qed.

Lemma appended_of_aggregated (A : list (string * pydict)) :
  appended_of (map (fun sd => (fst sd, (snd sd, if has_error (snd sd) then [fst sd] else []))) A)
  = failed_of A.
Proof.
  unfold appended_of, failed_of. rewrite map_map. simpl.
  induction A as [|[s d] A IH]; simpl; [reflexivity|].
  destruct (has_error d); simpl; rewrite IH; reflexivity.
Qed.






(** C10: with a delay that [time.sleep] accepts, the mapping returned
    by the batch runner is the records of the occurrences stored one
    after the other, so that the record of the last occurrence of a
    symbol is the one kept and the mapping has one entry per distinct
    symbol (exactly [length symbols] entries when the symbols are
    pairwise distinct), while the failed list has the symbol once per
    occurrence whose record carries an error marker. *)
Theorem batch_scrape_last_record_wins env symbols delay t :
  (0 <= delay)%Z ->
  let records := aggregated env symbols t in
  exists results failed,
    outcome (Main2.batch_scrape env symbols delay t) = Ret (results, failed)
    /\ map fst records = symbols
    /\ results = store ∅ records
    /\ failed = failed_of records
    /\ dom results = list_to_set symbols
    /\ (forall pre s d post,
          records = (pre ++ (s, d) :: post)%list -> s ∉ map fst post ->
          results !! s = Some d)
    /\ (NoDup symbols -> size results = length symbols).
Proof.
  intros Hd records.
  destruct (batch_scrape_run env symbols delay t) as (Ho & _).
  rewrite (turns_aggregated env delay _ symbols Hd) in Ho.
  rewrite records_of_aggregated, appended_of_aggregated in Ho.
  fold records in Ho.
  exists (store ∅ records), (failed_of records).
  pose proof (aggregated_symbols env symbols t) as Hsym. fold records in Hsym.
  repeat split; auto.
  - rewrite dom_store, dom_empty_L, (left_id_L ∅ (∪)), Hsym. reflexivity.
  - intros pre s d post -> Hs. apply store_lookup_last, Hs.
  - intros Hnd. rewrite size_store_NoDup by (rewrite Hsym; exact Hnd).
    rewrite <- Hsym. symmetry. apply length_map.
Qed.

Lemma batch_scrape_last_record_wins_witness :
  exists results failed,
    outcome (Main2.batch_scrape (Worlds.read_only "") ["AOT"; "AOT"] 3 0)
    = Ret (results, failed)
    /\ failed = ["AOT"; "AOT"]
    /\ dom results = {["AOT"]}.
Proof.
  destruct (batch_scrape_last_record_wins (Worlds.read_only "") ["AOT"; "AOT"] 3 0)
    as (results & failed & Ho & _ & _ & Hf & Hdom & _); [lia|].
  exists results, failed. split; [exact Ho|]. split.
  - rewrite Hf. vm_compute. reflexivity.
  - rewrite Hdom. set_solver.
Defined.

(** * Retries *)

(** C4, counterexample: a 404 answer is retried.  When every answer is
    404 the three attempts of the default budget are all made, and when
    only the first answer is 404 the call succeeds at the second
    attempt. *)
Lemma not_found_is_retried :
  client_error (requests_get Worlds.not_found 0 "u" []) = true
  /\ tally is_http_get (Main2.safe_request Worlds.not_found "u" [] 3 10 0) = 3
  /\ outcome (Main2.safe_request Worlds.not_found_once "u" [] 3 10 0)
     = Ret (Some (mkResponse 200 "{}"))
  /\ tally is_http_get (Main2.safe_request Worlds.not_found_once "u" [] 3 10 0) = 2.
Proof. vm_compute. repeat split; reflexivity. Qed.

Section TransportTheorems.
Variable env : Env.
Variables (url : string) (params : list (string * string)).
Variables (max_retries timeout : Z).

Lemma attempt_rejected_last attempt t :
  rejected (requests_get env t url params) = true ->
  (attempt <? max_retries - 1)%Z = false ->
  last (events (Main2.safe_request_attempt env url params max_retries timeout attempt t))
  = Some (all_failed_log url max_retries).
Proof.
  intros Hr Hlast.
  pose proof (attempt_rejected env url params max_retries timeout attempt t Hr) as Ho.
  revert Ho.
  unfold Main2.safe_request_attempt.
  rewrite outcome_try_except, events_try_except.
  rewrite run_log_bind. cbn [outcome now events].
  rewrite outcome_bind, events_bind. cbn [ask outcome now events].
  unfold rejected in Hr.
  destruct (requests_get env t url params) as [resp|e].
  - rewrite outcome_bind, events_bind.
    destruct (outcome (Main2.raise_for_status url resp (S t))) as [u|e] eqn:E.
    + cbn [ret outcome]. rewrite Hlast. discriminate.
    + assert (Hev : events (Main2.raise_for_status url resp (S t)) = []).
      { unfold Main2.raise_for_status.
        destruct (_ && _); [reflexivity|]. destruct (_ && _); reflexivity. }
      assert (Hn : now (Main2.raise_for_status url resp (S t)) = S t).
      { unfold Main2.raise_for_status.
        destruct (_ && _); [reflexivity|]. destruct (_ && _); reflexivity. }
      rewrite Hev. destruct (is_RequestException e); [|discriminate].
      intros _. rewrite run_log_bind, Hlast, run_log_bind.
      cbn [ret outcome now events app]. reflexivity.
  - rewrite Hr. intros _. rewrite run_log_bind, Hlast, run_log_bind.
    cbn [ret outcome now events app]. reflexivity.
Qed.

Lemma loop_all_rejected_last j : forall k t,
  0 < j ->
  k + j = Z.to_nat max_retries ->
  (forall i, i < j -> rejected (requests_get env (t + i) url params) = true) ->
  last (events (Main2.safe_request_loop env url params max_retries timeout
                  (map Z.of_nat (seq k j)) t))
  = Some (all_failed_log url max_retries).
Proof.
  induction j as [|j IH]; intros k t Hj Hk Hrej; [lia|].
  cbn [seq map Main2.safe_request_loop].
  assert (H0 := Hrej 0 ltac:(lia)). rewrite Nat.add_0_r in H0.
  pose proof (attempt_rejected env url params max_retries timeout (Z.of_nat k) t H0) as Ho.
  destruct (attempt_once env url params max_retries timeout (Z.of_nat k) t) as [_ Hn].
  rewrite events_bind, Ho, Hn.
  destruct (Z.ltb_spec (Z.of_nat k) (max_retries - 1)) as [Hlt|Hge].
  - rewrite last_app, IH; [reflexivity|lia|lia|].
    intros i Hi. replace (S t + i) with (t + S i) by lia. apply Hrej. lia.
  - cbn [ret events]. rewrite app_nil_r.
    apply attempt_rejected_last; [exact H0 | apply Z.ltb_ge; lia].
Qed.

(** C5, amended: when every attempt meets a transient error (connection
    error, timeout, 5xx status), [safe_request] makes exactly
    [max_retries] attempts, does not raise, and returns None; the number
    of attempts is written to the log (the last line logged), not
    returned. *)
Theorem safe_request_retry_bound t :
  (forall i, i < Z.to_nat max_retries ->
             transient (requests_get env (t + i) url params) = true) ->
  let r := Main2.safe_request env url params max_retries timeout t in
  outcome r = Ret None
  /\ tally is_http_get r = Z.to_nat max_retries
  /\ now r = t + Z.to_nat max_retries
  /\ ((0 < max_retries)%Z ->
      last (events r)
      = Some (EvLog ERROR ("All " +:+ pretty max_retries
                           +:+ " attempts failed for " +:+ url))).
Proof.
  intros Hall.
  assert (Hrej : forall i, i < Z.to_nat max_retries ->
                           rejected (requests_get env (t + i) url params) = true).
  { intros i Hi. apply transient_rejected, Hall, Hi. }
  destruct (safe_request_all_rejected env url params max_retries timeout t Hrej)
    as (Ho & Hn & Ht).
  cbv zeta. repeat split; auto.
  intros Hpos. unfold Main2.safe_request, py_range.
  apply loop_all_rejected_last; [lia | lia | exact Hrej].
Qed.

End TransportTheorems.

Lemma safe_request_retry_bound_witness :
  outcome (Main2.safe_request Worlds.offline "u" [] 3 10 0) = Ret None
  /\ tally is_http_get (Main2.safe_request Worlds.offline "u" [] 3 10 0) = 3.
Proof.
  destruct (safe_request_retry_bound Worlds.offline "u" [] 3 10 0)
    as (Ho & Ht & _); [intros i _; reflexivity|].
  split; [exact Ho | exact Ht].
Defined.

(** C5, counterexample: the value returned after exhausted retries
    carries no attempt count: no function of the returned value gives
    back the number of attempts made. *)
Lemma failure_carries_no_attempt_count :
  ~ exists carried : option Response -> Z,
      forall max_retries, (0 <= max_retries)%Z ->
        match outcome (Main2.safe_request Worlds.offline "u" [] max_retries 10 0) with
        | Ret x => carried x = max_retries
        | Raise _ => False
        end.
Proof.
  intros [carried H].
  pose proof (H 1%Z ltac:(lia)) as H1. pose proof (H 3%Z ltac:(lia)) as H3.
  vm_compute in H1, H3. congruence.
Qed.

(** * Extractors and failure *)

Lemma outcome_rate_limit {A} delay name (func : M A) t :
  (0 <= delay)%Z ->
  outcome (Main2.rate_limit delay name func t) = outcome (func t).
Proof.
  intros H. unfold Main2.rate_limit. rewrite run_log_bind. cbn [outcome].
  rewrite outcome_bind. unfold sleep.
  replace (delay <? 0)%Z with false by (symmetry; apply Z.ltb_ge; lia).
  reflexivity.
Qed.

Lemma outcome_try_except_ret {A} (m : M A) c h t a :
  outcome (m t) = Ret a -> outcome (try_except m c h t) = Ret a.
Proof. intros H. rewrite outcome_try_except, H. reflexivity. Qed.

(** The record of an HTTP extractor whose transport step came back
    without a usable response: [body] is the part of the function under
    [try], [sr] the call to [safe_request]. *)
Lemma failed_fetch (sr : M (option Response)) (k : Response -> M pydict)
    (failure : pydict) l msg c h t o :
  outcome (sr t) = Ret o -> Main2.truthy o = None ->
  outcome (try_except
             (log l msg >>
              response <- sr ;;
              match Main2.truthy response with
              | None => ret failure
              | Some response => k response
              end) c h t) = Ret failure.
Proof.
  intros Ho Ht. apply outcome_try_except_ret.
  rewrite run_log_bind. cbn [outcome]. rewrite outcome_bind, Ho, Ht. reflexivity.
Qed.

Section Extractors.
Variable env : Env.

(** C1, amended: in [main2.py] every extractor returns a record at
    every clock and in every world (it never raises); when no driver can
    be created, or when [safe_request] comes back without a usable
    response, the record holds the symbol, an "error" entry and, where
    the extractor has a data list, that list empty. *)
Theorem main2_extractors_return_records symbol months t :
  (* every extractor returns a record *)
  ((exists d, outcome (Main2.fetch_factsheet_selenium env symbol t) = Ret d)
   /\ (exists d, outcome (Main2.fetch_company_highlights env symbol t) = Ret d)
   /\ (exists d, outcome (Main2.fetch_rights_benefits env symbol t) = Ret d)
   /\ (exists d, outcome (Main2.fetch_financial_statements env symbol t) = Ret d)
   /\ (exists d, outcome (Main2.fetch_historical_prices env symbol months t) = Ret d))
  (* no driver: an error marker and no data *)
  /\ (outcome (Main2.get_safe_driver env true 3 t) = Ret None ->
      outcome (Main2.fetch_factsheet_selenium env symbol t)
      = Ret [("symbol", VStr symbol); ("error", VStr "Failed to create driver")])
  (* no usable response: an error marker and an empty data list *)
  /\ (forall o,
        outcome (Main2.safe_request env
                   (Main2.quote_url symbol "/financial-statement/company-highlights")
                   [] 3 10 t) = Ret o ->
        Main2.truthy o = None ->
        outcome (Main2.fetch_company_highlights env symbol t)
        = Ret [("symbol", VStr symbol);
               ("error", VStr "Failed to fetch highlights page")])
  /\ (forall o,
        outcome (Main2.safe_request env
                   (Statements.set_or_th +:+ "/api/set/company-rights-and-benefits/"
                    +:+ symbol +:+ "?type=financial")
                   [] 3 10 t) = Ret o ->
        Main2.truthy o = None ->
        outcome (Main2.fetch_rights_benefits env symbol t)
        = Ret [("symbol", VStr symbol);
               ("error", VStr "Failed to fetch rights & benefits");
               ("dividends", VList [])])
  /\ (forall o,
        outcome (Main2.safe_request env
                   (Main2.quote_url symbol "/financial-statement/financial-position")
                   [] 3 10 t) = Ret o ->
        Main2.truthy o = None ->
        outcome (Main2.fetch_financial_statements env symbol t)
        = Ret [("symbol", VStr symbol);
               ("error", VStr "Failed to fetch financial statements page");
               ("financial_statements", VList [])])
  /\ (forall o,
        outcome (Main2.safe_request env
                   (Statements.set_or_th +:+ "/api/set/stock/price-chart")
                   [("symbol", symbol); ("type", "month");
                    ("range", date_range env t months)]
                   3 10 (S t)) = Ret o ->
        Main2.truthy o = None ->
        outcome (Main2.fetch_historical_prices env symbol months t)
        = Ret [("symbol", VStr symbol);
               ("error", VStr "Failed to fetch historical prices");
               ("historical_prices", VList [])]).
Proof.
  split.
  { repeat split.
    - apply fetch_factsheet_selenium_never_raises.
    - apply fetch_company_highlights_never_raises.
    - apply fetch_rights_benefits_never_raises.
    - apply fetch_financial_statements_never_raises.
    - apply fetch_historical_prices_never_raises. }
  split; [|split; [|split; [|split]]].
  - intros Hd. unfold Main2.fetch_factsheet_selenium.
    rewrite outcome_rate_limit by lia.
    unfold Main2.fetch_factsheet_selenium_body.
    revert Hd. generalize (Main2.get_safe_driver env true 3) as gsd. intros gsd Hd.
    rewrite outcome_bind, outcome_try_except, outcome_bind, Hd. reflexivity.
  - intros o Ho Ht. unfold Main2.fetch_company_highlights.
    rewrite outcome_rate_limit by lia.
    unfold Main2.fetch_company_highlights_body.
    revert Ho. generalize (Main2.safe_request env
      (Main2.quote_url symbol "/financial-statement/company-highlights") [] 3 10) as sr.
    intros sr Ho. eapply failed_fetch; eauto.
  - intros o Ho Ht. unfold Main2.fetch_rights_benefits.
    rewrite outcome_rate_limit by lia.
    unfold Main2.fetch_rights_benefits_body.
    revert Ho. generalize (Main2.safe_request env
      (Statements.set_or_th +:+ "/api/set/company-rights-and-benefits/"
       +:+ symbol +:+ "?type=financial") [] 3 10) as sr.
    intros sr Ho. eapply failed_fetch; eauto.
  - intros o Ho Ht. unfold Main2.fetch_financial_statements.
    rewrite outcome_rate_limit by lia.
    unfold Main2.fetch_financial_statements_body.
    revert Ho. generalize (Main2.safe_request env
      (Main2.quote_url symbol "/financial-statement/financial-position") [] 3 10) as sr.
    intros sr Ho. eapply failed_fetch; eauto.
  - intros o Ho Ht. unfold Main2.fetch_historical_prices.
    rewrite outcome_rate_limit by lia.
    unfold Main2.fetch_historical_prices_body.
    apply outcome_try_except_ret.
    rewrite run_log_bind. cbn [outcome]. rewrite outcome_bind.
    cbn [ask_total ask outcome now]. 
    revert Ho. generalize (Main2.safe_request env
      (Statements.set_or_th +:+ "/api/set/stock/price-chart")
      [("symbol", symbol); ("type", "month"); ("range", date_range env t months)]
      3 10) as sr.
    intros sr Ho. rewrite outcome_bind, Ho, Ht. reflexivity.
Qed.

End Extractors.

Lemma main2_extractors_return_records_witness :
  outcome (Main2.fetch_company_highlights Worlds.offline "AOT" 0)
  = Ret [("symbol", VStr "AOT");
         ("error", VStr "Failed to fetch highlights page")]
  /\ outcome (Main2.fetch_factsheet_selenium Worlds.offline "AOT" 0)
     = Ret [("symbol", VStr "AOT"); ("error", VStr "Failed to create driver")].
Proof.
  destruct (main2_extractors_return_records Worlds.offline "AOT" 60 0)
    as (_ & Hdrv & Hhl & _).
  split.
  - apply (Hhl None); reflexivity.
  - apply Hdrv. reflexivity.
Defined.

(** C1, counterexample: the factsheet extractor of [main.py] does not
    return a record on a transport failure, the exception of
    [requests.get] leaves it; and on a 404 answer it returns a record
    without an error marker. *)
Lemma main_fetch_factsheet_raises :
  outcome (Main.fetch_factsheet Worlds.offline "AOT" 0) = Raise Worlds.refused
  /\ (exists d, outcome (Main.fetch_factsheet Worlds.not_found "AOT" 0) = Ret d
                /\ has_error d = false)
  /\ ~ (forall env symbol t,
          exists d, outcome (Main.fetch_factsheet env symbol t) = Ret d).
Proof.
  assert (H : outcome (Main.fetch_factsheet Worlds.offline "AOT" 0)
              = Raise Worlds.refused) by reflexivity.
  split; [exact H|]. split; [eexists; split; reflexivity|].
  intros Hall. destruct (Hall Worlds.offline "AOT" 0) as [d Hd].
  rewrite H in Hd. discriminate.
Qed.

(** * Aggregation *)

(** C2, counterexample: with every source down, each of the five slots
    holds an error-tagged record, yet the aggregated record has no error
    marker and no status of its own, and the batch runner does not count
    the symbol as failed. *)
Lemma all_sources_failed_yet_not_flagged :
  exists d results,
    outcome (Main2.save_stock_data Worlds.offline "AOT" 0) = Ret d
    /\ forallb (slot_failed d) source_slots = true
    /\ has_error d = false
    /\ Dict.get "status" d = None
    /\ outcome (Main2.batch_scrape Worlds.offline ["AOT"] 3 0) = Ret (results, []).
Proof.
  eexists. eexists. vm_compute. repeat split; reflexivity.
Qed.

Section Aggregator.
Variable env : Env.

(** A batch of one symbol stores the record of the aggregator and counts
    the symbol as failed when that record carries an error marker. *)
Lemma batch_of_one symbol delay t d :
  outcome (Main2.save_stock_data env symbol t) = Ret d ->
  outcome (Main2.batch_scrape env [symbol] delay t)
  = Ret (<[symbol := d]> ∅, if has_error d then [symbol] else []).
Proof.
  intros Hd. destruct (batch_scrape_run env [symbol] delay t) as (Ho & _).
  rewrite Ho. cbn [turns length]. unfold records_of, appended_of, turn.
  rewrite Hd. change (Z.of_nat 1) with 1%Z. cbn [Z.ltb Z.compare Pos.compare
    Pos.compare_cont andb map fst snd concat app store foldl].
  rewrite app_nil_r. reflexivity.
Qed.

(** What the aggregator returns, by what the file system answers. *)
Lemma save_stock_data_run symbol t :
  outcome (Main2.save_stock_data env symbol t)
  = Ret (match write_error env symbol (collected_at (sources env symbol) (S t)) with
         | None =>
             ("symbol", VStr symbol) :: ("timestamp", VStr (datetime_now env t))
             :: slots (sources env symbol) (S t)
         | Some e => Main2.critical_record symbol e
         end)
  /\ slots_hold (sources env symbol) (S t)
       (("symbol", VStr symbol) :: ("timestamp", VStr (datetime_now env t))
        :: slots (sources env symbol) (S t)).
Proof.
  unfold Main2.save_stock_data, sources, write_error, snapshot_path.
  cbn [collected_at slots slots_hold].
  pose proof (fetch_factsheet_selenium_never_raises env symbol) as N1.
  pose proof (fetch_company_highlights_never_raises env symbol) as N2.
  pose proof (fetch_rights_benefits_never_raises env symbol) as N3.
  pose proof (fetch_financial_statements_never_raises env symbol) as N4.
  pose proof (fetch_historical_prices_never_raises env symbol 60) as N5.
  revert N1 N2 N3 N4 N5.
  generalize (Main2.fetch_factsheet_selenium env symbol) as m1.
  generalize (Main2.fetch_company_highlights env symbol) as m2.
  generalize (Main2.fetch_rights_benefits env symbol) as m3.
  generalize (Main2.fetch_financial_statements env symbol) as m4.
  generalize (Main2.fetch_historical_prices env symbol 60) as m5.
  intros m5 m4 m3 m2 m1 N1 N2 N3 N4 N5.
  rewrite outcome_try_except, run_log_bind. cbn [outcome now].
  rewrite outcome_bind, now_bind. cbn [ask_total ask outcome now].
  destruct (N1 (S t)) as [d1 H1]. rewrite outcome_bind, now_bind, H1.
  destruct (N2 (now (m1 (S t)))) as [d2 H2]. rewrite outcome_bind, now_bind, H2.
  destruct (N3 (now (m2 (now (m1 (S t)))))) as [d3 H3].
  rewrite outcome_bind, now_bind, H3.
  destruct (N4 (now (m3 (now (m2 (now (m1 (S t)))))))) as [d4 H4].
  rewrite outcome_bind, now_bind, H4.
  destruct (N5 (now (m4 (now (m3 (now (m2 (now (m1 (S t)))))))))) as [d5 H5].
  rewrite outcome_bind, now_bind, H5.
  split.
  2:{ cbn. repeat split; eexists; split; reflexivity. }
  rewrite outcome_bind, now_bind. cbn [ask outcome now].
  destruct (os_makedirs env _ "data") as [u|e].
  2:{ cbn [is_Exception]. rewrite run_log_bind. reflexivity. }
  rewrite outcome_bind, now_bind. cbn [ask outcome now].
  destruct (file_open env _ _) as [u1|e].
  2:{ cbn [is_Exception]. rewrite run_log_bind. reflexivity. }
  rewrite outcome_bind, now_bind. cbn [ask outcome now].
  destruct (file_write env _ _) as [u2|e].
  2:{ cbn [is_Exception]. rewrite run_log_bind. reflexivity. }
  rewrite run_log_bind. reflexivity.
Qed.

(** The batch runner counts as failed the symbols whose snapshot could
    not be written. *)
Lemma failed_of_aggregated symbols : forall t,
  failed_of (aggregated env symbols t) = failed_writes env symbols t.
Proof.
  induction symbols as [|s rest IH]; intros t; [reflexivity|].
  cbn [aggregated failed_writes]. unfold failed_of in *.
  cbn [List.filter snd]. rewrite (proj1 (save_stock_data_run s t)).
  match goal with
  | |- context [has_error ?d] =>
      assert (He : has_error d
                   = match write_error env s (collected_at (sources env s) (S t)) with
                     | Some _ => true
                     | None => false
                     end)
        by (destruct (write_error env s _); reflexivity);
      rewrite He
  end.
  destruct (write_error env s _) as [e|]; cbn [map fst app]; rewrite IH;
    reflexivity.
Qed.

Lemma batch_counts symbols delay t :
  (0 <= delay)%Z ->
  exists results,
    outcome (Main2.batch_scrape env symbols delay t)
    = Ret (results, failed_writes env symbols t).
Proof.
  intros Hd. destruct (batch_scrape_run env symbols delay t) as (Ho & _).
  rewrite (turns_aggregated env delay _ symbols Hd) in Ho.
  rewrite appended_of_aggregated, failed_of_aggregated in Ho.
  eexists. exact Ho.
Qed.

(** C2, amended: aggregation always returns a record, and which one is
    decided by the file system alone.  When creating the directory,
    opening the file and writing it all succeed, the record holds the
    symbol, the timestamp and one slot per source, each slot holding the
    record its extractor returned (error-tagged or not, whatever the other
    sources did); it has no error marker and no status of its own, and
    the batch runner does not count the symbol as failed.  When one of
    the three steps raises, the record is the critical record of that
    exception: the symbol and an error marker, no slot; then, and only
    then, the batch runner counts the symbol as failed. *)
Theorem save_stock_data_keeps_every_slot symbol t :
  let failure := write_error env symbol (collected_at (sources env symbol) (S t)) in
  exists d,
    outcome (Main2.save_stock_data env symbol t) = Ret d
    /\ match failure with
       | None =>
           d = ("symbol", VStr symbol) :: ("timestamp", VStr (datetime_now env t))
               :: slots (sources env symbol) (S t)
           /\ Dict.keys d = "symbol" :: "timestamp" :: source_slots
           /\ slots_hold (sources env symbol) (S t) d
           /\ has_error d = false
           /\ Dict.get "status" d = None
       | Some e =>
           d = Main2.critical_record symbol e
           /\ Dict.keys d = ["symbol"; "error"]
           /\ has_error d = true
       end
    /\ (has_error d = true <-> failure <> None)
    /\ (forall delay,
          outcome (Main2.batch_scrape env [symbol] delay t)
          = Ret (<[symbol := d]> ∅,
                 match failure with
                 | None => []
                 | Some _ => [symbol]
                 end))
    /\ (forall symbols delay t0,
          (0 <= delay)%Z ->
          exists results,
            outcome (Main2.batch_scrape env symbols delay t0)
            = Ret (results, failed_writes env symbols t0)).
Proof.
  cbv zeta. destruct (save_stock_data_run symbol t) as [Ho Hs].
  eexists. split; [exact Ho|].
  destruct (write_error env symbol _) as [e|] eqn:E.
  - split; [repeat split|]. split; [split; [discriminate | reflexivity]|].
    split; [|apply batch_counts].
    intros delay. rewrite (batch_of_one _ _ _ _ Ho). reflexivity.
  - split; [split; [reflexivity | split; [reflexivity | split; [exact Hs | split; reflexivity]]]|].
    split; [split; [discriminate | congruence]|].
    split; [|apply batch_counts].
    intros delay. rewrite (batch_of_one _ _ _ _ Ho). reflexivity.
Qed.

End Aggregator.

(** In the healthy world the snapshot of a symbol holds five slots; with
    a file system that refuses to open the file it is the critical
    record, and the batch runner counts the symbol as failed. *)
Lemma save_stock_data_keeps_every_slot_witness :
  (exists d, outcome (Main2.save_stock_data (Worlds.healthy "") "AOT" 0) = Ret d
             /\ Dict.keys d = "symbol" :: "timestamp" :: source_slots)
  /\ outcome (Main2.batch_scrape (Worlds.read_only "") ["AOT"] 3 0)
     = Ret (<["AOT" := Main2.critical_record "AOT" Worlds.disk_full]> ∅, ["AOT"]).
Proof.
  split.
  - destruct (save_stock_data_keeps_every_slot (Worlds.healthy "") "AOT" 0)
      as (d & Ho & Hd & _).
    exists d. split; [exact Ho|].
    change (write_error (Worlds.healthy "") "AOT"
              (collected_at (sources (Worlds.healthy "") "AOT") 1))
      with (@None exn) in Hd.
    apply Hd.
  - destruct (save_stock_data_keeps_every_slot (Worlds.read_only "") "AOT" 0)
      as (d & Ho & Hd & _ & Hb & _).
    assert (E : write_error (Worlds.read_only "") "AOT"
              (collected_at (sources (Worlds.read_only "") "AOT") 1)
              = Some Worlds.disk_full) by (vm_compute; reflexivity).
    rewrite E in Hd, Hb. destruct Hd as (-> & _). apply Hb.
Defined.

(** * Numeric coercion *)

(** C6, counterexample: neither coercion does all of what the claim
    says.  The highlights coercion of [main2.py] does not remove the
    percent sign, so "1,234.50%" raises ValueError; the ratio coercion of
    [main.py] keeps "-" as the text "-". *)
Lemma no_extractor_normalizes :
  outcome (highlight_cell "1,234.50%" 0)
  = Raise (mkExn ValueError "could not convert string to float: '1234.50%'")
  /\ outcome (Main.ratio_value "-" 0) = Ret (VStr "-")
  /\ ~ normalizes (fun s => outcome (highlight_cell s 0))
  /\ ~ normalizes (fun s => outcome (Main.ratio_value s 0)).
Proof.
  split; [reflexivity|]. split; [reflexivity|]. split.
  - intros (H & _). vm_compute in H. discriminate.
  - intros (_ & H & _). vm_compute in H. discriminate.
Qed.

(** C6, amended: the ratio coercion of [main.py] removes thousands
    separators and percent signs before parsing ("1,234.50%" gives
    1234.50) and keeps a text that float() rejects, "-" and "" among
    them, as it is; the highlights coercion of [main2.py] removes
    thousands separators only, gives None for "-" and "", and on
    "1,234.50%" raises ValueError, which skips the row. *)
Theorem numeric_coercion_by_extractor symbol t :
  (* main.py, factsheet ratios: thousands separators and the percent
     sign are removed before parsing *)
  outcome (Main.ratio_value "1,234.50%" t) = Ret (VFloat (FFinite (2469 # 2)))
  (* and a text float() rejects is kept as it is *)
  /\ (forall val,
        PyNum.py_float (PyStr.replace "," "" (PyStr.replace "%" "" val)) = None ->
        outcome (Main.ratio_value val t) = Ret (VStr val))
  /\ outcome (Main.ratio_value "-" t) = Ret (VStr "-")
  /\ outcome (Main.ratio_value "" t) = Ret (VStr "")
  (* main2.py, highlights: separators are removed, placeholders are None *)
  /\ outcome (highlight_cell "1,234.50" t) = Ret (VFloat (FFinite (2469 # 2)))
  /\ outcome (highlight_cell "-" t) = Ret VNone
  /\ outcome (highlight_cell "" t) = Ret VNone
  (* the percent sign is not removed: float() raises, the row is skipped *)
  /\ (exists e, outcome (highlight_cell "1,234.50%" t) = Raise e
                /\ exn_class_of e = ValueError)
  /\ outcome (Main2.highlight_row symbol (highlights_row_with "1,234.50%") t) = Ret []
  /\ outcome (Main2.highlight_row symbol (highlights_row_with "-") t)
     = Ret [VDict [("year", VInt 2023); ("revenue", VNone);
                   ("net_profit", VFloat (FFinite 10)); ("eps", VFloat (FFinite 1));
                   ("bvps", VFloat (FFinite 1)); ("roe", VFloat (FFinite 1));
                   ("net_profit_margin", VFloat (FFinite 1));
                   ("pe", VFloat (FFinite 1)); ("pbv", VFloat (FFinite 1))]].
Proof.
  split; [reflexivity|]. split.
  { intros val H. unfold Main.ratio_value.
    rewrite outcome_try_except, outcome_bind. unfold Conv.to_float. rewrite H.
    reflexivity. }
  repeat split; try reflexivity.
  eexists. split; reflexivity.
Qed.

Lemma numeric_coercion_by_extractor_witness :
  outcome (Main.ratio_value "n/a" 0) = Ret (VStr "n/a").
Proof.
  destruct (numeric_coercion_by_extractor "AOT" 0) as (_ & H & _).
  apply H. reflexivity.
Defined.

(** * Statement file metadata *)

Section StatementFacts.
Import PyStr Re Statements.

Lemma search_some icase r s m :
  search icase r s = Some m ->
  exists tail, suffix_of tail s /\ match_here icase r tail = Some m.
Proof.
  induction s as [|c s IH]; simpl.
  - destruct (match_here icase r "") eqn:E; [|discriminate].
    intros [= ->]. exists "". split; [constructor | exact E].
  - destruct (match_here icase r (String c s)) eqn:E.
    + intros [= ->]. exists (String c s). split; [constructor | exact E].
    + intros H. destruct (IH H) as (tail & Hs & Hm).
      exists tail. split; [constructor; exact Hs | exact Hm].
Qed.

Lemma search_none icase r s :
  search icase r s = None ->
  forall tail, suffix_of tail s -> match_here icase r tail = None.
Proof.
  induction s as [|c s IH]; simpl.
  - destruct (match_here icase r "") eqn:E; [discriminate|].
    intros _ tail Hs. inversion Hs; subst. exact E.
  - destruct (match_here icase r (String c s)) eqn:E; [discriminate|].
    intros H tail Hs. inversion Hs; subst; [exact E | apply IH; assumption].
Qed.

Lemma prefix_nil s : String.prefix "" s = true.
Proof. destruct s; reflexivity. Qed.

Lemma contains_unfold sub s :
  contains sub s =
  if String.prefix sub s then true
  else match s with
       | EmptyString => false
       | String _ t => contains sub t
       end.
Proof. destruct s; reflexivity. Qed.

Lemma contains_suffix sub tail s :
  suffix_of tail s -> String.prefix sub tail = true -> contains sub s = true.
Proof.
  induction 1 as [s|c s tail Hs IH]; intros Hp.
  - rewrite contains_unfold, Hp. reflexivity.
  - rewrite contains_unfold.
    destruct (String.prefix sub (String c s)); [reflexivity | apply IH, Hp].
Qed.

Lemma contains_inv sub s :
  contains sub s = true ->
  exists tail, suffix_of tail s /\ String.prefix sub tail = true.
Proof.
  induction s as [|c s IH]; rewrite contains_unfold.
  - destruct (String.prefix sub "") eqn:E; [|discriminate].
    intros _. exists "". split; [constructor | exact E].
  - destruct (String.prefix sub (String c s)) eqn:E.
    + intros _. exists (String c s). split; [constructor | exact E].
    + intros H. destruct (IH H) as (tail & Hs & Hp).
      exists tail. split; [constructor; exact Hs | exact Hp].
Qed.

Lemma digit_cases d :
  is_digit d = true ->
  In d ["0"; "1"; "2"; "3"; "4"; "5"; "6"; "7"; "8"; "9"]%char.
Proof.
  destruct d as [[] [] [] [] [] [] [] []]; intros H; try discriminate H;
    simpl; tauto.
Qed.

Lemma length_append_string p rest :
  String.length (p +:+ rest) = String.length p + String.length rest.
Proof. induction p as [|c p IH]; simpl; [reflexivity | rewrite IH; reflexivity]. Qed.

Lemma take_length_append p rest :
  take (String.length p) (p +:+ rest) = p.
Proof. induction p as [|c p IH]; simpl; [destruct rest; reflexivity | rewrite IH; reflexivity]. Qed.

(** The text a match consumed, when the text is [p] followed by the
    unread [rest]. *)
Lemma matched_text p rest :
  take (String.length (p +:+ rest) - String.length rest) (p +:+ rest) = p.
Proof.
  rewrite length_append_string.
  replace (String.length p + String.length rest - String.length rest)
    with (String.length p) by lia.
  apply take_length_append.
Qed.

Lemma prefix_append p rest : String.prefix p (p +:+ rest) = true.
Proof.
  induction p as [|c p IH]; simpl; [apply prefix_nil|].
  destruct (ascii_dec c c); [exact IH | congruence].
Qed.

Lemma year_exec tail rest :
  exec false year_re tail Some = Some rest ->
  exists d1 d2, is_digit d1 = true /\ is_digit d2 = true
    /\ tail = String "2" (String "0" (String d1 (String d2 ""))) +:+ rest.
Proof.
  unfold year_re. cbn [lits exec digit].
  destruct tail as [|c0 tail]; [discriminate|].
  destruct (Ascii.eqb "2" c0) eqn:E0; [|discriminate].
  destruct tail as [|c1 tail]; [discriminate|].
  destruct (Ascii.eqb "0" c1) eqn:E1; [|discriminate].
  destruct tail as [|c2 tail]; [discriminate|].
  destruct (is_digit c2) eqn:E2; [|discriminate].
  destruct tail as [|c3 tail]; [discriminate|].
  destruct (is_digit c3) eqn:E3; [|discriminate].
  intros [= ->]. apply Ascii.eqb_eq in E0, E1. subst c0 c1.
  exists c2, c3. auto.
Qed.

Lemma year_match_here tail m :
  match_here false year_re tail = Some m ->
  year_token m /\ String.prefix m tail = true.
Proof.
  unfold match_here.
  destruct (exec false year_re tail Some) as [rest|] eqn:E; [|discriminate].
  apply year_exec in E as (d1 & d2 & H1 & H2 & ->).
  rewrite matched_text. intros [= <-]. split.
  - exists d1, d2. auto.
  - apply prefix_append.
Qed.

Lemma year_token_value y :
  year_token y ->
  String.length y = 4
  /\ exists n, PyNum.py_int y = Some n /\ (2000 <= n <= 2099)%Z.
Proof.
  intros (d1 & d2 & H1 & H2 & ->). split; [reflexivity|].
  apply digit_cases in H1, H2. simpl in H1, H2.
  repeat (destruct H1 as [<-|H1]); try contradiction;
    repeat (destruct H2 as [<-|H2]); try contradiction;
    (eexists; split; [vm_compute; reflexivity | lia]).
Qed.

Lemma prefix_inv p : forall s,
  String.prefix p s = true -> exists rest, s = p +:+ rest.
Proof.
  induction p as [|c p IH]; intros s H.
  - exists s. reflexivity.
  - destruct s as [|c' s]; [discriminate|]. simpl in H.
    destruct (ascii_dec c c') as [->|]; [|discriminate].
    destruct (IH s H) as [rest ->]. exists rest. reflexivity.
Qed.

Lemma year_exec_complete y rest :
  year_token y -> exec false year_re (y +:+ rest) Some = Some rest.
Proof.
  intros (d1 & d2 & H1 & H2 & ->). unfold year_re.
  change (String "2" (String "0" (String d1 (String d2 ""))) +:+ rest)
    with (String "2" (String "0" (String d1 (String d2 rest)))).
  unfold digit. cbn -[is_digit]. rewrite H1, H2. reflexivity.
Qed.

Lemma year_absent name :
  search false year_re name = None ->
  forall y, year_token y -> contains y name = false.
Proof.
  intros Hs y Hy. destruct (contains y name) eqn:E; [|reflexivity].
  apply contains_inv in E as (tail & Hsuf & Hp).
  apply prefix_inv in Hp as [rest ->].
  pose proof (search_none _ _ _ Hs _ Hsuf) as Hm.
  unfold match_here in Hm. rewrite (year_exec_complete y rest Hy) in Hm.
  discriminate.
Qed.

Lemma one_to_four_cases d :
  one_to_four d = true -> In d ["1"; "2"; "3"; "4"]%char.
Proof.
  destruct d as [[] [] [] [] [] [] [] []]; intros H; try discriminate H;
    simpl; tauto.
Qed.

Lemma period_exec tail rest :
  exec false period_re tail Some = Some rest ->
  exists p, period_token p /\ tail = p +:+ rest.
Proof.
  unfold period_re, period_token. cbn [lits exec].
  destruct tail as [|c0 tail]; [discriminate|].
  destruct (Ascii.eqb "q" c0) eqn:Eq.
  - apply Ascii.eqb_eq in Eq. subst c0.
    destruct tail as [|c1 tail]; [discriminate|].
    destruct (one_to_four c1) eqn:E1; [|discriminate].
    intros [= ->]. apply one_to_four_cases in E1. simpl in E1.
    destruct E1 as [<-|[<-|[<-|[<-|[]]]]];
      [exists "q1" | exists "q2" | exists "q3" | exists "q4"];
      (split; [simpl; tauto | reflexivity]).
  - destruct (Ascii.eqb "y" c0) eqn:Ey; [|discriminate].
    apply Ascii.eqb_eq in Ey. subst c0.
    destruct tail as [|c1 tail]; [intros [= <-]; exists "y"; simpl; tauto|].
    destruct (Ascii.eqb "e" c1) eqn:E1;
      [|intros [= <-]; exists "y"; simpl; tauto].
    destruct tail as [|c2 tail]; [intros [= <-]; exists "y"; simpl; tauto|].
    destruct (Ascii.eqb "a" c2) eqn:E2;
      [|intros [= <-]; exists "y"; simpl; tauto].
    destruct tail as [|c3 tail]; [intros [= <-]; exists "y"; simpl; tauto|].
    destruct (Ascii.eqb "r" c3) eqn:E3;
      [|intros [= <-]; exists "y"; simpl; tauto].
    destruct tail as [|c4 tail]; [intros [= <-]; exists "y"; simpl; tauto|].
    destruct (Ascii.eqb "l" c4) eqn:E4;
      [|intros [= <-]; exists "y"; simpl; tauto].
    destruct tail as [|c5 tail]; [intros [= <-]; exists "y"; simpl; tauto|].
    destruct (Ascii.eqb "y" c5) eqn:E5;
      [|intros [= <-]; exists "y"; simpl; tauto].
    apply Ascii.eqb_eq in E1, E2, E3, E4, E5. subst.
    intros [= <-]. exists "yearly". simpl; tauto.
Qed.

Lemma period_exec_yearly rest :
  exec false period_re (String "y" rest) Some <> None.
Proof.
  unfold period_re. cbn [exec lits].
  change (Ascii.eqb "q" "y") with false. change (Ascii.eqb "y" "y") with true.
  cbv iota.
  match goal with |- match ?x with _ => _ end <> _ => destruct x end;
    discriminate.
Qed.

Lemma period_exec_quarter d rest :
  one_to_four d = true ->
  exec false period_re (String "q" (String d rest)) Some = Some rest.
Proof.
  intros H. unfold period_re. cbn [exec lits].
  change (Ascii.eqb "q" "q") with true. cbv iota. rewrite H. reflexivity.
Qed.

Lemma period_absent name :
  search false period_re name = None ->
  contains "y" name = false
  /\ forall d, one_to_four d = true ->
               contains (String "q" (String d "")) name = false.
Proof.
  intros Hs. split.
  - destruct (contains "y" name) eqn:E; [|reflexivity].
    apply contains_inv in E as (tail & Hsuf & Hp).
    apply prefix_inv in Hp as [rest ->].
    pose proof (search_none _ _ _ Hs _ Hsuf) as Hm.
    unfold match_here in Hm.
    change ("y" +:+ rest) with (String "y" rest) in Hm.
    pose proof (period_exec_yearly rest) as Hy.
    destruct (exec false period_re (String "y" rest) Some); [discriminate | congruence].
  - intros d Hd. destruct (contains _ name) eqn:E; [|reflexivity].
    apply contains_inv in E as (tail & Hsuf & Hp).
    apply prefix_inv in Hp as [rest ->].
    pose proof (search_none _ _ _ Hs _ Hsuf) as Hm.
    unfold match_here in Hm.
    change (String "q" (String d "") +:+ rest) with (String "q" (String d rest)) in Hm.
    rewrite (period_exec_quarter d rest Hd) in Hm. discriminate.
Qed.

End StatementFacts.

(** * Browser sessions *)

Lemma filter_bind {A B} p (m : M A) (k : A -> M B) t :
  List.filter p (events (bind m k t)) =
  (List.filter p (events (m t)) ++
   match outcome (m t) with
   | Ret a => List.filter p (events (k a (now (m t))))
   | Raise _ => []
   end)%list.
Proof.
  rewrite events_bind, List.filter_app. destruct (outcome (m t)); reflexivity.
Qed.

Lemma filter_try_except {A} p (m : M A) c h t :
  List.filter p (events (try_except m c h t)) =
  (List.filter p (events (m t)) ++
   match outcome (m t) with
   | Ret _ => []
   | Raise e => if c e then List.filter p (events (h e (now (m t)))) else []
   end)%list.
Proof.
  rewrite events_try_except, List.filter_app.
  destruct (outcome (m t)); [reflexivity|]. destruct (c e); reflexivity.
Qed.

Lemma filter_none p (l : list Event) :
  Forall (fun e => p e = false) l -> List.filter p l = [].
Proof.
  induction 1 as [|e l He _ IH]; [reflexivity|]. simpl. rewrite He. exact IH.
Qed.

Lemma no_session_filter (l : list Event) :
  Forall no_session l -> List.filter is_session l = [].
Proof.
  intros H. apply filter_none. eapply Forall_impl; [exact H|].
  intros e (Hc & Hr & _). unfold is_session.
  destruct e; try reflexivity; simpl in *; discriminate.
Qed.

Section Selenium.
Variable env : Env.

(** One attempt to start the browser: a session event exactly when the
    driver comes back. *)
Lemma driver_attempt_session headless max_retries attempt t :
  let r := Main2.get_safe_driver_attempt env headless max_retries attempt t in
  List.filter is_session (events r) =
  match outcome r with
  | Ret (Return (Some _)) => [EvChrome true]
  | _ => []
  end.
Proof.
  cbv zeta.
  unfold Main2.get_safe_driver_attempt, try_except, bind, log, emit, ask_flagged,
    sleep, ret. simpl.
  destruct (webdriver_Chrome env t) as [u|e]; simpl; [reflexivity|].
  destruct (is_WebDriverException e); simpl; [|reflexivity].
  destruct (attempt <? max_retries - 1)%Z; reflexivity.
Qed.

Lemma get_safe_driver_session headless max_retries t :
  let r := Main2.get_safe_driver env headless max_retries t in
  List.filter is_session (events r) =
  match outcome r with
  | Ret (Some _) => [EvChrome true]
  | _ => []
  end.
Proof.
  cbv zeta. unfold Main2.get_safe_driver.
  generalize (py_range max_retries) as attempts. intros attempts. revert t.
  induction attempts as [|attempt rest IH]; intros t; [reflexivity|].
  cbn [Main2.get_safe_driver_loop].
  pose proof (driver_attempt_session headless max_retries attempt t) as Hf.
  cbv zeta in Hf.
  rewrite filter_bind, outcome_bind, Hf.
  destruct (outcome (Main2.get_safe_driver_attempt env headless max_retries attempt t))
    as [[[d|]|]|e]; cbn [ret outcome events List.filter app]; try reflexivity.
  apply IH.
Qed.

Lemma quit_driver_events t :
  events (Main2.quit_driver env t) = [EvQuit].
Proof.
  unfold Main2.quit_driver. rewrite events_try_except. cbn [ask outcome events].
  destruct (driver_quit env t); reflexivity.
Qed.

(** The rendered fetch of [main2.py] releases what it acquires: the
    session events of a fetch are none at all, or one acquisition
    followed by one release. *)
Theorem main2_session_is_released symbol t :
  let r := Main2.fetch_factsheet_selenium env symbol t in
  (outcome (Main2.get_safe_driver env true 3 t) = Ret (Some Main2.ChromeDriver)
   /\ List.filter is_session (events r) = [EvChrome true; EvQuit])
  \/ (outcome (Main2.get_safe_driver env true 3 t) <> Ret (Some Main2.ChromeDriver)
      /\ List.filter is_session (events r) = []).
Proof.
  cbv zeta. unfold Main2.fetch_factsheet_selenium, Main2.rate_limit,
    Main2.fetch_factsheet_selenium_body.
  pose proof (get_safe_driver_session true 3 t) as Hg. cbv zeta in Hg.
  pose proof (render_factsheet_events env symbol
                (Main2.quote_url symbol "/factsheet")) as Hr.
  revert Hg Hr.
  generalize (Main2.render_factsheet env symbol (Main2.quote_url symbol "/factsheet"))
    as render.
  generalize (Main2.get_safe_driver env true 3) as gsd.
  intros gsd render Hg Hr.
  rewrite run_log_bind. cbn [events List.filter is_session is_acquire is_release orb].
  rewrite filter_bind.
  change (sleep 2) with (emit (EvSleep 2)).
  cbn [emit outcome now events List.filter is_session is_acquire is_release orb app].
  rewrite filter_bind, filter_try_except, filter_bind, !outcome_try_except,
    !now_try_except, !outcome_bind, !now_bind, Hg.
  destruct (outcome (gsd t)) as [[[]|]|e].
  - left. split; [reflexivity|].
    cbn [ret outcome now events List.filter app].
    rewrite events_try_finally, List.filter_app, filter_try_except,
      quit_driver_events.
    rewrite (no_session_filter _ (Hr (now (gsd t)))).
    destruct (outcome (render (now (gsd t)))); reflexivity.
  - right. split; [discriminate | reflexivity].
  - right. split; [discriminate | reflexivity].
Qed.

End Selenium.

(** C8: the rendered fetch of [main.py] leaks the browser.  When the
    page load raises after the driver was created, the exception leaves
    the function and [driver.quit()] is never reached: one acquisition,
    no release. *)
Theorem main_session_leaks_on_failed_load :
  let r := Main.fetch_factsheet_selenium Worlds.unreachable_page "AOT" 0 in
  outcome r = Raise (mkExn WebDriverException "net::ERR_NAME_NOT_RESOLVED")
  /\ events r
     = [EvChrome true;
        EvDriverGet "https://www.set.or.th/th/market/product/stock/quote/AOT/factsheet"]
  /\ tally is_acquire r = 1
  /\ tally is_release r = 0.
Proof. vm_compute. repeat split; reflexivity. Qed.

(** * Reload of an incomplete page *)

Lemma occurs_app_r block l1 l2 : occurs_in block l2 -> occurs_in block (l1 ++ l2).
Proof.
  intros (pre & post & ->). exists (l1 ++ pre)%list, post.
  rewrite <- app_assoc. reflexivity.
Qed.

Lemma occurs_app_l block l1 l2 : occurs_in block l1 -> occurs_in block (l1 ++ l2).
Proof.
  intros (pre & post & ->). exists pre, (post ++ l2)%list.
  rewrite <- !app_assoc. reflexivity.
Qed.

Lemma occurs_cons block e l : occurs_in block l -> occurs_in block (e :: l).
Proof. apply (occurs_app_r block [e] l). Qed.

Lemma occurs_here block post : occurs_in block (block ++ post).
Proof. exists [], post. reflexivity. Qed.

Section Reload.
Variable env : Env.

Lemma looks_incomplete_no_refresh :
  emits_only no_refresh (Main2.looks_incomplete env).
Proof. unfold Main2.looks_incomplete, Main2.page_source. eo. Qed.

Lemma read_factsheet_quiet_events symbol :
  emits_only (fun e => is_refresh e = false /\ is_chrome_attempt e = false)
    (Main2.read_factsheet env symbol).
Proof. unfold Main2.read_factsheet, Main2.page_source. eo. Qed.

Lemma looks_incomplete_no_chrome :
  emits_only (fun e => is_chrome_attempt e = false) (Main2.looks_incomplete env).
Proof. unfold Main2.looks_incomplete, Main2.page_source. eo. Qed.

(** What the condition of line 102 evaluates to. *)
Lemma looks_incomplete_outcome t :
  outcome (Main2.looks_incomplete env t) =
  match driver_page_source env t with
  | Raise e => Raise e
  | Ret src =>
      if PyStr.contains Main2.not_found_marker src then Ret true
      else match driver_page_source env (S t) with
           | Raise e => Raise e
           | Ret src' => Ret (PyStr.py_len src' <? 1000)%Z
           end
  end.
Proof.
  unfold Main2.looks_incomplete, Main2.page_source.
  rewrite outcome_bind. cbn [ask outcome now].
  destruct (driver_page_source env t) as [src|e]; [|reflexivity].
  destruct (PyStr.contains Main2.not_found_marker src); [reflexivity|].
  rewrite outcome_bind. cbn [ask outcome now].
  destruct (driver_page_source env (S t)); reflexivity.
Qed.

Lemma no_refresh_filter (l : list Event) :
  Forall no_refresh l -> List.filter is_refresh l = [].
Proof. apply filter_none. Qed.

Lemma reload_refresh symbol t :
  List.filter is_refresh (events (Main2.reload_if_incomplete env symbol t)) =
  match outcome (Main2.looks_incomplete env t) with
  | Ret true => [EvRefresh]
  | _ => []
  end.
Proof.
  unfold Main2.reload_if_incomplete.
  pose proof (no_refresh_filter _ (looks_incomplete_no_refresh t)) as Hl.
  revert Hl. generalize (Main2.looks_incomplete env) as li. intros li Hl.
  rewrite filter_bind, Hl.
  destruct (outcome (li t)) as [[]|e]; try reflexivity.
  rewrite run_log_bind. cbn [events List.filter is_refresh].
  rewrite filter_bind. cbn [ask outcome now events List.filter is_refresh].
  destruct (driver_refresh env (now (li t))); reflexivity.
Qed.

Lemma reload_chrome symbol t :
  List.filter is_chrome_attempt (events (Main2.reload_if_incomplete env symbol t)) = [].
Proof.
  apply filter_none. revert t.
  change (emits_only (fun e => is_chrome_attempt e = false)
            (Main2.reload_if_incomplete env symbol)).
  unfold Main2.reload_if_incomplete. eo. apply looks_incomplete_no_chrome.
Qed.

Lemma reload_occurs symbol t :
  outcome (Main2.looks_incomplete env t) = Ret true ->
  driver_refresh env (now (Main2.looks_incomplete env t)) = Ret tt ->
  occurs_in [EvRefresh; EvSleep 5]
    (events (Main2.reload_if_incomplete env symbol t)).
Proof.
  unfold Main2.reload_if_incomplete.
  generalize (Main2.looks_incomplete env) as li. intros li Ho Hr.
  rewrite events_bind, Ho. apply occurs_app_r.
  rewrite run_log_bind. cbn [events]. apply occurs_cons.
  rewrite events_bind. cbn [ask outcome now events]. rewrite Hr.
  apply (occurs_here [EvRefresh; EvSleep 5] []).
Qed.

Lemma render_refresh symbol url t :
  List.filter is_refresh (events (Main2.render_factsheet env symbol url t)) =
  match driver_get env t url with
  | Ret _ => List.filter is_refresh
               (events (Main2.reload_if_incomplete env symbol (S t)))
  | Raise _ => []
  end.
Proof.
  unfold Main2.render_factsheet.
  pose proof (read_factsheet_quiet_events symbol) as Hrd.
  revert Hrd.
  generalize (Main2.read_factsheet env symbol) as rd.
  generalize (Main2.reload_if_incomplete env symbol) as rl.
  intros rl rd Hrd.
  rewrite run_log_bind. cbn [events List.filter is_refresh].
  rewrite filter_bind. cbn [ask outcome now events List.filter is_refresh app].
  destruct (driver_get env t url) as [u|e]; [|reflexivity].
  rewrite filter_bind. change (sleep 5) with (emit (EvSleep 5)).
  cbn [emit outcome now events List.filter is_refresh app].
  rewrite filter_bind.
  assert (Hf : forall t', List.filter is_refresh (events (rd t')) = []).
  { intros t'. apply filter_none. eapply Forall_impl; [apply Hrd|].
    intros e [H _]. exact H. }
  destruct (outcome (rl (S t))); rewrite ?Hf, ?app_nil_r; reflexivity.
Qed.

Lemma render_occurs symbol url t :
  driver_get env t url = Ret tt ->
  occurs_in [EvRefresh; EvSleep 5]
    (events (Main2.reload_if_incomplete env symbol (S t))) ->
  occurs_in [EvRefresh; EvSleep 5]
    (events (Main2.render_factsheet env symbol url t)).
Proof.
  unfold Main2.render_factsheet.
  generalize (Main2.read_factsheet env symbol) as rd.
  generalize (Main2.reload_if_incomplete env symbol) as rl.
  intros rl rd Hg Ho.
  rewrite run_log_bind. cbn [events]. apply occurs_cons.
  rewrite events_bind. cbn [ask outcome now events]. rewrite Hg.
  apply occurs_cons. rewrite events_bind. change (sleep 5) with (emit (EvSleep 5)).
  cbn [emit outcome now events app]. apply occurs_cons.
  rewrite events_bind. apply occurs_app_l. exact Ho.
Qed.

(** The events of a fetch that a predicate blind to logging, sleeping
    and quitting selects: those of the session start, then those of the
    work on the page. *)
Lemma fetch_filter p symbol t :
  (forall l msg, p (EvLog l msg) = false) ->
  (forall secs, p (EvSleep secs) = false) ->
  p EvQuit = false ->
  let session := Main2.get_safe_driver env true 3 t in
  List.filter p (events (Main2.fetch_factsheet_selenium env symbol t)) =
  (List.filter p (events session) ++
   match outcome session with
   | Ret (Some _) =>
       List.filter p (events (Main2.render_factsheet env symbol
                                (Main2.quote_url symbol "/factsheet") (now session)))
   | _ => []
   end)%list.
Proof.
  intros Hlog Hsleep Hquit. cbv zeta.
  unfold Main2.fetch_factsheet_selenium, Main2.rate_limit,
    Main2.fetch_factsheet_selenium_body.
  generalize (Main2.render_factsheet env symbol (Main2.quote_url symbol "/factsheet"))
    as render.
  generalize (Main2.get_safe_driver env true 3) as gsd.
  intros gsd render.
  rewrite run_log_bind. cbn [events List.filter]. rewrite Hlog.
  rewrite filter_bind. change (sleep 2) with (emit (EvSleep 2)).
  cbn [emit outcome now events List.filter app]. rewrite Hsleep.
  rewrite filter_bind, filter_try_except, filter_bind, !outcome_try_except,
    !now_try_except, !outcome_bind, !now_bind.
  destruct (outcome (gsd t)) as [[[]|]|e].
  - cbn [ret outcome now events List.filter app]. rewrite !app_nil_r.
    f_equal.
    rewrite events_try_finally, List.filter_app, filter_try_except,
      quit_driver_events.
    cbn [List.filter]. rewrite Hquit, app_nil_r.
    destruct (outcome (render (now (gsd t)))) as [d|e]; [apply app_nil_r|].
    cbn [is_Exception]. rewrite run_log_bind. cbn [ret events List.filter].
    rewrite Hlog. apply app_nil_r.
  - cbn [ret outcome now events List.filter app]. rewrite !app_nil_r. reflexivity.
  - cbn [is_Exception].
    rewrite ?filter_bind, ?outcome_bind, ?now_bind, ?run_log_bind.
    cbn [ret log emit outcome now events List.filter app].
    rewrite ?Hlog, ?app_nil_r. reflexivity.
Qed.

Lemma fetch_occurs block symbol t :
  let session := Main2.get_safe_driver env true 3 t in
  outcome session = Ret (Some Main2.ChromeDriver) ->
  occurs_in block (events (Main2.render_factsheet env symbol
                             (Main2.quote_url symbol "/factsheet") (now session))) ->
  occurs_in block (events (Main2.fetch_factsheet_selenium env symbol t)).
Proof.
  cbv zeta.
  unfold Main2.fetch_factsheet_selenium, Main2.rate_limit,
    Main2.fetch_factsheet_selenium_body.
  generalize (Main2.render_factsheet env symbol (Main2.quote_url symbol "/factsheet"))
    as render.
  generalize (Main2.get_safe_driver env true 3) as gsd.
  intros gsd render Ho Hocc.
  rewrite run_log_bind. cbn [events]. apply occurs_cons.
  rewrite events_bind. change (sleep 2) with (emit (EvSleep 2)).
  cbn [emit outcome now events app]. apply occurs_cons.
  rewrite events_bind, events_try_except, events_bind, !outcome_try_except,
    !now_try_except, !outcome_bind, !now_bind, Ho.
  cbn [ret outcome now events app]. rewrite !app_nil_r.
  apply occurs_app_r. rewrite events_try_finally. apply occurs_app_l.
  rewrite events_try_except. apply occurs_app_l. exact Hocc.
Qed.

Lemma session_no_refresh t :
  List.filter is_refresh (events (Main2.get_safe_driver env true 3 t)) = [].
Proof.
  apply filter_none. eapply Forall_impl; [apply get_safe_driver_events|].
  intros e (_ & H & _). exact H.
Qed.

Lemma render_no_chrome symbol url t :
  List.filter is_chrome_attempt (events (Main2.render_factsheet env symbol url t)) = [].
Proof.
  apply filter_none. eapply Forall_impl; [apply render_factsheet_events|].
  intros e (H & _). exact H.
Qed.

(** C9: a rendered fetch of [main2.py] reloads the page at most once.
    Once the driver exists and the page was loaded and given its settle
    wait, the page is refreshed, and waited for once more, exactly when
    it looks incomplete (the "not found" marker is in the page source, or
    the page source read next is shorter than 1000 characters), and not
    at all otherwise.  The reload is no retry: the attempts to create the
    driver are those of [get_safe_driver] alone. *)
Theorem reload_at_most_once symbol t :
  let url := Main2.quote_url symbol "/factsheet" in
  let r := Main2.fetch_factsheet_selenium env symbol t in
  let session := Main2.get_safe_driver env true 3 t in
  (* never more than one reload in a fetch *)
  tally is_refresh r <= 1
  (* the reload starts no browser: the attempts to create the driver
     are those of [get_safe_driver] alone *)
  /\ tally is_chrome_attempt r = tally is_chrome_attempt session
  (* after the load and the settle wait: one reload and one more wait
     exactly when the page looks incomplete *)
  /\ (forall b,
        outcome session = Ret (Some Main2.ChromeDriver) ->
        driver_get env (now session) url = Ret tt ->
        outcome (Main2.looks_incomplete env (S (now session))) = Ret b ->
        tally is_refresh r = (if b then 1 else 0)
        /\ (b = true ->
            driver_refresh env (now (Main2.looks_incomplete env (S (now session))))
            = Ret tt ->
            occurs_in [EvRefresh; EvSleep 5] (events r)))
  (* looking incomplete: the marker is in the page, or the page read
     next is shorter than 1000 characters *)
  /\ (forall t',
        outcome (Main2.looks_incomplete env t') =
        match driver_page_source env t' with
        | Raise e => Raise e
        | Ret src =>
            if PyStr.contains Main2.not_found_marker src then Ret true
            else match driver_page_source env (S t') with
                 | Raise e => Raise e
                 | Ret src' => Ret (PyStr.py_len src' <? 1000)%Z
                 end
        end).
Proof.
  cbv zeta.
  assert (Href : List.filter is_refresh
                   (events (Main2.fetch_factsheet_selenium env symbol t)) =
                 match outcome (Main2.get_safe_driver env true 3 t) with
                 | Ret (Some _) =>
                     match driver_get env (now (Main2.get_safe_driver env true 3 t))
                             (Main2.quote_url symbol "/factsheet") with
                     | Ret _ =>
                         match outcome (Main2.looks_incomplete env
                                 (S (now (Main2.get_safe_driver env true 3 t)))) with
                         | Ret true => [EvRefresh]
                         | _ => []
                         end
                     | Raise _ => []
                     end
                 | _ => []
                 end).
  { rewrite (fetch_filter is_refresh symbol t) by reflexivity.
    rewrite session_no_refresh. cbn [app].
    destruct (outcome (Main2.get_safe_driver env true 3 t)) as [[d|]|e];
      try reflexivity.
    rewrite render_refresh.
    destruct (driver_get env _ _); [|reflexivity]. apply reload_refresh. }
  split; [|split; [|split]].
  - unfold tally. rewrite Href.
    destruct (outcome (Main2.get_safe_driver env true 3 t)) as [[d|]|e]; simpl; try lia.
    destruct (driver_get env _ _); simpl; try lia.
    destruct (outcome (Main2.looks_incomplete env _)) as [[]|]; simpl; lia.
  - unfold tally. rewrite (fetch_filter is_chrome_attempt symbol t) by reflexivity.
    destruct (outcome (Main2.get_safe_driver env true 3 t)) as [[d|]|e];
      rewrite ?render_no_chrome, ?app_nil_r; reflexivity.
  - intros b Hs Hg Hl. split.
    + unfold tally. rewrite Href, Hs, Hg, Hl. destruct b; reflexivity.
    + intros -> Hr. apply fetch_occurs; [exact Hs|].
      apply render_occurs; [exact Hg|]. apply reload_occurs; assumption.
  - apply looks_incomplete_outcome.
Qed.

End Reload.

Lemma reload_at_most_once_witness :
  tally is_refresh (Main2.fetch_factsheet_selenium (Worlds.healthy "short") "AOT" 0) = 1
  /\ occurs_in [EvRefresh; EvSleep 5]
       (events (Main2.fetch_factsheet_selenium (Worlds.healthy "short") "AOT" 0)).
Proof.
  destruct (reload_at_most_once (Worlds.healthy "short") "AOT" 0)
    as (_ & _ & H & _).
  destruct (H true) as (H1 & H2); try reflexivity.
  split; [exact H1 | apply H2; reflexivity].
Defined.


(** * Transport: pacing and outcome of the retry loop *)

Lemma slept_app l1 l2 : slept (l1 ++ l2) = (slept l1 ++ slept l2)%list.
Proof. unfold slept. apply flat_map_app. Qed.

Lemma slept_bind {A B} (m : M A) (k : A -> M B) t :
  slept (events (bind m k t)) =
  (slept (events (m t)) ++
   match outcome (m t) with
   | Ret a => slept (events (k a (now (m t))))
   | Raise _ => []
   end)%list.
Proof.
  rewrite events_bind, slept_app. destruct (outcome (m t)); reflexivity.
Qed.

Lemma slept_filter l : slept (List.filter is_sleep l) = slept l.
Proof.
  induction l as [|e l IH]; [reflexivity|].
  destruct e; cbn [List.filter is_sleep]; try exact IH.
  change (slept (EvSleep seconds :: List.filter is_sleep l))
    with (seconds :: slept (List.filter is_sleep l)).
  rewrite IH. reflexivity.
Qed.

Lemma backoff_cons k n : backoff k (S n) = ((2 ^ Z.of_nat k)%Z :: backoff (S k) n).
Proof. reflexivity. Qed.

Section Pacing.
Variable env : Env.
Variables (url : string) (params : list (string * string)).
Variables (max_retries timeout : Z).

(** One attempt: what it sleeps and what its outcome says about the
    answer of the network. *)
Lemma attempt_shape attempt t :
  let a := Main2.safe_request_attempt env url params max_retries timeout attempt t in
  match outcome a with
  | Ret (Return (Some resp)) =>
      slept (events a) = []
      /\ requests_get env t url params = Ret resp /\ response_ok resp = true
  | Ret (Return None) =>
      slept (events a) = []
      /\ rejected (requests_get env t url params) = true
      /\ (attempt <? max_retries - 1)%Z = false
  | Ret Next =>
      slept (events a) = [(2 ^ attempt)%Z]
      /\ rejected (requests_get env t url params) = true
      /\ (attempt <? max_retries - 1)%Z = true
  | Raise e =>
      slept (events a) = []
      /\ requests_get env t url params = Raise e
      /\ is_RequestException e = false
  end.
Proof.
  destruct (rejected (requests_get env t url params)) eqn:Hr.
  - pose proof (attempt_rejected env url params max_retries timeout attempt t Hr) as Ho.
    cbv zeta. rewrite Ho.
    unfold Main2.safe_request_attempt.
    rewrite events_try_except, run_log_bind. cbn [outcome now events].
    rewrite outcome_bind, events_bind. cbn [ask outcome now events].
    revert Ho. unfold Main2.safe_request_attempt.
    rewrite outcome_try_except, run_log_bind. cbn [outcome now events].
    rewrite outcome_bind. cbn [ask outcome now events].
    unfold rejected in Hr.
    destruct (requests_get env t url params) as [resp|e].
    + rewrite outcome_bind, events_bind.
      assert (Hev : events (Main2.raise_for_status url resp (S t)) = []).
      { unfold Main2.raise_for_status.
        destruct (_ && _); [reflexivity|]. destruct (_ && _); reflexivity. }
      assert (Hn : now (Main2.raise_for_status url resp (S t)) = S t).
      { unfold Main2.raise_for_status.
        destruct (_ && _); [reflexivity|]. destruct (_ && _); reflexivity. }
      rewrite Hev, Hn.
      destruct (outcome (Main2.raise_for_status url resp (S t))) as [u|e].
      * cbn [ret outcome]. destruct (attempt <? max_retries - 1)%Z; discriminate.
      * destruct (is_RequestException e).
        2:{ destruct (attempt <? max_retries - 1)%Z; discriminate. }
        intros _. rewrite run_log_bind.
        destruct (attempt <? max_retries - 1)%Z; rewrite run_log_bind;
          cbn [outcome now events]; rewrite ?events_bind, ?sleep_backoff;
          cbn [ret outcome now events app slept flat_map]; auto.
    + rewrite Hr. intros _. rewrite run_log_bind.
      destruct (attempt <? max_retries - 1)%Z; rewrite run_log_bind;
        cbn [outcome now events]; rewrite ?events_bind, ?sleep_backoff;
        cbn [ret outcome now events app slept flat_map]; auto.
  - pose proof (attempt_not_rejected env url params max_retries timeout attempt t Hr) as Ho.
    cbv zeta. rewrite Ho. clear Ho.
    unfold Main2.safe_request_attempt.
    rewrite events_try_except, run_log_bind. cbn [outcome now events].
    rewrite outcome_bind, events_bind. cbn [ask outcome now events].
    unfold rejected in Hr.
    destruct (requests_get env t url params) as [resp|e].
    + apply negb_false_iff in Hr. rewrite outcome_bind, events_bind.
      assert (Hrs : Main2.raise_for_status url resp (S t) = mkRun (Ret tt) (S t) []).
      { apply response_is_ok in Hr. unfold Main2.raise_for_status.
        replace ((400 <=? status_code resp)%Z && (status_code resp <? 500)%Z)
          with false.
        2:{ symmetry. apply andb_false_iff.
            destruct (Z.leb_spec 400 (status_code resp)); [right|left; reflexivity].
            apply Z.ltb_ge. lia. }
        replace ((500 <=? status_code resp)%Z && (status_code resp <? 600)%Z)
          with false; [reflexivity|].
        symmetry. apply andb_false_iff.
        destruct (Z.leb_spec 500 (status_code resp)); [right|left; reflexivity].
        apply Z.ltb_ge. lia. }
      rewrite Hrs. cbn [ret outcome now events app slept flat_map]. auto.
    + rewrite Hr. cbn [slept flat_map app]. auto.
Qed.

(** The loop over the attempts [k, ..., k+j-1], the last [j] of the
    budget: [a] attempts are made, each but the last answered by
    something the code retries on and followed by its back-off sleep. *)
Lemma loop_paced j : forall k t,
  k + j = Z.to_nat max_retries ->
  let r := Main2.safe_request_loop env url params max_retries timeout
             (map Z.of_nat (seq k j)) t in
  let a := tally is_http_get r in
  a <= j /\ (0 < j -> 0 < a) /\ now r = t + a
  /\ slept (events r) = backoff k (a - 1)
  /\ (forall i, i < a - 1 -> rejected (requests_get env (t + i) url params) = true)
  /\ match outcome r with
     | Ret (Some resp) =>
         requests_get env (t + (a - 1)) url params = Ret resp
         /\ response_ok resp = true
     | Ret None =>
         a = j
         /\ (0 < j -> rejected (requests_get env (t + (a - 1)) url params) = true)
     | Raise e =>
         requests_get env (t + (a - 1)) url params = Raise e
         /\ is_RequestException e = false
     end.
Proof.
  induction j as [|j IH]; intros k t Hk; cbn [seq map Main2.safe_request_loop].
  - unfold tally. cbn. repeat split; try lia.
  - cbv zeta.
    pose proof (attempt_once env url params max_retries timeout (Z.of_nat k) t)
      as [Htally Hnow].
    pose proof (attempt_shape (Z.of_nat k) t) as Hs. cbv zeta in Hs.
    rewrite outcome_bind, now_bind, tally_bind, slept_bind, Htally, Hnow.
    destruct (outcome (Main2.safe_request_attempt env url params max_retries
                         timeout (Z.of_nat k) t)) as [[[resp|]|]|e].
    + destruct Hs as (Hsl & Hget & Hok). rewrite Hsl.
      unfold tally. cbn [ret outcome now events List.filter length slept flat_map app].
      replace (1 + 0 - 1) with 0 by lia. rewrite !Nat.add_0_r.
      repeat split; try lia; auto.
    + destruct Hs as (Hsl & Hrej & Hlast). rewrite Hsl.
      unfold tally. cbn [ret outcome now events List.filter length slept flat_map app].
      replace (1 + 0 - 1) with 0 by lia. rewrite !Nat.add_0_r.
      apply Z.ltb_ge in Hlast.
      repeat split; try lia; auto.
    + destruct Hs as (Hsl & Hrej & Hmore). rewrite Hsl.
      apply Z.ltb_lt in Hmore.
      destruct (IH (S k) (S t)) as (Hle & Hpos & Hn & Hsleep & Hall & Hout); [lia|].
      set (r' := Main2.safe_request_loop env url params max_retries timeout
                   (map Z.of_nat (seq (S k) j)) (S t)) in *.
      set (a' := tally is_http_get r') in *.
      assert (Ha' : 0 < a') by (apply Hpos; lia).
      replace (1 + a' - 1) with (S (a' - 1)) by lia.
      rewrite backoff_cons, Hsleep, Hn.
      split; [lia|]. split; [lia|]. split; [lia|]. split; [reflexivity|].
      split.
      { intros [|i] Hi; [rewrite Nat.add_0_r; exact Hrej|].
        replace (t + S i) with (S t + i) by lia. apply Hall. lia. }
      replace (t + S (a' - 1)) with (S t + (a' - 1)) by lia.
      destruct (outcome r') as [[resp|]|e]; auto.
      destruct Hout as [Ha Hr]. split; [lia|]. intros _. apply Hr. lia.
    + destruct Hs as (Hsl & Hget & Hno). rewrite Hsl.
      cbn [app]. replace (1 + 0 - 1) with 0 by lia. rewrite !Nat.add_0_r.
      repeat split; try lia; auto.
Qed.

Lemma safe_request_paced t :
  let r := Main2.safe_request env url params max_retries timeout t in
  let a := tally is_http_get r in
  a <= Z.to_nat max_retries /\ (0 < Z.to_nat max_retries -> 0 < a)
  /\ now r = t + a
  /\ slept (events r) = backoff 0 (a - 1)
  /\ (forall i, i < a - 1 -> rejected (requests_get env (t + i) url params) = true)
  /\ match outcome r with
     | Ret (Some resp) =>
         requests_get env (t + (a - 1)) url params = Ret resp
         /\ response_ok resp = true
     | Ret None =>
         a = Z.to_nat max_retries
         /\ (0 < Z.to_nat max_retries ->
             rejected (requests_get env (t + (a - 1)) url params) = true)
     | Raise e =>
         requests_get env (t + (a - 1)) url params = Raise e
         /\ is_RequestException e = false
     end.
Proof.
  unfold Main2.safe_request, py_range. apply loop_paced. lia.
Qed.

(** A response [safe_request] returns passes the test [if not response]
    of the extractors. *)
Lemma safe_request_usable t resp :
  outcome (Main2.safe_request env url params max_retries timeout t) = Ret (Some resp) ->
  Main2.truthy (Some resp) = Some resp.
Proof.
  intros H. pose proof (safe_request_paced t) as Hp.
  cbv zeta in Hp. rewrite H in Hp.
  destruct Hp as (_ & _ & _ & _ & _ & _ & Hok).
  unfold Main2.truthy. rewrite Hok. reflexivity.
Qed.

(** An accepted first answer is returned at once. *)
Lemma safe_request_accepts_first t resp :
  (0 < max_retries)%Z ->
  requests_get env t url params = Ret resp ->
  response_ok resp = true ->
  outcome (Main2.safe_request env url params max_retries timeout t) = Ret (Some resp)
  /\ now (Main2.safe_request env url params max_retries timeout t) = S t.
Proof.
  intros Hm Hget Hok.
  unfold Main2.safe_request, py_range.
  destruct (Z.to_nat max_retries) as [|k] eqn:Ek; [lia|].
  cbn [seq map Main2.safe_request_loop].
  destruct (attempt_once env url params max_retries timeout (Z.of_nat 0) t) as [_ Hn].
  rewrite outcome_bind, now_bind, Hn.
  rewrite (attempt_not_rejected env url params max_retries timeout _ t)
    by (rewrite Hget; simpl; rewrite Hok; reflexivity).
  rewrite Hget. auto.
Qed.

(** X1: in every world [safe_request] makes at most [max_retries]
    requests, the clock advances by one per request, and the sleeps of
    the call are exactly the back-off waits 1, 2, 4, ... taken between
    two consecutive requests: one fewer than the requests made, none
    after the last. *)
Theorem safe_request_paces_attempts t :
  let r := Main2.safe_request env url params max_retries timeout t in
  let a := tally is_http_get r in
  a <= Z.to_nat max_retries
  /\ now r = t + a
  /\ slept (events r) = backoff 0 (a - 1).
Proof.
  destruct (safe_request_paced t) as (H1 & _ & H2 & H3 & _).
  auto.
Qed.

(** X2: what the result of [safe_request] says about the answers of the
    network.  A returned response is the answer to the last request, has
    no error status (so it passes [if not response]) and every earlier
    answer was one the code retries on; None is returned only after
    [max_retries] requests were all answered that way; an exception that
    leaves the call is the answer to the last request and is not a
    RequestException. *)
Theorem safe_request_outcome t :
  let r := Main2.safe_request env url params max_retries timeout t in
  let a := tally is_http_get r in
  match outcome r with
  | Ret (Some resp) =>
      requests_get env (t + (a - 1)) url params = Ret resp
      /\ response_ok resp = true
      /\ Main2.truthy (Some resp) = Some resp
      /\ (forall i, i < a - 1 ->
                    rejected (requests_get env (t + i) url params) = true)
  | Ret None =>
      a = Z.to_nat max_retries
      /\ (forall i, i < a -> rejected (requests_get env (t + i) url params) = true)
  | Raise e =>
      requests_get env (t + (a - 1)) url params = Raise e
      /\ is_RequestException e = false
      /\ (forall i, i < a - 1 ->
                    rejected (requests_get env (t + i) url params) = true)
  end.
Proof.
  destruct (safe_request_paced t) as (Hle & Hpos & _ & _ & Hall & Hout).
  cbv zeta.
  destruct (outcome (Main2.safe_request env url params max_retries timeout t))
    as [[resp|]|e].
  - destruct Hout as [Hget Hok]. repeat split; auto.
    unfold Main2.truthy. rewrite Hok. reflexivity.
  - destruct Hout as [Ha Hlast]. split; [exact Ha|].
    intros i Hi.
    destruct (Nat.eq_dec i (tally is_http_get
                (Main2.safe_request env url params max_retries timeout t) - 1))
      as [->|Hne]; [apply Hlast; lia | apply Hall; lia].
  - destruct Hout as [Hget Hno]. auto.
Qed.

(** X3: the first answer the code does not retry on decides the call.
    When the first [k] answers are ones the code retries on and the next
    one, still within the budget, is not, [safe_request] makes exactly
    [k + 1] requests, sleeps 1, 2, ..., 2^(k-1) in between, and returns
    that response, or lets that exception propagate. *)
Theorem safe_request_first_accepted t k :
  k < Z.to_nat max_retries ->
  (forall i, i < k -> rejected (requests_get env (t + i) url params) = true) ->
  rejected (requests_get env (t + k) url params) = false ->
  let r := Main2.safe_request env url params max_retries timeout t in
  tally is_http_get r = S k
  /\ slept (events r) = backoff 0 k
  /\ outcome r = match requests_get env (t + k) url params with
                 | Ret resp => Ret (Some resp)
                 | Raise e => Raise e
                 end.
Proof.
  intros Hk Hrej Hacc.
  destruct (safe_request_paced t) as (Hle & Hpos & _ & Hsl & Hall & Hout).
  cbv zeta.
  set (r := Main2.safe_request env url params max_retries timeout t) in *.
  set (a := tally is_http_get r) in *.
  assert (Ha : 0 < a) by (apply Hpos; lia).
  assert (Hak : a - 1 <= k).
  { destruct (Nat.le_gt_cases (a - 1) k) as [H|H]; [exact H|].
    rewrite (Hall k H) in Hacc. discriminate. }
  assert (Hlast : rejected (requests_get env (t + (a - 1)) url params) = false
                  -> a - 1 = k).
  { intros Hn. destruct (Nat.eq_dec (a - 1) k) as [E|E]; [exact E|].
    rewrite (Hrej (a - 1)) in Hn; [discriminate | lia]. }
  destruct (outcome r) as [[resp|]|e].
  - destruct Hout as [Hget Hok].
    assert (E : a - 1 = k).
    { apply Hlast. rewrite Hget. simpl. rewrite Hok. reflexivity. }
    rewrite E in *. rewrite Hget. repeat split; auto. lia.
  - destruct Hout as [Hn Hr]. exfalso.
    destruct (Nat.eq_dec k (a - 1)) as [->|Hne].
    + rewrite Hr in Hacc; [discriminate|lia].
    + lia.
  - destruct Hout as [Hget Hno].
    assert (E : a - 1 = k).
    { apply Hlast. rewrite Hget. simpl. exact Hno. }
    rewrite E in *. rewrite Hget. repeat split; auto. lia.
Qed.

End Pacing.

Lemma safe_request_first_accepted_witness :
  tally is_http_get (Main2.safe_request Worlds.not_found_once "u" [] 3 10 0) = 2
  /\ slept (events (Main2.safe_request Worlds.not_found_once "u" [] 3 10 0)) = [1%Z]
  /\ outcome (Main2.safe_request Worlds.not_found_once "u" [] 3 10 0)
     = Ret (Some (mkResponse 200 "{}")).
Proof.
  apply (safe_request_first_accepted Worlds.not_found_once "u" [] 3 10 0 1).
  - vm_compute. lia.
  - intros [|i] Hi; [reflexivity | lia].
  - reflexivity.
Defined.

(** * Retries: what the transport retries on *)

Section Retries.
Variable env : Env.
Variables (url : string) (params : list (string * string)).
Variables (max_retries timeout : Z).

(** After an answer the code retries on, a second request is made
    whenever the budget allows one. *)
Lemma rejected_is_retried t :
  rejected (requests_get env t url params) = true ->
  (1 < max_retries)%Z ->
  2 <= tally is_http_get (Main2.safe_request env url params max_retries timeout t).
Proof.
  intros Hr Hm.
  destruct (safe_request_paced env url params max_retries timeout t)
    as (Hle & Hpos & _ & _ & _ & Hout).
  cbv zeta in *.
  set (r := Main2.safe_request env url params max_retries timeout t) in *.
  set (a := tally is_http_get r) in *.
  assert (Ha : 0 < a) by (apply Hpos; lia).
  destruct (Nat.eq_dec a 1) as [E|E]; [|lia]. exfalso.
  rewrite E in Hout. cbn [Nat.sub] in Hout. rewrite Nat.add_0_r in Hout.
  destruct (outcome r) as [[resp|]|e].
  - destruct Hout as [Hget Hok]. rewrite Hget in Hr. simpl in Hr.
    rewrite Hok in Hr. discriminate.
  - destruct Hout as [Hmax _]. lia.
  - destruct Hout as [Hget Hno]. rewrite Hget in Hr. simpl in Hr. congruence.
Qed.

(** An answer the code does not retry on ends the call at once. *)
Lemma accepted_ends_call t :
  rejected (requests_get env t url params) = false ->
  (0 < max_retries)%Z ->
  let r := Main2.safe_request env url params max_retries timeout t in
  tally is_http_get r = 1
  /\ outcome r = match requests_get env t url params with
                 | Ret resp => Ret (Some resp)
                 | Raise e => Raise e
                 end.
Proof.
  intros Hr Hm.
  destruct (safe_request_paced env url params max_retries timeout t)
    as (Hle & Hpos & _ & _ & Hall & Hout).
  cbv zeta in *.
  set (r := Main2.safe_request env url params max_retries timeout t) in *.
  set (a := tally is_http_get r) in *.
  assert (Ha : 0 < a) by (apply Hpos; lia).
  assert (E : a = 1).
  { destruct (Nat.eq_dec a 1) as [E|E]; [exact E|].
    pose proof (Hall 0 ltac:(lia)) as H0. rewrite Nat.add_0_r in H0. congruence. }
  rewrite E in Hout. cbn [Nat.sub] in Hout. rewrite Nat.add_0_r in Hout.
  split; [exact E|].
  destruct (outcome r) as [[resp|]|e].
  - destruct Hout as [Hget _]. rewrite Hget. reflexivity.
  - destruct Hout as [_ Hrej]. rewrite Hrej in Hr by lia. discriminate.
  - destruct Hout as [Hget _]. rewrite Hget. reflexivity.
Qed.

(** C4, amended: [safe_request] retries on every RequestException that
    [requests.get] raises (connection errors and timeouts among them) and
    on every error status, 4xx as well as 5xx, which [raise_for_status]
    turns into an HTTPError: after such a first answer a second request
    is made whenever [max_retries] is above one, and when every answer is
    of this kind (every answer a 4xx one, say) the whole budget is spent
    and None is returned.  With a budget above one, the call ends at its
    first request only on a response without an error status, which is
    returned, or on an exception that is not a RequestException, which
    propagates; and on each of these it does end there. *)
Theorem safe_request_retries_client_errors t :
  let r := Main2.safe_request env url params max_retries timeout t in
  let first := requests_get env t url params in
  (* every RequestException of requests.get is retried on *)
  (forall e, first = Raise e -> is_RequestException e = true ->
             (1 < max_retries)%Z -> 2 <= tally is_http_get r)
  (* and so is every error status, 4xx and 5xx alike *)
  /\ (forall resp, first = Ret resp -> (400 <= status_code resp < 600)%Z ->
                   (1 < max_retries)%Z -> 2 <= tally is_http_get r)
  (* answers of this kind every time: the whole budget is spent *)
  /\ ((forall i, i < Z.to_nat max_retries ->
                 rejected (requests_get env (t + i) url params) = true) ->
      tally is_http_get r = Z.to_nat max_retries /\ outcome r = Ret None)
  (* in particular when every answer is a 4xx one *)
  /\ ((forall i, i < Z.to_nat max_retries ->
                 client_error (requests_get env (t + i) url params) = true) ->
      tally is_http_get r = Z.to_nat max_retries /\ outcome r = Ret None)
  (* the call ends at its first request only on an answer the code does
     not retry on *)
  /\ ((1 < max_retries)%Z -> tally is_http_get r = 1 ->
      (exists resp, first = Ret resp /\ response_ok resp = true
                    /\ outcome r = Ret (Some resp))
      \/ (exists e, first = Raise e /\ is_RequestException e = false
                    /\ outcome r = Raise e))
  (* and on such an answer it does end there: the response is returned,
     the exception propagates *)
  /\ (forall resp, first = Ret resp -> response_ok resp = true ->
                   (0 < max_retries)%Z ->
                   tally is_http_get r = 1 /\ outcome r = Ret (Some resp))
  /\ (forall e, first = Raise e -> is_RequestException e = false ->
                (0 < max_retries)%Z ->
                tally is_http_get r = 1 /\ outcome r = Raise e).
Proof.
  cbv zeta. split; [|split; [|split; [|split; [|split; [|split]]]]].
  - intros e He Hc Hm. apply rejected_is_retried; [|exact Hm].
    rewrite He. exact Hc.
  - intros resp He Hs Hm. apply rejected_is_retried; [|exact Hm].
    rewrite He. simpl. unfold response_ok. rewrite negb_involutive.
    apply andb_true_iff. split; [apply Z.leb_le | apply Z.ltb_lt]; lia.
  - intros Hall.
    destruct (safe_request_all_rejected env url params max_retries timeout t Hall)
      as (Ho & _ & Ht). auto.
  - intros Hall.
    destruct (safe_request_all_rejected env url params max_retries timeout t)
      as (Ho & _ & Ht); [|auto].
    intros i Hi. apply client_error_rejected, Hall, Hi.
  - intros Hm H1.
    destruct (rejected (requests_get env t url params)) eqn:Hr.
    { pose proof (rejected_is_retried t Hr Hm). lia. }
    destruct (accepted_ends_call t Hr ltac:(lia)) as [_ Ho].
    unfold rejected in Hr.
    destruct (requests_get env t url params) as [resp|e].
    + left. exists resp. apply negb_false_iff in Hr. auto.
    + right. exists e. auto.
  - intros resp He Hok Hm.
    destruct (accepted_ends_call t) as [H1 Ho];
      [rewrite He; simpl; rewrite Hok; reflexivity | exact Hm |].
    rewrite He in Ho. auto.
  - intros e He Hc Hm.
    destruct (accepted_ends_call t) as [H1 Ho];
      [rewrite He; exact Hc | exact Hm |].
    rewrite He in Ho. auto.
Qed.

End Retries.

(** With no network, every answer is a ConnectionError: a second request
    is made. *)
Lemma safe_request_retries_client_errors_witness :
  2 <= tally is_http_get (Main2.safe_request Worlds.offline "u" [] 3 10 0)
  /\ 2 <= tally is_http_get (Main2.safe_request Worlds.not_found "u" [] 3 10 0).
Proof.
  split.
  - destruct (safe_request_retries_client_errors Worlds.offline "u" [] 3 10 0)
      as (H & _).
    apply (H Worlds.refused); [reflexivity | reflexivity | lia].
  - destruct (safe_request_retries_client_errors Worlds.not_found "u" [] 3 10 0)
      as (_ & H & _).
    apply (H (mkResponse 404 "Not Found")); [reflexivity | simpl; lia | lia].
Defined.

(** * Browser sessions: pacing and outcome of driver creation *)

Section DriverPacing.
Variable env : Env.
Variables (headless : bool) (max_retries : Z).

Lemma driver_attempt_shape attempt t :
  let a := Main2.get_safe_driver_attempt env headless max_retries attempt t in
  now a = S t /\ tally is_chrome_attempt a = 1
  /\ match outcome a with
     | Ret (Return (Some _)) =>
         slept (events a) = [] /\ webdriver_Chrome env t = Ret tt
     | Ret (Return None) =>
         slept (events a) = []
         /\ declined (webdriver_Chrome env t) = true
         /\ (attempt <? max_retries - 1)%Z = false
     | Ret Next =>
         slept (events a) = [2%Z]
         /\ declined (webdriver_Chrome env t) = true
         /\ (attempt <? max_retries - 1)%Z = true
     | Raise e =>
         slept (events a) = []
         /\ webdriver_Chrome env t = Raise e
         /\ is_WebDriverException e = false
     end.
Proof.
  unfold Main2.get_safe_driver_attempt, try_except, bind, log, emit, ask_flagged,
    tally, declined.
  simpl.
  destruct (webdriver_Chrome env t) as [[]|e]; simpl; [auto|].
  destruct (is_WebDriverException e) eqn:Ee; simpl; [|auto].
  destruct (attempt <? max_retries - 1)%Z eqn:Ea; simpl; auto.
Qed.

Lemma driver_loop_paced j : forall k t,
  k + j = Z.to_nat max_retries ->
  let r := Main2.get_safe_driver_loop env headless max_retries
             (map Z.of_nat (seq k j)) t in
  let a := tally is_chrome_attempt r in
  a <= j /\ (0 < j -> 0 < a) /\ now r = t + a
  /\ slept (events r) = repeat 2%Z (a - 1)
  /\ (forall i, i < a - 1 -> declined (webdriver_Chrome env (t + i)) = true)
  /\ match outcome r with
     | Ret (Some _) => webdriver_Chrome env (t + (a - 1)) = Ret tt
     | Ret None =>
         a = j
         /\ (0 < j -> declined (webdriver_Chrome env (t + (a - 1))) = true)
     | Raise e =>
         webdriver_Chrome env (t + (a - 1)) = Raise e
         /\ is_WebDriverException e = false
     end.
Proof.
  induction j as [|j IH]; intros k t Hk; cbn [seq map Main2.get_safe_driver_loop].
  - unfold tally. cbn. repeat split; try lia.
  - cbv zeta.
    pose proof (driver_attempt_shape (Z.of_nat k) t) as Hs. cbv zeta in Hs.
    destruct Hs as (Hnow & Htally & Hs).
    rewrite outcome_bind, now_bind, tally_bind, slept_bind, Htally, Hnow.
    destruct (outcome (Main2.get_safe_driver_attempt env headless max_retries
                         (Z.of_nat k) t)) as [[[d|]|]|e].
    + destruct Hs as (Hsl & Hget). rewrite Hsl.
      unfold tally. cbn [ret outcome now events List.filter length slept flat_map app].
      replace (1 + 0 - 1) with 0 by lia. rewrite !Nat.add_0_r.
      repeat split; try lia; auto.
    + destruct Hs as (Hsl & Hrej & Hlast). rewrite Hsl.
      unfold tally. cbn [ret outcome now events List.filter length slept flat_map app].
      replace (1 + 0 - 1) with 0 by lia. rewrite !Nat.add_0_r.
      apply Z.ltb_ge in Hlast.
      repeat split; try lia; auto.
    + destruct Hs as (Hsl & Hrej & Hmore). rewrite Hsl.
      apply Z.ltb_lt in Hmore.
      destruct (IH (S k) (S t)) as (Hle & Hpos & Hn & Hsleep & Hall & Hout); [lia|].
      set (r' := Main2.get_safe_driver_loop env headless max_retries
                   (map Z.of_nat (seq (S k) j)) (S t)) in *.
      set (a' := tally is_chrome_attempt r') in *.
      assert (Ha' : 0 < a') by (apply Hpos; lia).
      replace (1 + a' - 1) with (S (a' - 1)) by lia.
      cbn [repeat app]. rewrite Hsleep, Hn.
      split; [lia|]. split; [lia|]. split; [lia|]. split; [reflexivity|].
      split.
      { intros [|i] Hi; [rewrite Nat.add_0_r; exact Hrej|].
        replace (t + S i) with (S t + i) by lia. apply Hall. lia. }
      replace (t + S (a' - 1)) with (S t + (a' - 1)) by lia.
      destruct (outcome r') as [[d|]|e]; auto.
      destruct Hout as [Ha Hr]. split; [lia|]. intros _. apply Hr. lia.
    + destruct Hs as (Hsl & Hget & Hno). rewrite Hsl.
      cbn [app]. replace (1 + 0 - 1) with 0 by lia. rewrite !Nat.add_0_r.
      repeat split; try lia; auto.
Qed.

(** X4: in every world [get_safe_driver] starts Chrome at most
    [max_retries] times and sleeps 2 seconds between two consecutive
    attempts, never after the last.  Every attempt but the last raised a
    WebDriverException; a driver is returned when the last attempt
    succeeded, None only after [max_retries] attempts all raised a
    WebDriverException, and an exception of another class leaves the
    call at once. *)
Theorem get_safe_driver_paces_attempts t :
  let r := Main2.get_safe_driver env headless max_retries t in
  let a := tally is_chrome_attempt r in
  a <= Z.to_nat max_retries
  /\ now r = t + a
  /\ slept (events r) = repeat 2%Z (a - 1)
  /\ (forall i, i < a - 1 -> declined (webdriver_Chrome env (t + i)) = true)
  /\ match outcome r with
     | Ret (Some _) => webdriver_Chrome env (t + (a - 1)) = Ret tt
     | Ret None =>
         a = Z.to_nat max_retries
         /\ (forall i, i < a -> declined (webdriver_Chrome env (t + i)) = true)
     | Raise e =>
         webdriver_Chrome env (t + (a - 1)) = Raise e
         /\ is_WebDriverException e = false
     end.
Proof.
  unfold Main2.get_safe_driver, py_range.
  destruct (driver_loop_paced (Z.to_nat max_retries) 0 t)
    as (Hle & Hpos & Hn & Hsl & Hall & Hout); [lia|].
  cbv zeta. repeat (split; [assumption|]).
  destruct (outcome _) as [[d|]|e]; auto.
  destruct Hout as [Ha Hlast]. split; [exact Ha|].
  intros i Hi.
  match goal with
  | |- context [webdriver_Chrome env (t + i)] =>
      destruct (Nat.eq_dec i (Z.to_nat max_retries - 1)) as [->|Hne]
  end.
  - rewrite <- Ha at 1. apply Hlast. lia.
  - apply Hall. lia.
Qed.

End DriverPacing.

(** * What the extractors return *)

(** ** A calculus for [returns] and [raises_only] *)

Section Returns.
Context {A : Type} (P : A -> Prop).

Lemma rt_ret a : P a -> returns P (ret a).
Proof. intros H t a' E. injection E as <-. exact H. Qed.

Lemma rt_raise e : returns P (raise e).
Proof. intros t a E. discriminate. Qed.

Lemma rt_bind {B} (m : M B) (k : B -> M A) :
  (forall b, returns P (k b)) -> returns P (bind m k).
Proof.
  intros H t a. rewrite outcome_bind.
  destruct (outcome (m t)) as [b|e]; [apply H | discriminate].
Qed.

Lemma rt_bind_from {B} (Q : B -> Prop) (m : M B) (k : B -> M A) :
  returns Q m -> (forall b, Q b -> returns P (k b)) -> returns P (bind m k).
Proof.
  intros Hm H t a. rewrite outcome_bind.
  destruct (outcome (m t)) as [b|e] eqn:E; [|discriminate].
  apply H. exact (Hm t b E).
Qed.

Lemma rt_try_except (m : M A) c h :
  returns P m -> (forall e, returns P (h e)) -> returns P (try_except m c h).
Proof.
  intros Hm Hh t a. rewrite outcome_try_except.
  destruct (outcome (m t)) as [b|e] eqn:E.
  - intros Hb. injection Hb as <-. exact (Hm t b E).
  - destruct (c e); [apply Hh | discriminate].
Qed.

Lemma rt_try_finally (m : M A) c :
  returns P m -> returns P (try_finally m c).
Proof.
  intros Hm t a. rewrite outcome_try_finally.
  destruct (outcome (c (now (m t)))); [apply Hm | discriminate].
Qed.

End Returns.

Lemma rt_rate_limit {A} (P : A -> Prop) delay name (func : M A) :
  returns P func -> returns P (Main2.rate_limit delay name func).
Proof.
  intros H. unfold Main2.rate_limit.
  apply rt_bind; intros _. apply rt_bind; intros _. exact H.
Qed.

Section RaisesOnly.
Variable c : exn -> bool.

Lemma ro_ret {A} (a : A) : raises_only c (ret a).
Proof. intros t e E. discriminate. Qed.

Lemma ro_raise {A} e : c e = true -> raises_only c (@raise A e).
Proof. intros H t e' E. injection E as <-. exact H. Qed.

Lemma ro_bind {A B} (m : M A) (k : A -> M B) :
  raises_only c m -> (forall a, raises_only c (k a)) -> raises_only c (bind m k).
Proof.
  intros Hm Hk t e. rewrite outcome_bind.
  destruct (outcome (m t)) as [a|e'] eqn:E.
  - apply Hk.
  - intros E'. injection E' as <-. exact (Hm t e' E).
Qed.

Lemma nr_try_except_caught {A} (m : M A) h :
  raises_only c m -> (forall e, never_raises (h e)) ->
  never_raises (try_except m c h).
Proof.
  intros Hm Hh t. rewrite outcome_try_except.
  destruct (outcome (m t)) as [a|e] eqn:E; [eauto|].
  rewrite (Hm t e E). apply Hh.
Qed.

End RaisesOnly.

(** ** Decoding and the loops over the payload *)

Lemma for_each_outcome {A B} (f : A -> M (list B)) (g : A -> list B) xs :
  (forall x t, outcome (f x t) = Ret (g x)) ->
  forall t, outcome (for_each f xs t) = Ret (flat_map g xs).
Proof.
  intros H. induction xs as [|x rest IH]; intros t; [reflexivity|].
  cbn [for_each flat_map]. rewrite outcome_bind, H, outcome_bind, IH. reflexivity.
Qed.

Lemma dividend_entries_run fields fs t :
  Main2.dividend_entries (VDict fields) fs t
  = mkRun (Ret (map (fun ks => (fst ks, match Dict.get (snd ks) fields with
                                        | Some v => v
                                        | None => VNone
                                        end)) fs)) t [].
Proof.
  revert t. induction fs as [|[key source] rest IH]; intros t; [reflexivity|].
  cbn [Main2.dividend_entries]. unfold bind. cbn [Dyn.get ret outcome now events].
  rewrite IH. reflexivity.
Qed.

(** The handler of [main2.py] around an item turns whatever the item
    raises into "no record". *)
Lemma dividend_item_outcome symbol item t :
  outcome (Main2.dividend_item symbol item t) = Ret (dividend_of item).
Proof.
  unfold Main2.dividend_item. rewrite outcome_try_except, outcome_bind.
  destruct item; try reflexivity.
  cbn [Dyn.get ret outcome now dividend_of].
  destruct (Dict.get "rightsType" entries) as [[]|]; try reflexivity.
  cbn [Dyn.is_str]. destruct (String.eqb s Main2.dividend_marker); [|reflexivity].
  rewrite outcome_bind, dividend_entries_run. reflexivity.
Qed.

Lemma decode_json_outcome env response what symbol failure t :
  outcome (Main2.decode_json env response what symbol failure t)
  = Ret (match json_loads env (text response) with
         | Some data => inr data
         | None => inl failure
         end).
Proof.
  unfold Main2.decode_json. rewrite outcome_try_except.
  destruct (json_loads env (text response)); reflexivity.
Qed.

Lemma decode_json_now env response what symbol failure t :
  now (Main2.decode_json env response what symbol failure t) = t.
Proof.
  unfold Main2.decode_json. rewrite now_try_except.
  destruct (json_loads env (text response)); reflexivity.
Qed.

Lemma decode_json_returns env response what symbol failure :
  returns (fun dec => match dec with
                      | inl f => f = failure
                      | inr _ => True
                      end)
          (Main2.decode_json env response what symbol failure).
Proof.
  intros t a. rewrite decode_json_outcome.
  destruct (json_loads env (text response)); intros E; injection E as <-; auto.
Qed.

Lemma len_returns v : returns (fun _ : Z => sized v) (Dyn.len v).
Proof. intros t a. destruct v; simpl; intros E; try discriminate; exact I. Qed.

Ltac rt_step :=
  match goal with
  | |- returns _ (ret _) => apply rt_ret
  | |- returns _ (raise _) => apply rt_raise
  | |- returns _ (Main2.rate_limit _ _ _) => apply rt_rate_limit
  | |- returns _ (bind (Main2.decode_json _ _ _ _ _) _) =>
      eapply (rt_bind_from _ _ _ _ (decode_json_returns _ _ _ _ _));
      intros [?|?] ?; [subst|]
  | |- returns _ (bind (Dyn.len _) _) =>
      eapply (rt_bind_from _ _ _ _ (len_returns _)); intros ? ?
  | |- returns _ (bind _ _) => apply rt_bind; intros ?
  | |- returns _ (try_except _ _ _) => apply rt_try_except; [|intros ?]
  | |- returns _ (try_finally _ _) => apply rt_try_finally
  | |- returns _ (match ?x with _ => _ end) => destruct x
  end.

Ltac rt := repeat rt_step.

(** ** Rights and benefits, historical prices: the payload *)

Section Payloads.
Variable env : Env.

(** X5: [fetch_rights_benefits] of [main2.py] keeps the dividends and
    only them.  When the transport step returns a response whose body
    decodes to an object with a list under "data", the record is the
    symbol and, in payload order, one dividend record for each item that
    is an object whose "rightsType" is the dividend marker, its seven
    fields read with None for a missing one; any other item (another
    type of right, or not an object at all) is skipped and does not end
    the loop. *)
Theorem rights_benefits_keeps_dividends symbol t resp fields items :
  outcome (Main2.safe_request env (rights_url symbol) [] 3 10 t) = Ret (Some resp) ->
  json_loads env (text resp) = Some (VDict fields) ->
  Dict.get "data" fields = Some (VList items) ->
  outcome (Main2.fetch_rights_benefits env symbol t)
  = Ret [("symbol", VStr symbol);
         ("dividends", VList (flat_map dividend_of items))].
Proof.
  intros Hsr Hjson Hdata.
  pose proof (safe_request_usable _ _ _ _ _ _ _ Hsr) as Hok.
  unfold Main2.fetch_rights_benefits. rewrite outcome_rate_limit by lia.
  unfold Main2.fetch_rights_benefits_body. fold (rights_url symbol).
  apply outcome_try_except_ret.
  rewrite run_log_bind. cbn [outcome]. rewrite outcome_bind, Hsr, Hok.
  rewrite outcome_bind, decode_json_outcome, Hjson.
  rewrite outcome_bind. cbn [Dyn.get ret outcome now]. rewrite Hdata.
  rewrite outcome_bind. cbn [Dyn.iter ret outcome now].
  rewrite outcome_bind.
  rewrite (for_each_outcome _ dividend_of items (dividend_item_outcome symbol)).
  rewrite run_log_bind. reflexivity.
Qed.

(** X6: how [fetch_rights_benefits] of [main2.py] degrades on a response
    it cannot use.  A body that is not JSON gives the record with the
    error "Invalid JSON response" and no dividends; an object without
    the key "data" gives the record without dividends and without an
    error; JSON that is not an object gives an error-tagged record
    without dividends. *)
Theorem rights_benefits_degrades symbol t resp :
  outcome (Main2.safe_request env (rights_url symbol) [] 3 10 t) = Ret (Some resp) ->
  let no_dividends := [("dividends", VList [])] in
  let r := outcome (Main2.fetch_rights_benefits env symbol t) in
  (json_loads env (text resp) = None ->
   r = Ret (Main2.failed_record symbol "Invalid JSON response" no_dividends))
  /\ (forall fields,
        json_loads env (text resp) = Some (VDict fields) ->
        Dict.get "data" fields = None ->
        r = Ret [("symbol", VStr symbol); ("dividends", VList [])])
  /\ (forall data,
        json_loads env (text resp) = Some data ->
        (forall fields, data <> VDict fields) ->
        exists msg, r = Ret (Main2.failed_record symbol msg no_dividends)).
Proof.
  intros Hsr no_dividends r.
  pose proof (safe_request_usable _ _ _ _ _ _ _ Hsr) as Hok.
  unfold r, Main2.fetch_rights_benefits. rewrite outcome_rate_limit by lia.
  unfold Main2.fetch_rights_benefits_body. fold (rights_url symbol).
  rewrite outcome_try_except, run_log_bind. cbn [outcome].
  rewrite outcome_bind, Hsr, Hok, outcome_bind, decode_json_outcome.
  split; [|split].
  - intros ->. reflexivity.
  - intros fields -> Hdata.
    rewrite outcome_bind. cbn [Dyn.get ret outcome now]. rewrite Hdata.
    reflexivity.
  - intros data -> Hnd.
    rewrite outcome_bind.
    destruct data; try (eexists; reflexivity).
    exfalso. eapply Hnd. reflexivity.
Qed.

(** X7: [fetch_historical_prices] of [main2.py] passes the payload
    through.  When the transport step returns a response: a body that is
    not JSON gives the record with the error "Invalid JSON response" and
    no prices; for an object, a missing "price" gives the empty list
    without an error, a value [len] accepts is stored unchanged, and any
    other value (null, a number) gives an error-tagged record with no
    prices, because of the [len] in the log line. *)
Theorem historical_prices_passes_payload symbol months t resp :
  outcome (Main2.safe_request env prices_url
             (price_params symbol (date_range env t months)) 3 10 (S t))
  = Ret (Some resp) ->
  let no_prices := [("historical_prices", VList [])] in
  let r := outcome (Main2.fetch_historical_prices env symbol months t) in
  (json_loads env (text resp) = None ->
   r = Ret (Main2.failed_record symbol "Invalid JSON response" no_prices))
  /\ (forall fields,
        json_loads env (text resp) = Some (VDict fields) ->
        match Dict.get "price" fields with
        | None => r = Ret [("symbol", VStr symbol); ("historical_prices", VList [])]
        | Some prices =>
            (sized prices ->
             r = Ret [("symbol", VStr symbol); ("historical_prices", prices)])
            /\ (~ sized prices ->
                exists msg, r = Ret (Main2.failed_record symbol msg no_prices))
        end).
Proof.
  intros Hsr no_prices r.
  pose proof (safe_request_usable _ _ _ _ _ _ _ Hsr) as Hok.
  unfold r, Main2.fetch_historical_prices. rewrite outcome_rate_limit by lia.
  unfold Main2.fetch_historical_prices_body. fold prices_url.
  rewrite outcome_try_except, run_log_bind. cbn [outcome].
  rewrite outcome_bind. cbn [ask_total ask outcome now].
  fold (price_params symbol (date_range env t months)).
  rewrite outcome_bind, Hsr, Hok, outcome_bind, decode_json_outcome.
  split.
  - intros ->. reflexivity.
  - intros fields ->.
    rewrite outcome_bind. cbn [Dyn.get ret outcome now].
    destruct (Dict.get "price" fields) as [prices|]; [|reflexivity].
    split.
    + intros Hs. rewrite outcome_bind.
      destruct prices; try contradiction; reflexivity.
    + intros Hs. rewrite outcome_bind.
      destruct prices; try (eexists; reflexivity); exfalso; apply Hs; exact I.
Qed.

End Payloads.

Lemma rights_benefits_keeps_dividends_witness :
  outcome (Main2.fetch_rights_benefits
             (Worlds.serving Worlds.empty_soup (Some Worlds.rights_payload)) "AOT" 0)
  = Ret [("symbol", VStr "AOT");
         ("dividends",
          VList [VDict [("year", VInt 2023); ("type", VNone);
                        ("announce_date", VNone); ("xd_date", VNone);
                        ("payment_date", VNone);
                        ("amount_per_share", VFloat (FFinite (1 # 2)));
                        ("note", VNone)]])].
Proof.
  apply (rights_benefits_keeps_dividends
           (Worlds.serving Worlds.empty_soup (Some Worlds.rights_payload))
           "AOT" 0 (mkResponse 200 "{}")
           [("data",
             VList [VDict [("rightsType", VStr Main2.dividend_marker);
                           ("entitlementYear", VInt 2023);
                           ("amount", VFloat (FFinite (1 # 2)))];
                    VDict [("rightsType", VStr "XM")]])]
           [VDict [("rightsType", VStr Main2.dividend_marker);
                   ("entitlementYear", VInt 2023);
                   ("amount", VFloat (FFinite (1 # 2)))];
            VDict [("rightsType", VStr "XM")]]);
    reflexivity.
Defined.

Lemma rights_benefits_degrades_witness :
  outcome (Main2.fetch_rights_benefits
             (Worlds.serving Worlds.empty_soup None) "AOT" 0)
  = Ret (Main2.failed_record "AOT" "Invalid JSON response"
           [("dividends", VList [])]).
Proof.
  destruct (rights_benefits_degrades (Worlds.serving Worlds.empty_soup None)
              "AOT" 0 (mkResponse 200 "{}") eq_refl) as [H _].
  apply H. reflexivity.
Defined.

Lemma historical_prices_passes_payload_witness :
  outcome (Main2.fetch_historical_prices
             (Worlds.serving Worlds.empty_soup (Some Worlds.prices_payload))
             "AOT" 60 0)
  = Ret [("symbol", VStr "AOT"); ("historical_prices", VList [VInt 1; VInt 2])].
Proof.
  destruct (historical_prices_passes_payload
              (Worlds.serving Worlds.empty_soup (Some Worlds.prices_payload))
              "AOT" 60 0 (mkResponse 200 "{}") eq_refl) as [_ H].
  specialize (H [("price", VList [VInt 1; VInt 2])] eq_refl).
  apply H. exact I.
Defined.

(** ** The shapes of the records of [main2.py] *)

Section Shapes.
Variable env : Env.

Lemma highlights_shape symbol :
  returns (fun d => failure_of symbol [] d
                    \/ exists l, d = [("symbol", VStr symbol);
                                      ("highlights", VDict [("financials", VList l)])])
          (Main2.fetch_company_highlights env symbol).
Proof.
  unfold Main2.fetch_company_highlights, Main2.fetch_company_highlights_body.
  rt; first [left; eexists; reflexivity | right; eexists; reflexivity].
Qed.

Lemma rights_shape symbol :
  returns (fun d => failure_of symbol [("dividends", VList [])] d
                    \/ exists l, d = [("symbol", VStr symbol); ("dividends", VList l)])
          (Main2.fetch_rights_benefits env symbol).
Proof.
  unfold Main2.fetch_rights_benefits, Main2.fetch_rights_benefits_body.
  rt; first [left; eexists; reflexivity | right; eexists; reflexivity].
Qed.

Lemma statements_shape symbol :
  returns (fun d => failure_of symbol [("financial_statements", VList [])] d
                    \/ exists l, d = [("symbol", VStr symbol);
                                      ("financial_statements", VList l)])
          (Main2.fetch_financial_statements env symbol).
Proof.
  unfold Main2.fetch_financial_statements, Main2.fetch_financial_statements_body.
  rt; first [left; eexists; reflexivity | right; eexists; reflexivity].
Qed.

Lemma prices_shape symbol months :
  returns (fun d => failure_of symbol [("historical_prices", VList [])] d
                    \/ exists v, sized v
                                 /\ d = [("symbol", VStr symbol);
                                         ("historical_prices", v)])
          (Main2.fetch_historical_prices env symbol months).
Proof.
  unfold Main2.fetch_historical_prices, Main2.fetch_historical_prices_body.
  rt; first [left; eexists; reflexivity
            | right; eexists; split; [eassumption | reflexivity]].
Qed.

Lemma factsheet_shape symbol :
  returns (fun d => failure_of symbol [] d
                    \/ (Dict.keys d = factsheet_keys
                        /\ Dict.get "symbol" d = Some (VStr symbol)))
          (Main2.fetch_factsheet_selenium env symbol).
Proof.
  unfold Main2.fetch_factsheet_selenium, Main2.fetch_factsheet_selenium_body.
  apply rt_rate_limit.
  eapply rt_bind_from with
    (Q := fun b : pydict + option Main2.Driver =>
            match b with
            | inl r => failure_of symbol [] r
            | inr _ => True
            end).
  - intros t a. rewrite outcome_try_except, outcome_bind.
    destruct (outcome (Main2.get_safe_driver env true 3 t)) as [d|e].
    + intros E. injection E as <-. exact I.
    + cbn [is_Exception]. rewrite outcome_bind, run_log_bind.
      cbn [ret outcome now]. intros E. injection E as <-.
      eexists. reflexivity.
  - intros [r|[[]|]] Hb.
    + apply rt_ret. left. exact Hb.
    + unfold Main2.render_factsheet, Main2.read_factsheet.
      rt; first [left; eexists; reflexivity | right; split; reflexivity].
    + apply rt_ret. left. eexists. reflexivity.
Qed.

(** X8: every record an extractor of [main2.py] returns has one of two
    shapes, on every path and in every world.  It is either the
    error-tagged record (the symbol, an error message and, for the three
    list extractors, the data key holding the empty list), or the
    success record: the five factsheet keys; "highlights" holding
    "financials"; "dividends"; "financial_statements"; "historical_prices"
    holding a value [len] accepts.  The data key of a list extractor is
    therefore always present. *)
Theorem main2_record_shapes symbol months t :
  (exists d, outcome (Main2.fetch_factsheet_selenium env symbol t) = Ret d
             /\ (failure_of symbol [] d
                 \/ (Dict.keys d = factsheet_keys
                     /\ Dict.get "symbol" d = Some (VStr symbol))))
  /\ (exists d, outcome (Main2.fetch_company_highlights env symbol t) = Ret d
                /\ (failure_of symbol [] d
                    \/ exists l, d = [("symbol", VStr symbol);
                                      ("highlights",
                                       VDict [("financials", VList l)])]))
  /\ (exists d, outcome (Main2.fetch_rights_benefits env symbol t) = Ret d
                /\ (failure_of symbol [("dividends", VList [])] d
                    \/ exists l, d = [("symbol", VStr symbol);
                                      ("dividends", VList l)]))
  /\ (exists d, outcome (Main2.fetch_financial_statements env symbol t) = Ret d
                /\ (failure_of symbol [("financial_statements", VList [])] d
                    \/ exists l, d = [("symbol", VStr symbol);
                                      ("financial_statements", VList l)]))
  /\ (exists d, outcome (Main2.fetch_historical_prices env symbol months t) = Ret d
                /\ (failure_of symbol [("historical_prices", VList [])] d
                    \/ exists v, sized v
                                 /\ d = [("symbol", VStr symbol);
                                         ("historical_prices", v)])).
Proof.
  repeat split.
  - destruct (fetch_factsheet_selenium_never_raises env symbol t) as [d Hd].
    exists d. split; [exact Hd | exact (factsheet_shape symbol t d Hd)].
  - destruct (fetch_company_highlights_never_raises env symbol t) as [d Hd].
    exists d. split; [exact Hd | exact (highlights_shape symbol t d Hd)].
  - destruct (fetch_rights_benefits_never_raises env symbol t) as [d Hd].
    exists d. split; [exact Hd | exact (rights_shape symbol t d Hd)].
  - destruct (fetch_financial_statements_never_raises env symbol t) as [d Hd].
    exists d. split; [exact Hd | exact (statements_shape symbol t d Hd)].
  - destruct (fetch_historical_prices_never_raises env symbol months t) as [d Hd].
    exists d. split; [exact Hd | exact (prices_shape symbol months t d Hd)].
Qed.

End Shapes.

(** * Company highlights: the rows *)

Lemma item_at_raises cols i :
  raises_only is_ValueError_or_IndexError (Main2.item_at cols i).
Proof.
  unfold Main2.item_at. destruct (cols !! i); [apply ro_ret | apply ro_raise; reflexivity].
Qed.

Lemma to_float_raises s : raises_only is_ValueError_or_IndexError (Conv.to_float s).
Proof.
  unfold Conv.to_float.
  destruct (PyNum.py_float s); [apply ro_ret | apply ro_raise; reflexivity].
Qed.

Lemma to_int_raises s : raises_only is_ValueError_or_IndexError (Conv.to_int s).
Proof.
  unfold Conv.to_int.
  destruct (PyNum.py_int s); [apply ro_ret | apply ro_raise; reflexivity].
Qed.

Lemma float_or_none_raises s :
  raises_only is_ValueError_or_IndexError (Main2.float_or_none s).
Proof.
  unfold Main2.float_or_none. destruct (_ && _); [|apply ro_ret].
  apply ro_bind; [apply to_float_raises | intros; apply ro_ret].
Qed.

Lemma int_or_none_raises s :
  raises_only is_ValueError_or_IndexError (Main2.int_or_none s).
Proof.
  unfold Main2.int_or_none. destruct (negb _); [|apply ro_ret].
  apply ro_bind; [apply to_int_raises | intros; apply ro_ret].
Qed.

Lemma highlight_entries_raises cols keys : forall i,
  raises_only is_ValueError_or_IndexError (Main2.highlight_entries cols i keys).
Proof.
  induction keys as [|key rest IH]; intros i; cbn [Main2.highlight_entries];
    [apply ro_ret|].
  apply ro_bind; [apply item_at_raises | intros c].
  apply ro_bind; [apply float_or_none_raises | intros v].
  apply ro_bind; [apply IH | intros; apply ro_ret].
Qed.

Lemma float_or_none_returns s : returns numeric_or_none (Main2.float_or_none s).
Proof. unfold Main2.float_or_none. rt; exact I. Qed.

Lemma int_or_none_returns s : returns numeric_or_none (Main2.int_or_none s).
Proof. unfold Main2.int_or_none. rt; exact I. Qed.

Lemma highlight_entries_returns cols keys : forall i,
  returns (fun d => map fst d = keys /\ Forall numeric_or_none (map snd d))
          (Main2.highlight_entries cols i keys).
Proof.
  induction keys as [|key rest IH]; intros i; cbn [Main2.highlight_entries].
  - apply rt_ret. split; [reflexivity | constructor].
  - apply rt_bind; intros c.
    eapply (rt_bind_from _ _ _ _ (float_or_none_returns c)). intros v Hv.
    eapply (rt_bind_from _ _ _ _ (IH (S i))). intros more [Hk Hn].
    apply rt_ret. cbn [map fst snd]. split; [congruence | constructor; assumption].
Qed.

(** Everything a row can raise is caught by the handler of the row. *)
Lemma highlight_row_never_raises symbol row :
  never_raises (Main2.highlight_row symbol row).
Proof.
  unfold Main2.highlight_row. apply nr_try_except_caught.
  - cbv zeta. destruct (9 <=? _)%nat; [|apply ro_ret].
    apply ro_bind; [apply item_at_raises | intros c0].
    apply ro_bind; [apply int_or_none_raises | intros year].
    apply ro_bind; [apply highlight_entries_raises | intros; apply ro_ret].
  - intros e. apply nr_bind; [apply nr_log | intros; apply nr_ret].
Qed.

(** X9: a row of the highlights table of [main2.py] never ends the
    table.  For every row, [highlight_row] returns no item or one: an
    item only for a row of at least nine cells, always with the nine
    keys year, revenue, ..., pbv in this order, each value a number or
    None; a shorter row or a cell that does not parse gives no item, not
    an exception. *)
Theorem highlight_row_shape symbol row t :
  exists l,
    outcome (Main2.highlight_row symbol row t) = Ret l
    /\ (l = []
        \/ exists d, l = [VDict d]
                     /\ Dict.keys d = "year" :: Main2.highlight_keys
                     /\ Forall numeric_or_none (map snd d)
                     /\ (9 <= length row)%nat).
Proof.
  destruct (highlight_row_never_raises symbol row t) as [l Hl].
  exists l. split; [exact Hl|].
  revert t l Hl.
  change (returns (fun l => l = []
                    \/ exists d, l = [VDict d]
                                 /\ Dict.keys d = "year" :: Main2.highlight_keys
                                 /\ Forall numeric_or_none (map snd d)
                                 /\ (9 <= length row)%nat)
                  (Main2.highlight_row symbol row)).
  unfold Main2.highlight_row. apply rt_try_except.
  - cbv zeta. destruct (9 <=? _)%nat eqn:E9; [|apply rt_ret; left; reflexivity].
    apply Nat.leb_le in E9. rewrite length_map in E9.
    apply rt_bind; intros c0.
    eapply (rt_bind_from _ _ _ _ (int_or_none_returns c0)). intros year Hy.
    eapply (rt_bind_from _ _ _ _ (highlight_entries_returns _ _ 1)).
    intros more [Hk Hn].
    apply rt_ret. right. eexists. split; [reflexivity|].
    unfold Dict.keys. cbn [map fst snd]. rewrite Hk.
    repeat split; [constructor; assumption | exact E9].
  - intros e. rt. left. reflexivity.
Qed.

(** * The two versions of the HTTP extractors *)

(** ** Rows: what [main.py] accepts, [main2.py] accepts *)

Lemma item_at_outcome cols i t :
  outcome (Main2.item_at cols i t)
  = match cols !! i with
    | Some c => Ret c
    | None => Raise (mkExn IndexError "list index out of range")
    end.
Proof. unfold Main2.item_at. destruct (cols !! i); reflexivity. Qed.

Lemma float_cells_agree c t v :
  outcome (Main.float_if_text c t) = Ret v ->
  forall t', outcome (Main2.float_or_none c t') = Ret v.
Proof.
  unfold Main.float_if_text, Main2.float_or_none.
  destruct (String.eqb c "") eqn:E0; cbn [negb andb].
  - intros H t'. exact H.
  - destruct (String.eqb c "-") eqn:E1; cbn [negb].
    + apply String.eqb_eq in E1. subst c. vm_compute. discriminate.
    + rewrite outcome_bind. intros H t'. rewrite outcome_bind.
      unfold Conv.to_float in *. destruct (PyNum.py_float c); exact H.
Qed.

Lemma highlight_entries_agree cols keys : forall i t more,
  outcome (Main.highlight_entries cols i keys t) = Ret more ->
  (forall t', outcome (Main2.highlight_entries cols i keys t') = Ret more)
  /\ (keys <> [] -> (i + length keys <= length cols)%nat).
Proof.
  induction keys as [|key rest IH]; intros i t more;
    cbn [Main.highlight_entries Main2.highlight_entries].
  - intros H. split; [intros t'; exact H | congruence].
  - rewrite outcome_bind, item_at_outcome.
    destruct (cols !! i) as [c|] eqn:Ec; [|discriminate].
    rewrite outcome_bind.
    destruct (outcome (Main.float_if_text c _)) as [v|e] eqn:Ev; [|discriminate].
    rewrite outcome_bind.
    destruct (outcome (Main.highlight_entries cols (S i) rest _)) as [more'|e] eqn:Em;
      [|discriminate].
    intros H. destruct (IH _ _ _ Em) as [IH1 IH2]. split.
    + intros t'. rewrite outcome_bind, item_at_outcome, Ec.
      rewrite outcome_bind, (float_cells_agree _ _ _ Ev).
      rewrite outcome_bind, IH1. exact H.
    + intros _. apply lookup_lt_Some in Ec. cbn [length].
      destruct rest as [|k' rest']; [cbn [length]; lia|].
      specialize (IH2 ltac:(discriminate)). cbn [length] in *. lia.
Qed.

(** A row that gives an item in [main.py] gives the same item in
    [main2.py]. *)
Lemma highlight_row_agrees symbol row t item :
  outcome (Main.highlight_row row t) = Ret [item] ->
  forall t', outcome (Main2.highlight_row symbol row t') = Ret [item].
Proof.
  unfold Main.highlight_row, Main2.highlight_row. cbv zeta.
  set (cols := map (PyStr.replace "," "") row).
  destruct (length cols <? 2)%nat; [discriminate|].
  rewrite outcome_try_except, outcome_bind, item_at_outcome.
  destruct (cols !! 0) as [c0|] eqn:E0; [|discriminate].
  rewrite outcome_bind.
  destruct (outcome (Conv.to_int c0 _)) as [year|e] eqn:Ey; [|discriminate].
  rewrite outcome_bind.
  destruct (outcome (Main.highlight_entries cols 1 Main2.highlight_keys _))
    as [more|e] eqn:Em; [|discriminate].
  cbn [ret outcome]. intros H t'.
  destruct (highlight_entries_agree _ _ _ _ _ Em) as [Hm Hlen].
  specialize (Hlen ltac:(discriminate)). cbn [length Main2.highlight_keys] in Hlen.
  replace (9 <=? length cols)%nat with true by (symmetry; apply Nat.leb_le; lia).
  apply outcome_try_except_ret.
  rewrite outcome_bind, item_at_outcome, E0, outcome_bind.
  assert (Hy : forall t'', outcome (Main2.int_or_none c0 t'') = Ret (VInt year)).
  { intros t''. unfold Main2.int_or_none.
    destruct (String.eqb c0 "") eqn:Ee; cbn [negb].
    - apply String.eqb_eq in Ee. subst c0. vm_compute in Ey. discriminate.
    - rewrite outcome_bind. unfold Conv.to_int in *.
      destruct (PyNum.py_int c0); [|discriminate].
      cbn [ret outcome] in *. congruence. }
  rewrite Hy, outcome_bind, Hm. exact H.
Qed.

Lemma main_highlight_row_returns row t :
  exists l, outcome (Main.highlight_row row t) = Ret l
            /\ (l = [] \/ exists item, l = [item]).
Proof.
  unfold Main.highlight_row. cbv zeta.
  destruct (_ <? 2)%nat; [exists []; auto|].
  rewrite outcome_try_except.
  destruct (outcome _) as [l|e] eqn:E; [|exists []; auto].
  exists l. split; [reflexivity|]. right.
  revert E. rewrite outcome_bind.
  destruct (outcome (Main2.item_at _ 0 t)); [|discriminate].
  rewrite outcome_bind. destruct (outcome (Conv.to_int _ _)); [|discriminate].
  rewrite outcome_bind. destruct (outcome (Main.highlight_entries _ _ _ _));
    [|discriminate].
  cbn [ret outcome]. intros E. injection E as <-. eauto.
Qed.

Lemma highlight_rows_refine symbol rows : forall t t',
  exists l1 l2,
    outcome (for_each Main.highlight_row rows t) = Ret l1
    /\ outcome (for_each (Main2.highlight_row symbol) rows t') = Ret l2
    /\ sublist l1 l2.
Proof.
  induction rows as [|row rest IH]; intros t t'; cbn [for_each].
  - exists [], []. repeat split. constructor.
  - destruct (main_highlight_row_returns row t) as (a1 & Ha1 & Hshape).
    destruct (highlight_row_never_raises symbol row t') as (a2 & Ha2).
    assert (Hsub : sublist a1 a2).
    { destruct Hshape as [->|[item ->]]; [apply sublist_nil_l|].
      rewrite (highlight_row_agrees symbol row t item Ha1 t') in Ha2.
      injection Ha2 as <-. reflexivity. }
    rewrite !outcome_bind, Ha1, Ha2, !outcome_bind.
    destruct (IH (now (Main.highlight_row row t))
                 (now (Main2.highlight_row symbol row t')))
      as (b1 & b2 & Hb1 & Hb2 & Hb).
    rewrite Hb1, Hb2. exists (a1 ++ b1)%list, (a2 ++ b2)%list.
    repeat split. apply sublist_app; assumption.
Qed.

Lemma highlight_tables_refine symbol tables : forall t t',
  exists l1 l2,
    outcome (for_each Main.highlight_table tables t) = Ret l1
    /\ outcome (for_each (Main2.highlight_table symbol) tables t') = Ret l2
    /\ sublist l1 l2.
Proof.
  induction tables as [|table rest IH]; intros t t'; cbn [for_each].
  - exists [], []. repeat split. constructor.
  - assert (Ht : exists a1 a2,
               outcome (Main.highlight_table table t) = Ret a1
               /\ outcome (Main2.highlight_table symbol table t') = Ret a2
               /\ sublist a1 a2).
    { unfold Main.highlight_table, Main2.highlight_table.
      destruct (_ && _); [apply highlight_rows_refine|].
      exists [], []. repeat split. constructor. }
    destruct Ht as (a1 & a2 & Ha1 & Ha2 & Hsub).
    rewrite !outcome_bind, Ha1, Ha2, !outcome_bind.
    destruct (IH (now (Main.highlight_table table t))
                 (now (Main2.highlight_table symbol table t')))
      as (b1 & b2 & Hb1 & Hb2 & Hb).
    rewrite Hb1, Hb2. exists (a1 ++ b1)%list, (a2 ++ b2)%list.
    repeat split. apply sublist_app; assumption.
Qed.

(** ** Links and dividends *)

Lemma statement_links_outcome symbol hrefs t :
  outcome (for_each (Main2.statement_link symbol) hrefs t)
  = Ret (flat_map (Statements.link_entries symbol) hrefs).
Proof.
  apply for_each_outcome. intros href t'. reflexivity.
Qed.

Lemma main_dividend_item_value item t l :
  outcome (Main.dividend_item item t) = Ret l -> l = dividend_of item.
Proof.
  unfold Main.dividend_item. rewrite outcome_bind.
  destruct item; try discriminate.
  cbn [Dyn.get ret outcome now dividend_of].
  destruct (Dict.get "rightsType" entries) as [[]|]; cbn [Dyn.is_str ret outcome];
    try (intros E; injection E as <-; reflexivity).
  destruct (String.eqb s Main2.dividend_marker).
  - rewrite outcome_bind, dividend_entries_run. cbn [ret outcome].
    intros E. injection E as <-. reflexivity.
  - cbn [ret outcome]. intros E. injection E as <-. reflexivity.
Qed.

Lemma main_dividends_value items : forall t l,
  outcome (for_each Main.dividend_item items t) = Ret l ->
  l = flat_map dividend_of items.
Proof.
  induction items as [|item rest IH]; intros t l; cbn [for_each flat_map].
  - intros E. injection E as <-. reflexivity.
  - rewrite outcome_bind.
    destruct (outcome (Main.dividend_item item t)) as [a|e] eqn:Ea; [|discriminate].
    rewrite outcome_bind.
    destruct (outcome (for_each Main.dividend_item rest _)) as [b|e] eqn:Eb;
      [|discriminate].
    cbn [ret outcome]. intros E. injection E as <-.
    rewrite (main_dividend_item_value _ _ _ Ea), (IH _ _ Eb). reflexivity.
Qed.

Section Versions.
Variable env : Env.

(** X10: on a page served without an error status, the highlights of
    [main.py] are among those of [main2.py].  Both versions return the
    success record, and the "financials" list of [main.py] is a sublist
    of the one of [main2.py]: every row [main.py] turns into an item
    gives the same item in [main2.py], which also keeps rows [main.py]
    drops (a dash or an empty year). *)
Theorem company_highlights_refines symbol t resp :
  requests_get env t (highlights_url symbol) [] = Ret resp ->
  response_ok resp = true ->
  exists l1 l2,
    outcome (Main.fetch_company_highlights env symbol t)
    = Ret [("symbol", VStr symbol);
           ("highlights", VDict [("financials", VList l1)])]
    /\ outcome (Main2.fetch_company_highlights env symbol t)
       = Ret [("symbol", VStr symbol);
              ("highlights", VDict [("financials", VList l2)])]
    /\ sublist l1 l2.
Proof.
  intros Hget Hok.
  destruct (safe_request_accepts_first env (highlights_url symbol) [] 3 10 t resp
              ltac:(lia) Hget Hok) as [Hsr Hnow].
  unfold Main.fetch_company_highlights, Main2.fetch_company_highlights.
  rewrite outcome_rate_limit by lia.
  unfold Main2.fetch_company_highlights_body.
  change (Main.quote_url symbol "/financial-statement/company-highlights")
    with (highlights_url symbol).
  fold (highlights_url symbol).
  destruct (highlight_tables_refine symbol
              (soup_tables (BeautifulSoup env (text resp))) (S t) (S t))
    as (l1 & l2 & H1 & H2 & Hsub).
  exists l1, l2. split; [|split; [|exact Hsub]].
  - rewrite outcome_bind. unfold Main.get. cbn [ask outcome now]. rewrite Hget.
    rewrite outcome_bind, H1. reflexivity.
  - apply outcome_try_except_ret. rewrite run_log_bind. cbn [outcome].
    rewrite outcome_bind, Hsr, Hnow. cbn [Main2.truthy]. rewrite Hok.
    rewrite outcome_bind, H2, run_log_bind. reflexivity.
Qed.

(** X11: on a page served without an error status the two versions of
    [fetch_financial_statements] return the same record: the symbol and,
    in page order, the entries of the links the filter keeps.  The
    handler [main2.py] puts around each link never runs. *)
Theorem financial_statements_agree symbol t resp :
  requests_get env t (statements_url symbol) [] = Ret resp ->
  response_ok resp = true ->
  let files := flat_map (Statements.link_entries symbol)
                 (soup_hrefs (BeautifulSoup env (text resp))) in
  outcome (Main.fetch_financial_statements env symbol t)
  = Ret [("symbol", VStr symbol); ("financial_statements", VList files)]
  /\ outcome (Main2.fetch_financial_statements env symbol t)
     = Ret [("symbol", VStr symbol); ("financial_statements", VList files)].
Proof.
  intros Hget Hok files.
  destruct (safe_request_accepts_first env (statements_url symbol) [] 3 10 t resp
              ltac:(lia) Hget Hok) as [Hsr Hnow].
  unfold Main.fetch_financial_statements, Main2.fetch_financial_statements.
  rewrite outcome_rate_limit by lia.
  unfold Main2.fetch_financial_statements_body.
  change (Main.quote_url symbol "/financial-statement/financial-position")
    with (statements_url symbol).
  fold (statements_url symbol).
  split.
  - rewrite outcome_bind. unfold Main.get. cbn [ask outcome now]. rewrite Hget.
    reflexivity.
  - apply outcome_try_except_ret. rewrite run_log_bind. cbn [outcome].
    rewrite outcome_bind, Hsr, Hnow. cbn [Main2.truthy]. rewrite Hok.
    rewrite outcome_bind, statement_links_outcome, run_log_bind. reflexivity.
Qed.

(** X12: whenever [fetch_rights_benefits] of [main.py] returns a record
    for a response without an error status whose body is JSON,
    [main2.py] returns the same record.  ([main.py] raises where
    [main2.py] skips: on an item that is not an object.) *)
Theorem rights_benefits_agree symbol t resp data d :
  requests_get env t (rights_url symbol) [] = Ret resp ->
  response_ok resp = true ->
  json_loads env (text resp) = Some data ->
  outcome (Main.fetch_rights_benefits env symbol t) = Ret d ->
  outcome (Main2.fetch_rights_benefits env symbol t) = Ret d.
Proof.
  intros Hget Hok Hjson.
  destruct (safe_request_accepts_first env (rights_url symbol) [] 3 10 t resp
              ltac:(lia) Hget Hok) as [Hsr Hnow].
  unfold Main.fetch_rights_benefits, Main2.fetch_rights_benefits.
  rewrite outcome_rate_limit by lia.
  unfold Main2.fetch_rights_benefits_body. fold (rights_url symbol).
  rewrite outcome_bind. unfold Main.get. cbn [ask outcome now]. rewrite Hget, Hjson.
  rewrite outcome_bind.
  destruct (outcome (Dyn.get data "data" (VList []) (S t))) as [payload|e] eqn:Ep;
    [|discriminate].
  assert (Hnp : now (Dyn.get data "data" (VList []) (S t)) = S t).
  { destruct data; reflexivity. }
  rewrite Hnp, outcome_bind.
  destruct (outcome (Dyn.iter payload (S t))) as [items|e] eqn:Ei; [|discriminate].
  assert (Hni : now (Dyn.iter payload (S t)) = S t).
  { destruct payload; reflexivity. }
  rewrite Hni, outcome_bind.
  destruct (outcome (for_each Main.dividend_item items (S t))) as [l|e] eqn:El;
    [|discriminate].
  cbn [ret outcome]. intros E. injection E as <-.
  apply main_dividends_value in El. subst l.
  apply outcome_try_except_ret. rewrite run_log_bind. cbn [outcome].
  rewrite outcome_bind, Hsr, Hnow. cbn [Main2.truthy]. rewrite Hok.
  rewrite outcome_bind, decode_json_outcome, Hjson, decode_json_now.
  rewrite outcome_bind, Ep, Hnp, outcome_bind, Ei, Hni, outcome_bind.
  rewrite (for_each_outcome _ dividend_of items (dividend_item_outcome symbol)).
  rewrite run_log_bind. reflexivity.
Qed.

(** X13: whenever [fetch_historical_prices] of [main.py] returns a
    record for a response without an error status whose body is JSON,
    and the value stored under "historical_prices" is one [len] accepts,
    [main2.py] returns the same record. *)
Theorem historical_prices_agree symbol months t resp data d :
  requests_get env (S t) prices_url (price_params symbol (date_range env t months))
  = Ret resp ->
  response_ok resp = true ->
  json_loads env (text resp) = Some data ->
  outcome (Main.fetch_historical_prices env symbol months t) = Ret d ->
  (forall prices, Dict.get "historical_prices" d = Some prices -> sized prices) ->
  outcome (Main2.fetch_historical_prices env symbol months t) = Ret d.
Proof.
  intros Hget Hok Hjson.
  destruct (safe_request_accepts_first env prices_url
              (price_params symbol (date_range env t months)) 3 10 (S t) resp
              ltac:(lia) Hget Hok) as [Hsr Hnow].
  unfold Main.fetch_historical_prices, Main2.fetch_historical_prices.
  rewrite outcome_rate_limit by lia.
  unfold Main2.fetch_historical_prices_body. fold prices_url.
  rewrite outcome_bind. cbn [ask_total ask outcome now].
  fold (price_params symbol (date_range env t months)).
  rewrite outcome_bind. cbn [ask outcome now]. rewrite Hget, Hjson.
  rewrite outcome_bind.
  destruct (outcome (Dyn.get data "price" (VList []) (S (S t)))) as [prices|e] eqn:Ep;
    [|discriminate].
  assert (Hnp : now (Dyn.get data "price" (VList []) (S (S t))) = S (S t)).
  { destruct data; reflexivity. }
  cbn [ret outcome]. intros E. injection E as <-. intros Hs.
  specialize (Hs prices eq_refl).
  apply outcome_try_except_ret. rewrite run_log_bind. cbn [outcome].
  rewrite outcome_bind. cbn [ask_total ask outcome now].
  fold (price_params symbol (date_range env t months)).
  rewrite outcome_bind, Hsr, Hnow. cbn [Main2.truthy]. rewrite Hok.
  rewrite outcome_bind, decode_json_outcome, Hjson, decode_json_now.
  rewrite outcome_bind, Ep, Hnp, outcome_bind.
  destruct prices; try contradiction; reflexivity.
Qed.

End Versions.

Lemma company_highlights_refines_witness :
  exists l1 l2,
    outcome (Main.fetch_company_highlights
               (Worlds.serving Worlds.sample_page None) "AOT" 0)
    = Ret [("symbol", VStr "AOT");
           ("highlights", VDict [("financials", VList l1)])]
    /\ outcome (Main2.fetch_company_highlights
                  (Worlds.serving Worlds.sample_page None) "AOT" 0)
       = Ret [("symbol", VStr "AOT");
              ("highlights", VDict [("financials", VList l2)])]
    /\ sublist l1 l2
    /\ length l1 = 1 /\ length l2 = 2.
Proof.
  destruct (company_highlights_refines (Worlds.serving Worlds.sample_page None)
              "AOT" 0 (mkResponse 200 "{}") eq_refl eq_refl)
    as (l1 & l2 & H1 & H2 & Hs).
  exists l1, l2. repeat split; try assumption.
  - vm_compute in H1. injection H1 as <-. reflexivity.
  - vm_compute in H2. injection H2 as <-. reflexivity.
Defined.

Lemma financial_statements_agree_witness :
  outcome (Main.fetch_financial_statements
             (Worlds.serving Worlds.sample_page None) "AOT" 0)
  = outcome (Main2.fetch_financial_statements
               (Worlds.serving Worlds.sample_page None) "AOT" 0).
Proof.
  destruct (financial_statements_agree (Worlds.serving Worlds.sample_page None)
              "AOT" 0 (mkResponse 200 "{}") eq_refl eq_refl) as [H1 H2].
  rewrite H1, H2. reflexivity.
Defined.

Lemma rights_benefits_agree_witness :
  outcome (Main2.fetch_rights_benefits
             (Worlds.serving Worlds.empty_soup (Some Worlds.rights_payload)) "AOT" 0)
  = outcome (Main.fetch_rights_benefits
               (Worlds.serving Worlds.empty_soup (Some Worlds.rights_payload))
               "AOT" 0).
Proof.
  apply (rights_benefits_agree
           (Worlds.serving Worlds.empty_soup (Some Worlds.rights_payload))
           "AOT" 0 (mkResponse 200 "{}") Worlds.rights_payload);
    reflexivity.
Defined.

Lemma historical_prices_agree_witness :
  outcome (Main2.fetch_historical_prices
             (Worlds.serving Worlds.empty_soup (Some Worlds.prices_payload))
             "AOT" 60 0)
  = outcome (Main.fetch_historical_prices
               (Worlds.serving Worlds.empty_soup (Some Worlds.prices_payload))
               "AOT" 60 0).
Proof.
  apply (historical_prices_agree
           (Worlds.serving Worlds.empty_soup (Some Worlds.prices_payload))
           "AOT" 60 0 (mkResponse 200 "{}") Worlds.prices_payload);
    try reflexivity.
  intros prices E. injection E as <-. exact I.
Defined.

(** * main.py: the snapshot and the factsheet *)

(** ** Steps that emit nothing *)

Section Silent.
Variable Q : Event -> Prop.

Lemma eo_item_at cols i : emits_only Q (Main2.item_at cols i).
Proof. unfold Main2.item_at. eo. Qed.

Lemma eo_to_float s : emits_only Q (Conv.to_float s).
Proof. unfold Conv.to_float. eo. Qed.

Lemma eo_to_int s : emits_only Q (Conv.to_int s).
Proof. unfold Conv.to_int. eo. Qed.

Lemma eo_dyn_get v key default : emits_only Q (Dyn.get v key default).
Proof. unfold Dyn.get. eo. Qed.

Lemma eo_dyn_iter v : emits_only Q (Dyn.iter v).
Proof. unfold Dyn.iter. eo. Qed.

Lemma eo_dyn_len v : emits_only Q (Dyn.len v).
Proof. unfold Dyn.len. eo. Qed.

Lemma eo_dividend_entries item fields :
  emits_only Q (Main2.dividend_entries item fields).
Proof.
  induction fields as [|[key source] rest IH]; cbn [Main2.dividend_entries]; eo.
  - apply eo_dyn_get.
  - exact IH.
Qed.

Lemma eo_main_highlight_entries cols keys : forall i,
  emits_only Q (Main.highlight_entries cols i keys).
Proof.
  induction keys as [|key rest IH]; intros i; cbn [Main.highlight_entries]; eo.
  - apply eo_item_at.
  - unfold Main.float_if_text. eo. apply eo_to_float.
  - apply IH.
Qed.

Lemma eo_ratio_rows rows : forall ratios, emits_only Q (Main.ratio_rows rows ratios).
Proof.
  induction rows as [|cols rest IH]; intros ratios; cbn [Main.ratio_rows]; [eo|].
  destruct cols as [|c0 [|c1 [|c2 more]]]; try apply IH.
  eo; [unfold Main.ratio_value; eo; apply eo_to_float | apply IH].
Qed.

Lemma eo_week52_rows rows : forall acc, emits_only Q (Main.week52_rows rows acc).
Proof.
  induction rows as [|tds rest IH]; intros acc; cbn [Main.week52_rows]; [eo|].
  destruct tds as [|t0 [|t1 [|t2 more]]]; try apply IH.
  cbv zeta.
  destruct (PyStr.contains _ _); [eo; [apply eo_to_float | apply IH]|].
  destruct (PyStr.contains _ _); [eo; [apply eo_to_float | apply IH]|].
  apply IH.
Qed.

End Silent.

Lemma filter_no_file {A} (m : M A) t :
  emits_only no_file m -> List.filter is_file_event (events (m t)) = [].
Proof. intros H. apply filter_none. exact (H t). Qed.

(** Five sources run one after the other, then [k]: nothing of [k] runs
    unless every source returned. *)
Lemma chain_of_five (m1 m2 m3 m4 m5 : M pydict) (k : M unit) t :
  emits_only no_file m1 -> emits_only no_file m2 -> emits_only no_file m3 ->
  emits_only no_file m4 -> emits_only no_file m5 ->
  let r := (_ <- m1 ;; _ <- m2 ;; _ <- m3 ;; _ <- m4 ;; _ <- m5 ;; k) t in
  let files := List.filter is_file_event (events r) in
  if all_return [m1; m2; m3; m4; m5] t
  then exists t', outcome r = outcome (k t')
                  /\ files = List.filter is_file_event (events (k t'))
  else (exists e, outcome r = Raise e) /\ files = [].
Proof.
  intros H1 H2 H3 H4 H5. cbv zeta. cbn [all_return]. unfold returned.
  rewrite outcome_bind, filter_bind, (filter_no_file _ _ H1).
  destruct (outcome (m1 t)) as [a|e]; [|cbn; eauto].
  generalize (now (m1 t)) as t1. intros t1.
  rewrite outcome_bind, filter_bind, (filter_no_file _ _ H2).
  destruct (outcome (m2 t1)) as [b|e]; [|cbn; eauto].
  generalize (now (m2 t1)) as t2. intros t2.
  rewrite outcome_bind, filter_bind, (filter_no_file _ _ H3).
  destruct (outcome (m3 t2)) as [c|e]; [|cbn; eauto].
  generalize (now (m3 t2)) as t3. intros t3.
  rewrite outcome_bind, filter_bind, (filter_no_file _ _ H4).
  destruct (outcome (m4 t3)) as [d|e]; [|cbn; eauto].
  generalize (now (m4 t3)) as t4. intros t4.
  rewrite outcome_bind, filter_bind, (filter_no_file _ _ H5).
  destruct (outcome (m5 t4)) as [f|e]; [|cbn; eauto].
  cbn. eauto.
Qed.

Section MainSnapshot.
Variable env : Env.

Lemma main_get_no_file url : emits_only no_file (Main.get env url).
Proof. unfold Main.get. eo. Qed.

Lemma main_fetch_factsheet_no_file symbol :
  emits_only no_file (Main.fetch_factsheet env symbol).
Proof.
  unfold Main.fetch_factsheet, Main.sibling_text.
  eo; try apply main_get_no_file; try apply eo_to_float; try apply eo_to_int;
    try apply eo_ratio_rows; try apply eo_week52_rows.
Qed.

Lemma main_fetch_company_highlights_no_file symbol :
  emits_only no_file (Main.fetch_company_highlights env symbol).
Proof.
  unfold Main.fetch_company_highlights, Main.highlight_table, Main.highlight_row.
  eo; try apply main_get_no_file; try apply eo_item_at; try apply eo_to_int;
    try apply eo_main_highlight_entries.
Qed.

Lemma main_fetch_rights_benefits_no_file symbol :
  emits_only no_file (Main.fetch_rights_benefits env symbol).
Proof.
  unfold Main.fetch_rights_benefits, Main.dividend_item.
  eo; try apply main_get_no_file; try apply eo_dyn_get; try apply eo_dyn_iter;
    try apply eo_dividend_entries.
Qed.

Lemma main_fetch_financial_statements_no_file symbol :
  emits_only no_file (Main.fetch_financial_statements env symbol).
Proof. unfold Main.fetch_financial_statements. eo. apply main_get_no_file. Qed.

Lemma main_fetch_historical_prices_no_file symbol months :
  emits_only no_file (Main.fetch_historical_prices env symbol months).
Proof.
  unfold Main.fetch_historical_prices. eo; try apply eo_dyn_get.
Qed.

(** X14: [save_stock_data] of [main.py] writes all or nothing.  If one
    of its five extractors raises, the exception leaves
    [save_stock_data] and the file system is not touched: no directory
    is created and no file opened.  When [save_stock_data] returns, all
    five extractors returned and the file events are, in this order,
    creating "data", opening data/<symbol>.json and writing it. *)
Theorem main_snapshot_all_or_nothing symbol t :
  let r := Main.save_stock_data env symbol t in
  let files := List.filter is_file_event (events r) in
  (all_return (main_sources env symbol) t = false ->
   (exists e, outcome r = Raise e) /\ files = [])
  /\ (forall u, outcome r = Ret u ->
        all_return (main_sources env symbol) t = true
        /\ files = [EvMakedirs "data"; EvOpen (snapshot_path symbol);
                    EvWrite (snapshot_path symbol)]).
Proof.
  pose proof (chain_of_five
                (Main.fetch_factsheet env symbol)
                (Main.fetch_company_highlights env symbol)
                (Main.fetch_rights_benefits env symbol)
                (Main.fetch_financial_statements env symbol)
                (Main.fetch_historical_prices env symbol 60)
                (ask (fun t => os_makedirs env t "data") (EvMakedirs "data") >>
                 ask (fun t => file_open env t (snapshot_path symbol))
                     (EvOpen (snapshot_path symbol)) >>
                 ask (fun t => file_write env t (snapshot_path symbol))
                     (EvWrite (snapshot_path symbol)))
                t
                (main_fetch_factsheet_no_file symbol)
                (main_fetch_company_highlights_no_file symbol)
                (main_fetch_rights_benefits_no_file symbol)
                (main_fetch_financial_statements_no_file symbol)
                (main_fetch_historical_prices_no_file symbol 60)) as H.
  cbv zeta in H |- *.
  change (Main.save_stock_data env symbol t) with
    ((_ <- Main.fetch_factsheet env symbol ;;
      _ <- Main.fetch_company_highlights env symbol ;;
      _ <- Main.fetch_rights_benefits env symbol ;;
      _ <- Main.fetch_financial_statements env symbol ;;
      _ <- Main.fetch_historical_prices env symbol 60 ;;
      (ask (fun t => os_makedirs env t "data") (EvMakedirs "data") >>
       ask (fun t => file_open env t (snapshot_path symbol))
           (EvOpen (snapshot_path symbol)) >>
       ask (fun t => file_write env t (snapshot_path symbol))
           (EvWrite (snapshot_path symbol)))) t).
  unfold main_sources.
  revert H.
  generalize (Main.fetch_factsheet env symbol) as m1.
  generalize (Main.fetch_company_highlights env symbol) as m2.
  generalize (Main.fetch_rights_benefits env symbol) as m3.
  generalize (Main.fetch_financial_statements env symbol) as m4.
  generalize (Main.fetch_historical_prices env symbol 60) as m5.
  intros m5 m4 m3 m2 m1 H.
  destruct (all_return [m1; m2; m3; m4; m5] t).
  - destruct H as (t' & Ho & Hf). rewrite Ho, Hf. split; [discriminate|].
    intros u. unfold bind, ask. cbn [outcome now events].
    destruct (os_makedirs env t' "data"); cbn [outcome now events]; [|discriminate].
    destruct (file_open env (S t') (snapshot_path symbol));
      cbn [outcome now events]; [|discriminate].
    intros _. split; reflexivity.
  - destruct H as ((e & He) & Hf). split; [intros _; eauto|].
    intros u Hu. rewrite He in Hu. discriminate.
Qed.

End MainSnapshot.

Lemma main_snapshot_all_or_nothing_witness :
  List.filter is_file_event (events (Main.save_stock_data Worlds.offline "AOT" 0)) = []
  /\ List.filter is_file_event
       (events (Main.save_stock_data (Worlds.healthy "") "AOT" 0))
     = [EvMakedirs "data"; EvOpen "data/AOT.json"; EvWrite "data/AOT.json"].
Proof.
  split.
  - destruct (main_snapshot_all_or_nothing Worlds.offline "AOT" 0) as [H _].
    apply H. reflexivity.
  - destruct (main_snapshot_all_or_nothing (Worlds.healthy "") "AOT" 0) as [_ H].
    apply (H tt). reflexivity.
Defined.

(** ** The ratio table of the factsheet *)

Lemma dict_get_set_eq key v d : Dict.get key (Dict.set key v d) = Some v.
Proof.
  induction d as [|[k v'] rest IH]; cbn [Dict.set Dict.get].
  - rewrite String.eqb_refl. reflexivity.
  - destruct (String.eqb k key) eqn:E; cbn [Dict.get]; rewrite E; auto.
Qed.

Lemma dict_get_set_ne key key' v d :
  key <> key' -> Dict.get key' (Dict.set key v d) = Dict.get key' d.
Proof.
  intros Hne. induction d as [|[k v'] rest IH]; cbn [Dict.set Dict.get].
  - replace (String.eqb key key') with false; [reflexivity|].
    symmetry. apply String.eqb_neq. exact Hne.
  - destruct (String.eqb k key) eqn:E; cbn [Dict.get].
    + apply String.eqb_eq in E. subst k.
      replace (String.eqb key key') with false; [reflexivity|].
      symmetry. apply String.eqb_neq. exact Hne.
    + rewrite IH. reflexivity.
Qed.

Lemma dict_keys_set key v d :
  Dict.keys (Dict.set key v d)
  = if Dict.has_key key d then Dict.keys d else (Dict.keys d ++ [key])%list.
Proof.
  unfold Dict.keys.
  induction d as [|[k v'] rest IH]; cbn [Dict.set Dict.has_key map fst app];
    [reflexivity|].
  destruct (String.eqb k key) eqn:E; cbn [orb map fst]; [reflexivity|].
  rewrite IH. destruct (Dict.has_key key rest); reflexivity.
Qed.

Lemma dict_has_key_In key d : Dict.has_key key d = true <-> In key (Dict.keys d).
Proof.
  unfold Dict.keys.
  induction d as [|[k v] rest IH]; cbn [Dict.has_key map fst In].
  - split; [discriminate | tauto].
  - rewrite orb_true_iff, String.eqb_eq, IH. reflexivity.
Qed.

Lemma dict_set_NoDup key v d :
  NoDup (Dict.keys d) -> NoDup (Dict.keys (Dict.set key v d)).
Proof.
  intros H. rewrite dict_keys_set.
  destruct (Dict.has_key key d) eqn:E; [exact H|].
  apply (proj2 (NoDup_app _ _)). repeat split.
  - exact H.
  - intros x Hx Hin. apply list_elem_of_singleton in Hin. subst x.
    apply list_elem_of_In, dict_has_key_In in Hx. congruence.
  - apply NoDup_singleton.
Qed.

Lemma ratio_value_run val t :
  Main.ratio_value val t = mkRun (Ret (ratio_of val)) t [].
Proof.
  unfold Main.ratio_value, ratio_of, try_except, bind, Conv.to_float.
  destruct (PyNum.py_float _); reflexivity.
Qed.

Lemma ratio_rows_run rows : forall ratios t,
  Main.ratio_rows rows ratios t
  = mkRun (Ret (fold_left ratio_step rows ratios)) t [].
Proof.
  induction rows as [|row rest IH]; intros ratios t; [reflexivity|].
  cbn [Main.ratio_rows fold_left].
  destruct row as [|c0 [|c1 [|c2 more]]]; try apply IH.
  cbv zeta. unfold bind. rewrite ratio_value_run. cbn [outcome now events].
  rewrite IH. reflexivity.
Qed.

Lemma ratio_fold_NoDup rows : forall ratios,
  NoDup (Dict.keys ratios) ->
  NoDup (Dict.keys (fold_left ratio_step rows ratios)).
Proof.
  induction rows as [|row rest IH]; intros ratios H; [exact H|].
  cbn [fold_left]. apply IH.
  destruct row as [|c0 [|c1 [|c2 more]]]; try exact H.
  apply dict_set_NoDup, H.
Qed.

Lemma ratio_fold_untouched key rows : forall ratios,
  (forall row, In row rows -> ratio_label row <> Some key) ->
  Dict.get key (fold_left ratio_step rows ratios) = Dict.get key ratios.
Proof.
  induction rows as [|row rest IH]; intros ratios H; [reflexivity|].
  cbn [fold_left]. rewrite IH by (intros r Hr; apply H; right; exact Hr).
  assert (Hrow := H row (or_introl eq_refl)).
  destruct row as [|c0 [|c1 [|c2 more]]]; try reflexivity.
  cbn [ratio_step]. apply dict_get_set_ne.
  intros E. apply Hrow. cbn [ratio_label]. congruence.
Qed.

Lemma ratio_rows_returns rows :
  returns (fun ratios => NoDup (Dict.keys ratios)) (Main.ratio_rows rows []).
Proof.
  intros t ratios. rewrite ratio_rows_run. cbn [outcome].
  intros E. injection E as <-. apply ratio_fold_NoDup. constructor.
Qed.

(** X15: the ratio table of [fetch_factsheet] in [main.py].  Reading the
    rows never raises and has no effect; the ratios have pairwise
    distinct keys; for a label that occurs in several two-cell rows the
    last such row wins, its value being the number its text denotes once
    percent signs and commas are removed, or the text itself when that
    is no number; a label of no two-cell row is absent. *)
Theorem ratio_rows_last_row_wins rows t :
  exists ratios,
    Main.ratio_rows rows [] t = mkRun (Ret ratios) t []
    /\ NoDup (Dict.keys ratios)
    /\ (forall before c0 c1 after,
          rows = (before ++ [c0; c1] :: after)%list ->
          (forall row, In row after -> ratio_label row <> Some (PyStr.strip c0)) ->
          Dict.get (PyStr.strip c0) ratios = Some (ratio_of (PyStr.strip c1)))
    /\ (forall key,
          (forall row, In row rows -> ratio_label row <> Some key) ->
          Dict.get key ratios = None).
Proof.
  exists (fold_left ratio_step rows []). split; [apply ratio_rows_run|].
  split; [apply ratio_fold_NoDup; constructor|]. split.
  - intros before c0 c1 after -> Hafter.
    rewrite fold_left_app. cbn [fold_left].
    rewrite ratio_fold_untouched by exact Hafter.
    cbn [ratio_step]. apply dict_get_set_eq.
  - intros key H. rewrite ratio_fold_untouched by exact H. reflexivity.
Qed.

Lemma ratio_rows_last_row_wins_witness :
  exists ratios,
    Main.ratio_rows [["P/E"; " 10 "]; ["Beta"; "-"]; ["P/E"; "12.5%"]] [] 0
    = mkRun (Ret ratios) 0 []
    /\ Dict.get "P/E" ratios = Some (VFloat (FFinite (25 # 2)))
    /\ Dict.get "Beta" ratios = Some (VStr "-").
Proof.
  destruct (ratio_rows_last_row_wins
              [["P/E"; " 10 "]; ["Beta"; "-"]; ["P/E"; "12.5%"]] 0)
    as (ratios & Hrun & _ & Hlast & _).
  exists ratios. split; [exact Hrun|]. split.
  - apply (Hlast [["P/E"; " 10 "]; ["Beta"; "-"]] "P/E" "12.5%" []);
      [reflexivity | intros row []].
  - apply (Hlast [["P/E"; " 10 "]] "Beta" "-" [["P/E"; "12.5%"]]);
      [reflexivity|].
    intros row [<-|[]]. discriminate.
Defined.

Section MainFactsheet.
Variable env : Env.

(** X16: the record of [fetch_factsheet] in [main.py].  Whenever the
    function returns, the record is tagged with the symbol, has the
    seven keys symbol, company_name, price, market_cap,
    financial_ratios, dividend_info, price_52w in this order, followed
    by avg_volume_10d or by nothing (the only key the code sets under a
    condition), the ratios have pairwise distinct labels, and
    "dividend_info" holds exactly the entries of "financial_ratios"
    whose label contains "Dividend" or the Thai word for dividend, in
    the same order. *)
Theorem main_fetch_factsheet_shape symbol t d :
  outcome (Main.fetch_factsheet env symbol t) = Ret d ->
  Dict.get "symbol" d = Some (VStr symbol)
  /\ (Dict.keys d = main_factsheet_keys
      \/ Dict.keys d = (main_factsheet_keys ++ ["avg_volume_10d"])%list)
  /\ exists ratios,
       Dict.get "financial_ratios" d = Some (VDict ratios)
       /\ NoDup (Dict.keys ratios)
       /\ Dict.get "dividend_info" d
          = Some (VDict (List.filter (fun kv => dividend_label (fst kv)) ratios)).
Proof.
  revert t d.
  change (returns
            (fun d =>
               Dict.get "symbol" d = Some (VStr symbol)
               /\ (Dict.keys d = main_factsheet_keys
                   \/ Dict.keys d = (main_factsheet_keys ++ ["avg_volume_10d"])%list)
               /\ exists ratios,
                    Dict.get "financial_ratios" d = Some (VDict ratios)
                    /\ NoDup (Dict.keys ratios)
                    /\ Dict.get "dividend_info" d
                       = Some (VDict (List.filter
                                        (fun kv => dividend_label (fst kv)) ratios)))
            (Main.fetch_factsheet env symbol)).
  unfold Main.fetch_factsheet. cbv zeta.
  apply rt_bind; intros resp.
  apply rt_bind; intros price.
  apply rt_bind; intros market_cap.
  eapply (rt_bind_from _ (fun ratios => NoDup (Dict.keys ratios))).
  { destruct (soup_ratio_table _); [apply ratio_rows_returns|].
    apply rt_ret. constructor. }
  intros ratios Hnd.
  apply rt_bind; intros price_52w.
  destruct (soup_avg_volume _).
  - apply rt_bind; intros txt. apply rt_bind; intros v. apply rt_ret.
    split; [reflexivity|]. split; [right; reflexivity|].
    exists ratios. repeat split; [exact Hnd].
  - apply rt_ret.
    split; [reflexivity|]. split; [left; reflexivity|].
    exists ratios. repeat split; [exact Hnd].
Qed.

End MainFactsheet.

Lemma main_fetch_factsheet_shape_witness :
  exists d,
    outcome (Main.fetch_factsheet (Worlds.healthy "") "AOT" 0) = Ret d
    /\ Dict.get "symbol" d = Some (VStr "AOT")
    /\ Dict.keys d = main_factsheet_keys.
Proof.
  eexists. split; [reflexivity|].
  destruct (main_fetch_factsheet_shape (Worlds.healthy "") "AOT" 0 _ eq_refl)
    as (Hs & _ & _).
  split; [exact Hs | reflexivity].
Defined.

(** * main2.py: budgets of one symbol and of a batch *)

(** ** What the code around the transport step emits: log lines only *)

Section LogsOnly.
Variable p : Event -> bool.
Hypothesis Hlog : forall l msg, p (EvLog l msg) = false.

Ltac lo := eo; try (apply eo_log; apply Hlog).

Lemma lo_highlight_entries cols keys : forall i,
  emits_only (fun e => p e = false) (Main2.highlight_entries cols i keys).
Proof.
  induction keys as [|key rest IH]; intros i; cbn [Main2.highlight_entries]; eo.
  - apply eo_item_at.
  - unfold Main2.float_or_none. eo. apply eo_to_float.
  - apply IH.
Qed.

Lemma lo_highlight_table symbol table :
  emits_only (fun e => p e = false) (Main2.highlight_table symbol table).
Proof.
  unfold Main2.highlight_table, Main2.highlight_row, Main2.int_or_none.
  lo; try apply eo_item_at; try apply eo_to_int; try apply lo_highlight_entries.
Qed.

Lemma lo_dividend_item symbol item :
  emits_only (fun e => p e = false) (Main2.dividend_item symbol item).
Proof.
  unfold Main2.dividend_item.
  lo; try apply eo_dyn_get; try apply eo_dividend_entries.
Qed.

Lemma lo_decode_json env response what symbol failure :
  emits_only (fun e => p e = false)
             (Main2.decode_json env response what symbol failure).
Proof. unfold Main2.decode_json. lo. Qed.

Lemma lo_statement_link symbol href :
  emits_only (fun e => p e = false) (Main2.statement_link symbol href).
Proof. unfold Main2.statement_link. lo. Qed.

(** An extractor of the shape [log; response = safe_request(...); rest]
    under [except Exception], behind [rate_limit]: what it emits besides
    log lines is the rate-limit sleep and the events of the transport
    step. *)
Lemma http_extractor_filter (delay : Z) name msg (sr : M (option Response))
    (k : option Response -> M pydict) c (h : exn -> M pydict) t :
  (0 <= delay)%Z ->
  (forall a, emits_only (fun e => p e = false) (k a)) ->
  (forall e, emits_only (fun e' => p e' = false) (h e)) ->
  List.filter p (events (Main2.rate_limit delay name
                           (try_except (log INFO msg >> response <- sr ;; k response)
                              c h) t))
  = (List.filter p [EvSleep delay] ++ List.filter p (events (sr t)))%list.
Proof.
  intros Hd Hk Hh. unfold Main2.rate_limit.
  rewrite run_log_bind. cbn [events]. cbn [List.filter]. rewrite Hlog.
  rewrite filter_bind. unfold sleep at 1 2 3.
  replace (delay <? 0)%Z with false by (symmetry; apply Z.ltb_ge; lia).
  cbn [emit outcome now events]. f_equal.
  rewrite filter_try_except, run_log_bind. cbn [outcome now events].
  cbn [List.filter]. rewrite Hlog, filter_bind, outcome_bind, now_bind.
  destruct (outcome (sr t)) as [a|e].
  - rewrite (filter_none p _ (Hk a _)), app_nil_r.
    destruct (outcome (k a (now (sr t)))) as [d|e]; [apply app_nil_r|].
    destruct (c e); [|apply app_nil_r].
    rewrite (filter_none p _ (Hh e _)). apply app_nil_r.
  - rewrite app_nil_r. destruct (c e); [|apply app_nil_r].
    rewrite (filter_none p _ (Hh e _)). apply app_nil_r.
Qed.

End LogsOnly.

Section Decompose.
Variable env : Env.
Variable p : Event -> bool.
Hypothesis Hlog : forall l msg, p (EvLog l msg) = false.
Hypothesis Hnow : p EvNow = false.

Ltac lo := eo; try (apply eo_log; apply Hlog).

Lemma highlights_filter symbol t :
  List.filter p (events (Main2.fetch_company_highlights env symbol t))
  = (List.filter p [EvSleep 1]
     ++ List.filter p (events (Main2.safe_request env (highlights_url symbol)
                                 [] 3 10 t)))%list.
Proof.
  unfold Main2.fetch_company_highlights, Main2.fetch_company_highlights_body.
  apply http_extractor_filter; [exact Hlog | lia | intros a | intros e]; lo.
  apply lo_highlight_table. exact Hlog.
Qed.

Lemma rights_filter symbol t :
  List.filter p (events (Main2.fetch_rights_benefits env symbol t))
  = (List.filter p [EvSleep 1]
     ++ List.filter p (events (Main2.safe_request env (rights_url symbol)
                                 [] 3 10 t)))%list.
Proof.
  unfold Main2.fetch_rights_benefits, Main2.fetch_rights_benefits_body.
  apply http_extractor_filter; [exact Hlog | lia | intros a | intros e]; lo;
    try apply eo_dyn_get; try apply eo_dyn_iter;
    try (apply lo_decode_json; exact Hlog);
    try (apply lo_dividend_item; exact Hlog).
Qed.

Lemma statements_filter symbol t :
  List.filter p (events (Main2.fetch_financial_statements env symbol t))
  = (List.filter p [EvSleep 1]
     ++ List.filter p (events (Main2.safe_request env (statements_url symbol)
                                 [] 3 10 t)))%list.
Proof.
  unfold Main2.fetch_financial_statements, Main2.fetch_financial_statements_body.
  apply http_extractor_filter; [exact Hlog | lia | intros a | intros e]; lo.
  apply lo_statement_link. exact Hlog.
Qed.

Lemma prices_filter symbol months t :
  List.filter p (events (Main2.fetch_historical_prices env symbol months t))
  = (List.filter p [EvSleep 1]
     ++ List.filter p (events (Main2.safe_request env prices_url
                                 (price_params symbol (date_range env t months))
                                 3 10 (S t))))%list.
Proof.
  unfold Main2.fetch_historical_prices, Main2.rate_limit,
    Main2.fetch_historical_prices_body.
  fold prices_url.
  rewrite run_log_bind. cbn [events]. cbn [List.filter]. rewrite Hlog.
  rewrite filter_bind. cbn [sleep Z.ltb Z.compare emit outcome now events].
  f_equal.
  rewrite filter_try_except, run_log_bind. cbn [outcome now events].
  cbn [List.filter]. rewrite Hlog.
  rewrite filter_bind, outcome_bind, now_bind.
  cbn [ask_total ask outcome now events]. cbn [List.filter]. rewrite Hnow.
  fold (price_params symbol (date_range env t months)).
  cbn [app].
  set (sr := Main2.safe_request env prices_url
               (price_params symbol (date_range env t months)) 3 10).
  rewrite filter_bind, outcome_bind, now_bind.
  assert (Hk : forall a : option Response,
             emits_only (fun e => p e = false)
               (match Main2.truthy a with
                | None => ret (Main2.failed_record symbol
                                 "Failed to fetch historical prices"
                                 [("historical_prices", VList [])])
                | Some response =>
                    decoded <- Main2.decode_json env response "historical prices "
                                 symbol
                                 (Main2.failed_record symbol "Invalid JSON response"
                                    [("historical_prices", VList [])]) ;;
                    match decoded with
                    | inl failure => ret failure
                    | inr data =>
                        prices <- Dyn.get data "price" (VList []) ;;
                        n <- Dyn.len prices ;;
                        log INFO ("Successfully fetched " +:+ pretty n
                                  +:+ " price records for " +:+ symbol) >>
                        ret [("symbol", VStr symbol); ("historical_prices", prices)]
                    end
                end)).
  { intros a. lo; try apply eo_dyn_get; try apply eo_dyn_len;
      try (apply lo_decode_json; exact Hlog). }
  assert (Hh : forall t' l msg (d : pydict),
             List.filter p (events ((log l msg >> ret d) t')) = []).
  { intros t' l msg d. rewrite run_log_bind. cbn [ret events List.filter].
    rewrite Hlog. reflexivity. }
  destruct (outcome (sr (S t))) as [a|e].
  - rewrite (filter_none p _ (Hk a _)), app_nil_r.
    match goal with
    | |- (_ ++ match ?o with _ => _ end)%list = _ => destruct o as [d|e]
    end; [apply app_nil_r|].
    cbn [is_Exception]. rewrite Hh. apply app_nil_r.
  - rewrite app_nil_r. cbn [is_Exception]. rewrite Hh. apply app_nil_r.
Qed.

Hypothesis Hfile : forall e, is_file_event e = true -> p e = false.

(** What the aggregator emits besides log lines, the clock and the file
    events is what its five extractors emit, one after the other. *)
Lemma save_filter symbol t :
  let r1 := Main2.fetch_factsheet_selenium env symbol (S t) in
  let r2 := Main2.fetch_company_highlights env symbol (now r1) in
  let r3 := Main2.fetch_rights_benefits env symbol (now r2) in
  let r4 := Main2.fetch_financial_statements env symbol (now r3) in
  let r5 := Main2.fetch_historical_prices env symbol 60 (now r4) in
  List.filter p (events (Main2.save_stock_data env symbol t))
  = (List.filter p (events r1) ++ List.filter p (events r2)
     ++ List.filter p (events r3) ++ List.filter p (events r4)
     ++ List.filter p (events r5))%list.
Proof.
  unfold Main2.save_stock_data.
  pose proof (fetch_factsheet_selenium_never_raises env symbol) as N1.
  pose proof (fetch_company_highlights_never_raises env symbol) as N2.
  pose proof (fetch_rights_benefits_never_raises env symbol) as N3.
  pose proof (fetch_financial_statements_never_raises env symbol) as N4.
  pose proof (fetch_historical_prices_never_raises env symbol 60) as N5.
  revert N1 N2 N3 N4 N5.
  generalize (Main2.fetch_factsheet_selenium env symbol) as m1.
  generalize (Main2.fetch_company_highlights env symbol) as m2.
  generalize (Main2.fetch_rights_benefits env symbol) as m3.
  generalize (Main2.fetch_financial_statements env symbol) as m4.
  generalize (Main2.fetch_historical_prices env symbol 60) as m5.
  intros m5 m4 m3 m2 m1 N1 N2 N3 N4 N5. cbv zeta.
  assert (Hh : forall t' l msg (d : pydict),
             List.filter p (events ((log l msg >> ret d) t')) = []).
  { intros t' l msg d. rewrite run_log_bind. cbn [ret events List.filter].
    rewrite Hlog. reflexivity. }
  rewrite filter_try_except, run_log_bind. cbn [outcome now events].
  cbn [List.filter]. rewrite Hlog.
  rewrite filter_bind, outcome_bind, now_bind.
  cbn [ask_total ask outcome now events]. cbn [List.filter]. rewrite Hnow.
  cbn [app].
  destruct (N1 (S t)) as [d1 H1].
  rewrite filter_bind, outcome_bind, now_bind, H1.
  destruct (N2 (now (m1 (S t)))) as [d2 H2].
  rewrite filter_bind, outcome_bind, now_bind, H2.
  destruct (N3 (now (m2 (now (m1 (S t)))))) as [d3 H3].
  rewrite filter_bind, outcome_bind, now_bind, H3.
  destruct (N4 (now (m3 (now (m2 (now (m1 (S t)))))))) as [d4 H4].
  rewrite filter_bind, outcome_bind, now_bind, H4.
  destruct (N5 (now (m4 (now (m3 (now (m2 (now (m1 (S t)))))))))) as [d5 H5].
  rewrite filter_bind, outcome_bind, now_bind, H5.
  rewrite <- !app_assoc. do 4 f_equal.
  match goal with
  | |- (_ ++ ?X ++ ?Y)%list = _ => assert (HX : X = []); [|assert (HY : Y = [])]
  end.
  - rewrite filter_bind. cbn [ask outcome now events]. cbn [List.filter].
    rewrite (Hfile (EvMakedirs "data") eq_refl). cbn [app].
    destruct (os_makedirs env _ "data"); [|reflexivity].
    rewrite filter_bind. cbn [ask outcome now events]. cbn [List.filter].
    rewrite (Hfile (EvOpen _) eq_refl). cbn [app].
    destruct (file_open env _ _); [|reflexivity].
    rewrite filter_bind. cbn [ask outcome now events]. cbn [List.filter].
    rewrite (Hfile (EvWrite _) eq_refl). cbn [app].
    destruct (file_write env _ _); [|reflexivity].
    rewrite run_log_bind. cbn [ret events List.filter]. rewrite Hlog. reflexivity.
  - match goal with
    | |- match ?o with _ => _ end = [] => destruct o as [d|e]
    end; [reflexivity|].
    cbn [is_Exception]. apply Hh.
  - rewrite HX, HY, !app_nil_r. reflexivity.
Qed.

(** One turn of the batch loop adds, to what the aggregator emits, log
    lines and the pacing sleep. *)
Lemma batch_step_filter delay n i symbol (st : gmap string pydict * list string) t :
  List.filter p (events (Main2.batch_step env delay n i symbol st t))
  = (List.filter p (events (Main2.save_stock_data env symbol t))
     ++ if (i <? n)%Z && negb (delay <? 0)%Z
        then List.filter p [EvSleep delay] else [])%list.
Proof.
  unfold Main2.batch_step.
  pose proof (save_stock_data_never_raises env symbol) as Hnr.
  revert Hnr. generalize (Main2.save_stock_data env symbol) as agg.
  intros agg Hnr. set (run := agg t).
  destruct (Hnr t) as [d Hd]. fold run in Hd. clear Hnr.
  match goal with
  | |- context [try_steps (?s1 :: ?s2 :: nil) ?c ?h st t] =>
      set (step1 := s1); set (step2 := s2); set (handler := h)
  end.
  set (st1 := (<[symbol := d]> (fst st),
               (snd st ++ (if has_error d then [symbol] else []))%list)).
  assert (H1 : outcome (step1 st t) = Ret st1
               /\ now (step1 st t) = now run
               /\ List.filter p (events (step1 st t)) = List.filter p (events run)).
  { unfold step1. rewrite run_log_bind. cbn [outcome now events].
    rewrite outcome_bind, now_bind, events_bind. fold run. rewrite Hd.
    unfold st1, has_error.
    destruct (Dict.has_key "error" d); rewrite run_log_bind;
      cbn [outcome now events ret]; rewrite ?app_nil_r;
      (split; [reflexivity|]; split; [reflexivity|]);
      cbn [List.filter]; rewrite Hlog, List.filter_app; cbn [List.filter];
      rewrite Hlog; apply app_nil_r. }
  destruct H1 as (Ho1 & Hn1 & Hf1).
  rewrite (try_steps_cons_ret step1 [step2] _ handler st st1 t Ho1).
  cbn [outcome now events]. rewrite List.filter_app, Hf1, Hn1. f_equal.
  destruct (i <? n)%Z eqn:Ei; cbn [andb].
  - destruct (delay <? 0)%Z eqn:Ed; cbn [negb].
    + assert (Ho2 : outcome (step2 st1 (now run)) = Raise sleep_error
                    /\ now (step2 st1 (now run)) = now run
                    /\ List.filter p (events (step2 st1 (now run))) = []).
      { unfold step2. rewrite ?Ei. cbv beta. rewrite run_log_bind.
        cbn [outcome now events]. unfold sleep. rewrite ?Ed.
        cbn [bind raise outcome now events List.filter]. rewrite Hlog.
        repeat split. }
      destruct Ho2 as (Ho2 & Hn2 & Hf2).
      erewrite (try_steps_cons_raise step2 [] _ handler st1 sleep_error);
        [|exact Ho2|reflexivity|unfold handler; rewrite run_log_bind; reflexivity].
      cbn [outcome now events]. rewrite List.filter_app, Hf2.
      unfold handler. rewrite run_log_bind. cbn [ret events List.filter].
      rewrite Hlog. reflexivity.
    + assert (Ho2 : outcome (step2 st1 (now run)) = Ret st1
                    /\ List.filter p (events (step2 st1 (now run)))
                       = List.filter p [EvSleep delay]).
      { unfold step2. rewrite ?Ei. cbv beta. rewrite run_log_bind.
        cbn [outcome now events]. unfold sleep. rewrite ?Ed.
        cbn [bind emit ret outcome now events app List.filter]. rewrite Hlog.
        split; reflexivity. }
      destruct Ho2 as (Ho2 & Hf2).
      rewrite (try_steps_cons_ret step2 [] _ handler st1 st1 _ Ho2).
      cbn [outcome now events try_steps ret]. rewrite List.filter_app, Hf2.
      apply app_nil_r.
  - assert (Ho2 : outcome (step2 st1 (now run)) = Ret st1
                  /\ List.filter p (events (step2 st1 (now run))) = []).
    { unfold step2. rewrite ?Ei. split; reflexivity. }
    destruct Ho2 as (Ho2 & Hf2).
    rewrite (try_steps_cons_ret step2 [] _ handler st1 st1 _ Ho2).
    cbn [outcome now events try_steps ret]. rewrite List.filter_app, Hf2.
    reflexivity.
Qed.

Lemma batch_scrape_filter symbols delay t :
  List.filter p (events (Main2.batch_scrape env symbols delay t))
  = List.filter p (events (Main2.batch_loop env delay (Z.of_nat (length symbols)) 1
                             symbols (∅, []) t)).
Proof.
  unfold Main2.batch_scrape.
  pose proof (batch_loop_never_raises env delay (Z.of_nat (length symbols)) symbols
                1 (∅, [])) as Hnr.
  revert Hnr.
  generalize (Main2.batch_loop env delay (Z.of_nat (length symbols)) 1 symbols (∅, []))
    as loop.
  intros loop Hnr. destruct (Hnr t) as [st Hst].
  rewrite run_log_bind. cbn [events]. cbn [List.filter]. rewrite Hlog.
  rewrite filter_bind, Hst, run_log_bind. cbn [events]. cbn [List.filter].
  rewrite Hlog, filter_bind.
  destruct (snd st) as [|f fs];
    cbn [ret log emit outcome now events List.filter app];
    rewrite ?Hlog; apply app_nil_r.
Qed.

End Decompose.

Lemma slept_rate_limit {A} delay name (func : M A) t :
  (0 <= delay)%Z ->
  slept (events (Main2.rate_limit delay name func t))
  = delay :: slept (events (func t)).
Proof.
  intros Hd. unfold Main2.rate_limit. rewrite run_log_bind. cbn [events].
  change (slept (?e :: ?l)) with (slept [e] ++ slept l)%list.
  cbn [slept flat_map app]. rewrite slept_bind. unfold sleep.
  replace (delay <? 0)%Z with false by (symmetry; apply Z.ltb_ge; lia).
  reflexivity.
Qed.

Section Budget.
Variable env : Env.

Lemma safe_request_no_chrome url params max_retries timeout :
  emits_only (fun e => is_chrome_attempt e = false)
             (Main2.safe_request env url params max_retries timeout).
Proof.
  unfold Main2.safe_request. generalize (py_range max_retries) as attempts.
  induction attempts as [|attempt rest IH]; cbn [Main2.safe_request_loop];
    [apply eo_ret|].
  apply eo_bind.
  - unfold Main2.safe_request_attempt, Main2.raise_for_status. eo.
  - intros [r|]; [apply eo_ret | exact IH].
Qed.

Lemma get_safe_driver_no_http headless max_retries :
  emits_only (fun e => is_http_get e = false)
             (Main2.get_safe_driver env headless max_retries).
Proof.
  unfold Main2.get_safe_driver. generalize (py_range max_retries) as attempts.
  induction attempts as [|attempt rest IH]; cbn [Main2.get_safe_driver_loop];
    [apply eo_ret|].
  apply eo_bind.
  - unfold Main2.get_safe_driver_attempt. eo.
  - intros [r|]; [apply eo_ret | exact IH].
Qed.

Lemma render_factsheet_no_http symbol url :
  emits_only (fun e => is_http_get e = false)
             (Main2.render_factsheet env symbol url).
Proof.
  unfold Main2.render_factsheet, Main2.reload_if_incomplete,
    Main2.read_factsheet, Main2.looks_incomplete, Main2.page_source.
  eo.
Qed.

Lemma factsheet_no_http symbol t :
  List.filter is_http_get (events (Main2.fetch_factsheet_selenium env symbol t)) = [].
Proof.
  rewrite fetch_filter by reflexivity.
  rewrite (filter_none _ _ (get_safe_driver_no_http true 3 t)). cbn [app].
  destruct (outcome _) as [[d|]|e]; try reflexivity.
  apply (filter_none _ _ (render_factsheet_no_http _ _ _)).
Qed.

Lemma factsheet_chrome symbol t :
  List.filter is_chrome_attempt
    (events (Main2.fetch_factsheet_selenium env symbol t))
  = List.filter is_chrome_attempt (events (Main2.get_safe_driver env true 3 t)).
Proof.
  rewrite fetch_filter by reflexivity.
  destruct (outcome _) as [[d|]|e]; rewrite ?render_no_chrome; apply app_nil_r.
Qed.

Lemma get_safe_driver_tally t :
  1 <= tally is_chrome_attempt (Main2.get_safe_driver env true 3 t) <= 3.
Proof.
  unfold Main2.get_safe_driver, py_range.
  destruct (driver_loop_paced env true 3 (Z.to_nat 3) 0 t eq_refl)
    as (Hle & Hpos & _).
  cbv zeta in Hle, Hpos. change (Z.to_nat 3) with 3 in *. lia.
Qed.

Lemma safe_request_tally url params t :
  1 <= tally is_http_get (Main2.safe_request env url params 3 10 t) <= 3.
Proof.
  destruct (safe_request_paced env url params 3 10 t) as (Hle & Hpos & _).
  cbv zeta in Hle, Hpos. change (Z.to_nat 3) with 3 in *. lia.
Qed.

Lemma save_stock_data_tallies symbol t :
  let r := Main2.save_stock_data env symbol t in
  4 <= tally is_http_get r <= 12
  /\ 1 <= tally is_chrome_attempt r <= 3.
Proof.
  cbv zeta. unfold tally. split.
  - rewrite (save_filter env is_http_get)
      by (try reflexivity; intros []; auto; discriminate).
    rewrite factsheet_no_http, highlights_filter, rights_filter, statements_filter,
      prices_filter by reflexivity.
    cbn [List.filter is_http_get app]. rewrite !length_app.
    match goal with
    | |- _ <= length (List.filter _ (events ?a))
              + (length (List.filter _ (events ?b))
                 + (length (List.filter _ (events ?c))
                    + length (List.filter _ (events ?d)))) <= _ =>
        pose proof (safe_request_tally _ _ _ : 1 <= tally is_http_get a <= 3);
        pose proof (safe_request_tally _ _ _ : 1 <= tally is_http_get b <= 3);
        pose proof (safe_request_tally _ _ _ : 1 <= tally is_http_get c <= 3);
        pose proof (safe_request_tally _ _ _ : 1 <= tally is_http_get d <= 3)
    end.
    unfold tally in *. lia.
  - rewrite (save_filter env is_chrome_attempt)
      by (try reflexivity; intros []; auto; discriminate).
    rewrite factsheet_chrome, highlights_filter, rights_filter, statements_filter,
      prices_filter by reflexivity.
    cbn [List.filter is_chrome_attempt app].
    rewrite !(filter_none _ _ (safe_request_no_chrome _ _ _ _ _)), !app_nil_r.
    apply get_safe_driver_tally.
Qed.

(** X17: the load one symbol puts on the outside world is bounded in
    every world.  One call of [save_stock_data] of [main2.py] sends
    between 4 and 12 HTTP requests (four HTTP extractors, each between
    one and three attempts) and starts Chrome between one and three
    times, whatever fails. *)
Theorem save_stock_data_request_budget symbol t :
  let r := Main2.save_stock_data env symbol t in
  4 <= tally is_http_get r <= 12
  /\ 1 <= tally is_chrome_attempt r <= 3.
Proof. exact (save_stock_data_tallies symbol t). Qed.

(** The sleeps of an HTTP extractor: its rate-limit delay, then the
    back-off waits of its transport. *)
Lemma http_extractor_slept (r : Run pydict) (sr : Run (option Response)) :
  List.filter is_sleep (events r)
  = (List.filter is_sleep [EvSleep 1] ++ List.filter is_sleep (events sr))%list ->
  List.filter is_http_get (events r)
  = (List.filter is_http_get [EvSleep 1] ++ List.filter is_http_get (events sr))%list ->
  (let a := tally is_http_get sr in slept (events sr) = backoff 0 (a - 1)) ->
  slept (events r) = 1%Z :: retry_waits r.
Proof.
  intros Hs Hg Hp. cbv zeta in Hp.
  rewrite <- (slept_filter (events r)), Hs, slept_app, !slept_filter, Hp.
  unfold retry_waits, tally. rewrite Hg. reflexivity.
Qed.

(** X18: rate limiting cannot be skipped.  In every world the sleeps of
    one call of [save_stock_data] of [main2.py] are, extractor after
    extractor, the delay of the [rate_limit] decorator (2 seconds for the
    factsheet, 1 second for each of the four HTTP extractors) followed by
    the sleeps of the extractor itself, which for an HTTP extractor are
    the back-off waits between its requests.  Each of the five delays is
    there whatever the earlier extractors did, and there is no other
    sleep. *)
Theorem save_stock_data_rate_limited symbol t :
  let r1 := Main2.fetch_factsheet_selenium env symbol (S t) in
  let r2 := Main2.fetch_company_highlights env symbol (now r1) in
  let r3 := Main2.fetch_rights_benefits env symbol (now r2) in
  let r4 := Main2.fetch_financial_statements env symbol (now r3) in
  let r5 := Main2.fetch_historical_prices env symbol 60 (now r4) in
  slept (events (Main2.save_stock_data env symbol t))
  = ((2 :: slept (events (Main2.fetch_factsheet_selenium_body env symbol (S t))))
     ++ (1 :: retry_waits r2) ++ (1 :: retry_waits r3)
     ++ (1 :: retry_waits r4) ++ (1 :: retry_waits r5))%list%Z
  /\ sublist rate_limits (slept (events (Main2.save_stock_data env symbol t))).
Proof.
  intros r1 r2 r3 r4 r5.
  assert (H1 : slept (events r1)
               = (2 :: slept (events (Main2.fetch_factsheet_selenium_body env symbol
                                        (S t))))%Z).
  { apply slept_rate_limit. lia. }
  assert (H2 : slept (events r2) = (1 :: retry_waits r2)%Z).
  { eapply http_extractor_slept;
      [apply highlights_filter | apply highlights_filter
       | apply safe_request_paced]; reflexivity. }
  assert (H3 : slept (events r3) = (1 :: retry_waits r3)%Z).
  { eapply http_extractor_slept;
      [apply rights_filter | apply rights_filter
       | apply safe_request_paced]; reflexivity. }
  assert (H4 : slept (events r4) = (1 :: retry_waits r4)%Z).
  { eapply http_extractor_slept;
      [apply statements_filter | apply statements_filter
       | apply safe_request_paced]; reflexivity. }
  assert (H5 : slept (events r5) = (1 :: retry_waits r5)%Z).
  { eapply http_extractor_slept;
      [apply prices_filter | apply prices_filter
       | apply safe_request_paced]; reflexivity. }
  assert (E : slept (events (Main2.save_stock_data env symbol t))
              = (slept (events r1) ++ slept (events r2) ++ slept (events r3)
                 ++ slept (events r4) ++ slept (events r5))%list).
  { rewrite <- slept_filter.
    rewrite (save_filter env is_sleep)
      by (try reflexivity; intros []; auto; discriminate).
    rewrite !slept_app, !slept_filter. reflexivity. }
  rewrite E, H1, H2, H3, H4, H5. split; [reflexivity|].
  unfold rate_limits.
  change [2; 1; 1; 1; 1]%Z with ([2] ++ [1] ++ [1] ++ [1] ++ [1])%list%Z.
  repeat (apply sublist_app; [apply sublist_skip, sublist_nil_l|]).
  apply sublist_skip, sublist_nil_l.
Qed.

Lemma batch_loop_tally (p : Event -> bool) lo hi delay n symbols :
  (forall l msg, p (EvLog l msg) = false) ->
  (forall secs, p (EvSleep secs) = false) ->
  (forall s t, lo <= tally p (Main2.save_stock_data env s t) <= hi) ->
  forall i (st : gmap string pydict * list string) t,
    lo * length symbols
    <= tally p (Main2.batch_loop env delay n i symbols st t)
    <= hi * length symbols.
Proof.
  intros Hlog Hsleep Hsave.
  induction symbols as [|s rest IH]; intros i st t; cbn [Main2.batch_loop length].
  - unfold tally. cbn. lia.
  - rewrite tally_bind.
    destruct (batch_step_never_raises env delay n i s st t) as [st' Hst].
    rewrite Hst.
    assert (Hstep : tally p (Main2.batch_step env delay n i s st t)
                    = tally p (Main2.save_stock_data env s t)).
    { unfold tally. rewrite (batch_step_filter env p Hlog).
      destruct (_ && _); cbn [List.filter]; rewrite ?Hsleep, app_nil_r; reflexivity. }
    rewrite Hstep.
    specialize (Hsave s t).
    specialize (IH (i + 1)%Z st' (now (Main2.batch_step env delay n i s st t))).
    lia.
Qed.

(** X19: the load of a batch grows linearly.  For [n] symbols,
    [batch_scrape] sends between [4 n] and [12 n] HTTP requests and
    starts Chrome between [n] and [3 n] times, in every world and for
    every delay. *)
Theorem batch_scrape_request_budget symbols delay t :
  let r := Main2.batch_scrape env symbols delay t in
  let n := length symbols in
  4 * n <= tally is_http_get r <= 12 * n
  /\ n <= tally is_chrome_attempt r <= 3 * n.
Proof.
  cbv zeta. unfold tally at 1 2 3 4.
  rewrite !batch_scrape_filter by reflexivity.
  split.
  - apply (batch_loop_tally is_http_get 4 12); try reflexivity.
    intros s t'. apply save_stock_data_tallies.
  - replace (length symbols) with (1 * length symbols) at 1 by lia.
    apply (batch_loop_tally is_chrome_attempt 1 3); try reflexivity.
    intros s t'. apply save_stock_data_tallies.
Qed.

Lemma batch_loop_slept delay n symbols :
  (0 <= delay)%Z ->
  forall i (st : gmap string pydict * list string) t,
    (i + Z.of_nat (length symbols) = n + 1)%Z ->
    slept (events (Main2.batch_loop env delay n i symbols st t))
    = batch_sleeps env delay symbols t.
Proof.
  intros Hd.
  induction symbols as [|s rest IH]; intros i st t Hi;
    cbn [Main2.batch_loop batch_sleeps length]; [reflexivity|].
  cbv zeta. rewrite slept_bind.
  destruct (batch_step_turn env delay n i s st t) as (Ho & Hn & _).
  cbv zeta in Ho, Hn. rewrite Ho, Hn.
  rewrite <- (slept_filter (events (Main2.batch_step env delay n i s st t))).
  rewrite (batch_step_filter env is_sleep) by reflexivity.
  rewrite slept_app, slept_filter, <- app_assoc. f_equal.
  cbn [length] in Hi.
  rewrite IH by lia. f_equal.
  replace (delay <? 0)%Z with false by (symmetry; apply Z.ltb_ge; lia).
  cbn [negb]. rewrite andb_true_r.
  destruct rest as [|s' rest'].
  - replace (i <? n)%Z with false by (symmetry; apply Z.ltb_ge; cbn [length] in Hi; lia).
    reflexivity.
  - replace (i <? n)%Z with true by (symmetry; apply Z.ltb_lt; cbn [length] in Hi; lia).
    reflexivity.
Qed.

(** X20: pacing of a batch.  For a delay [time.sleep] accepts, the
    sleeps of [batch_scrape] are, symbol after symbol, the sleeps of
    [save_stock_data] for the symbol followed by one sleep of [delay]
    when another symbol follows: one pacing sleep between two
    consecutive symbols, none after the last, and no other sleep. *)
Theorem batch_scrape_pacing symbols delay t :
  (0 <= delay)%Z ->
  slept (events (Main2.batch_scrape env symbols delay t))
  = batch_sleeps env delay symbols t.
Proof.
  intros Hd.
  rewrite <- slept_filter, batch_scrape_filter, slept_filter by reflexivity.
  apply batch_loop_slept; [exact Hd | lia].
Qed.

End Budget.

Lemma batch_scrape_pacing_witness :
  slept (events (Main2.batch_scrape Worlds.offline ["AOT"; "PTT"] 3 0))
  = batch_sleeps Worlds.offline 3 ["AOT"; "PTT"] 0.
Proof. apply batch_scrape_pacing. lia. Defined.

(** * The debug dump of the rendered factsheet *)

Section DebugDump.
Variable env : Env.

Lemma get_safe_driver_no_file headless max_retries :
  emits_only no_file (Main2.get_safe_driver env headless max_retries).
Proof.
  unfold Main2.get_safe_driver. generalize (py_range max_retries) as attempts.
  induction attempts as [|attempt rest IH]; cbn [Main2.get_safe_driver_loop];
    [apply eo_ret|].
  apply eo_bind.
  - unfold Main2.get_safe_driver_attempt. eo.
  - intros [r|]; [apply eo_ret | exact IH].
Qed.

Lemma reload_no_file symbol :
  emits_only no_file (Main2.reload_if_incomplete env symbol).
Proof.
  unfold Main2.reload_if_incomplete, Main2.looks_incomplete, Main2.page_source. eo.
Qed.

Lemma fetch_factsheet_outcome symbol t :
  let session := Main2.get_safe_driver env true 3 t in
  outcome (Main2.fetch_factsheet_selenium env symbol t)
  = Ret (match outcome session with
         | Ret (Some _) =>
             match outcome (Main2.render_factsheet env symbol
                              (Main2.quote_url symbol "/factsheet") (now session)) with
             | Ret d => d
             | Raise e => Main2.failed_record symbol (exn_str e) []
             end
         | Ret None => Main2.failed_record symbol "Failed to create driver" []
         | Raise e => Main2.failed_record symbol (exn_str e) []
         end).
Proof.
  cbv zeta. unfold Main2.fetch_factsheet_selenium.
  rewrite outcome_rate_limit by lia.
  unfold Main2.fetch_factsheet_selenium_body.
  generalize (Main2.render_factsheet env symbol (Main2.quote_url symbol "/factsheet"))
    as render.
  generalize (Main2.get_safe_driver env true 3) as gsd.
  intros gsd render.
  rewrite outcome_bind, !outcome_try_except, !now_try_except, !outcome_bind, !now_bind.
  destruct (outcome (gsd t)) as [[[]|]|e].
  - cbn [ret outcome now]. rewrite outcome_try_finally.
    match goal with
    | |- context [outcome (Main2.quit_driver env ?x)] =>
        destruct (quit_driver_never_raises env x) as [u Hu]
    end.
    rewrite Hu, outcome_try_except.
    destruct (outcome (render (now (gsd t)))); reflexivity.
  - reflexivity.
  - cbn [is_Exception]. rewrite outcome_bind, run_log_bind. reflexivity.
Qed.

Lemma read_factsheet_files symbol t d :
  outcome (Main2.read_factsheet env symbol t) = Ret d ->
  List.filter is_file_event (events (Main2.read_factsheet env symbol t))
  = [EvOpen (debug_path symbol); EvWrite (debug_path symbol)]
  /\ has_error d = false.
Proof.
  unfold Main2.read_factsheet, Main2.page_source.
  fold (debug_path symbol).
  rewrite outcome_bind, filter_bind.
  cbn [ask outcome now events List.filter is_file_event app].
  destruct (driver_page_source env t) as [src|e]; [|discriminate].
  rewrite outcome_bind, filter_bind.
  cbn [ask outcome now events List.filter is_file_event app].
  destruct (driver_page_source env (S t)) as [src1|e]; [|discriminate].
  rewrite run_log_bind. cbn [outcome now events List.filter is_file_event].
  rewrite outcome_bind, filter_bind.
  cbn [Z.leb Z.compare Main2.logger_level Main2.logging_DEBUG].
  rewrite outcome_bind, filter_bind.
  cbn [ask outcome now events List.filter is_file_event app].
  destruct (file_open env (S (S t)) (debug_path symbol)) as [u|e]; [|discriminate].
  rewrite outcome_bind, filter_bind.
  cbn [ask outcome now events List.filter is_file_event app].
  destruct (driver_page_source env (S (S (S t)))) as [src2|e]; [|discriminate].
  cbn [ask outcome now events List.filter is_file_event app].
  destruct (file_write env (S (S (S (S t)))) (debug_path symbol)) as [u2|e];
    [|discriminate].
  rewrite run_log_bind. cbn [ret outcome now events List.filter is_file_event app].
  intros E. injection E as <-. split; reflexivity.
Qed.

Lemma render_factsheet_files symbol url t d :
  outcome (Main2.render_factsheet env symbol url t) = Ret d ->
  List.filter is_file_event (events (Main2.render_factsheet env symbol url t))
  = [EvOpen (debug_path symbol); EvWrite (debug_path symbol)]
  /\ has_error d = false.
Proof.
  unfold Main2.render_factsheet.
  pose proof (reload_no_file symbol) as Hrl.
  pose proof (read_factsheet_files symbol) as Hrd.
  revert Hrl Hrd.
  generalize (Main2.read_factsheet env symbol) as rd.
  generalize (Main2.reload_if_incomplete env symbol) as rl.
  intros rl rd Hrl Hrd.
  rewrite run_log_bind. cbn [outcome now events List.filter is_file_event].
  rewrite outcome_bind, filter_bind.
  cbn [ask outcome now events List.filter is_file_event app].
  destruct (driver_get env t url) as [u|e]; [|discriminate].
  rewrite outcome_bind, filter_bind. change (sleep 5) with (emit (EvSleep 5)).
  cbn [emit outcome now events List.filter is_file_event app].
  rewrite outcome_bind, filter_bind, (filter_none _ _ (Hrl _)).
  destruct (outcome (rl (S t))) as [u1|e]; [|discriminate].
  cbn [app]. apply Hrd.
Qed.

(** X21: every successful factsheet fetch of [main2.py] leaves a debug
    file.  The logger of the module has no level of its own, so the test
    [logger.level <= logging.DEBUG] always holds: whenever
    [fetch_factsheet_selenium] returns a record without an error marker,
    the file events of the call are exactly opening
    debug_<symbol>_factsheet.html and writing it. *)
Theorem factsheet_success_writes_debug_dump symbol t d :
  outcome (Main2.fetch_factsheet_selenium env symbol t) = Ret d ->
  has_error d = false ->
  List.filter is_file_event (events (Main2.fetch_factsheet_selenium env symbol t))
  = [EvOpen (debug_path symbol); EvWrite (debug_path symbol)].
Proof.
  rewrite fetch_factsheet_outcome, fetch_filter by reflexivity.
  rewrite (filter_none _ _ (get_safe_driver_no_file true 3 t)). cbn [app].
  destruct (outcome (Main2.get_safe_driver env true 3 t)) as [[drv|]|e].
  - destruct (outcome (Main2.render_factsheet env symbol _ _)) as [d'|e] eqn:Er.
    + intros _ _. apply (render_factsheet_files _ _ _ _ Er).
    + intros E. injection E as <-. discriminate.
  - intros E. injection E as <-. discriminate.
  - intros E. injection E as <-. discriminate.
Qed.

End DebugDump.

Lemma factsheet_success_writes_debug_dump_witness :
  List.filter is_file_event
    (events (Main2.fetch_factsheet_selenium (Worlds.healthy "") "AOT" 0))
  = [EvOpen "debug_AOT_factsheet.html"; EvWrite "debug_AOT_factsheet.html"].
Proof.
  eapply (factsheet_success_writes_debug_dump (Worlds.healthy "") "AOT" 0);
    reflexivity.
Defined.

(** * Statement links: what the filter keeps *)

Section LinkFacts.
Import PyStr Re Statements.

Lemma letter_cases c :
  (Ascii.eqb (lower_char ".") (lower_char c) = true -> c = "."%char)
  /\ (Ascii.eqb (lower_char "p") (lower_char c) = true -> c = "p"%char \/ c = "P"%char)
  /\ (Ascii.eqb (lower_char "d") (lower_char c) = true -> c = "d"%char \/ c = "D"%char)
  /\ (Ascii.eqb (lower_char "f") (lower_char c) = true -> c = "f"%char \/ c = "F"%char)
  /\ (Ascii.eqb (lower_char "x") (lower_char c) = true -> c = "x"%char \/ c = "X"%char)
  /\ (Ascii.eqb (lower_char "l") (lower_char c) = true -> c = "l"%char \/ c = "L"%char)
  /\ (Ascii.eqb (lower_char "s") (lower_char c) = true -> c = "s"%char \/ c = "S"%char).
Proof.
  destruct c as [[] [] [] [] [] [] [] []]; vm_compute;
    repeat split; intros H; try discriminate H; auto.
Qed.

Lemma at_end_cases s x : at_end s = Some x -> s = "" \/ s = newline.
Proof.
  unfold at_end. cbn [exec]. fold newline.
  destruct (String.eqb s "") eqn:E1; [apply String.eqb_eq in E1; auto|].
  destruct (String.eqb s newline) eqn:E2; [apply String.eqb_eq in E2; auto|].
  discriminate.
Qed.

Lemma suffix_append tail s : suffix_of tail s -> exists pre, s = pre +:+ tail.
Proof.
  induction 1 as [s|c s tail Hs [pre IH]].
  - exists "". reflexivity.
  - exists (String c pre).
    change (String c s = String c (pre +:+ tail)). rewrite IH. reflexivity.
Qed.

Lemma append_assoc (a b c : string) : (a +:+ b) +:+ c = a +:+ (b +:+ c).
Proof.
  induction a as [|x a IH]; [reflexivity|].
  change (String x ((a +:+ b) +:+ c) = String x (a +:+ (b +:+ c))).
  rewrite IH. reflexivity.
Qed.

Lemma split_not_nil sep s : split sep s <> [].
Proof.
  destruct s as [|c t]; cbn [split]; [discriminate|].
  destruct (Ascii.eqb c sep); [discriminate|].
  destruct (split sep t); discriminate.
Qed.

Lemma split_two sep pre w : (2 <= length (split sep (pre +:+ String sep w)))%nat.
Proof.
  induction pre as [|c pre IH]; cbn [String.append split].
  - change ("" +:+ String sep w) with (String sep w). cbn [split].
    rewrite Ascii.eqb_refl. cbn [length].
    pose proof (split_not_nil sep w). destruct (split sep w); [congruence|cbn; lia].
  - change (String c pre +:+ String sep w) with (String c (pre +:+ String sep w)).
    cbn [split]. destruct (Ascii.eqb c sep); [cbn [length]; lia|].
    destruct (split sep (pre +:+ String sep w)) as [|h r]; cbn [length] in *; lia.
Qed.

(** What follows the last separator does not depend on what precedes
    it. *)
Lemma split_last_append sep pre w :
  split_last sep (pre +:+ String sep w) = split_last sep w.
Proof.
  unfold split_last.
  induction pre as [|c pre IH].
  - change ("" +:+ String sep w) with (String sep w). cbn [split].
    rewrite Ascii.eqb_refl.
    pose proof (split_not_nil sep w). destruct (split sep w); [congruence|reflexivity].
  - change (String c pre +:+ String sep w) with (String c (pre +:+ String sep w)).
    cbn [split]. pose proof (split_two sep pre w) as H2.
    destruct (Ascii.eqb c sep).
    + destruct (split sep (pre +:+ String sep w)) as [|h r] eqn:E;
        [cbn in H2; lia|]. rewrite <- IH. reflexivity.
    + destruct (split sep (pre +:+ String sep w)) as [|h [|h' r]] eqn:E;
        try (cbn in H2; lia). rewrite <- IH. reflexivity.
Qed.

Lemma exec_pdf t x :
  exec true (lits "pdf") t at_end = Some x ->
  exists e nl, t = e +:+ nl /\ upper e = "PDF"
               /\ split_last "." (String "." (e +:+ nl)) = e +:+ nl
               /\ (nl = "" \/ nl = newline).
Proof.
  cbn [exec lits].
  destruct t as [|c1 t]; [discriminate|].
  destruct (Ascii.eqb (lower_char "p") (lower_char c1)) eqn:E1; [|discriminate].
  destruct t as [|c2 t]; [discriminate|].
  destruct (Ascii.eqb (lower_char "d") (lower_char c2)) eqn:E2; [|discriminate].
  destruct t as [|c3 t]; [discriminate|].
  destruct (Ascii.eqb (lower_char "f") (lower_char c3)) eqn:E3; [|discriminate].
  intros H. apply at_end_cases in H.
  apply (letter_cases c1) in E1. apply (letter_cases c2) in E2.
  apply (letter_cases c3) in E3.
  exists (String c1 (String c2 (String c3 ""))), t.
  split; [reflexivity|].
  destruct E1 as [-> | ->], E2 as [-> | ->], E3 as [-> | ->], H as [-> | ->];
    repeat split; auto.
Qed.

Lemma exec_xls t x :
  exec true (lits "xls") t at_end = Some x ->
  exists e nl, t = e +:+ nl /\ upper e = "XLS"
               /\ split_last "." (String "." (e +:+ nl)) = e +:+ nl
               /\ (nl = "" \/ nl = newline).
Proof.
  cbn [exec lits].
  destruct t as [|c1 t]; [discriminate|].
  destruct (Ascii.eqb (lower_char "x") (lower_char c1)) eqn:E1; [|discriminate].
  destruct t as [|c2 t]; [discriminate|].
  destruct (Ascii.eqb (lower_char "l") (lower_char c2)) eqn:E2; [|discriminate].
  destruct t as [|c3 t]; [discriminate|].
  destruct (Ascii.eqb (lower_char "s") (lower_char c3)) eqn:E3; [|discriminate].
  intros H. apply at_end_cases in H.
  apply (letter_cases c1) in E1. apply (letter_cases c2) in E2.
  apply (letter_cases c3) in E3.
  exists (String c1 (String c2 (String c3 ""))), t.
  split; [reflexivity|].
  destruct E1 as [-> | ->], E2 as [-> | ->], E3 as [-> | ->], H as [-> | ->];
    repeat split; auto.
Qed.

Lemma exec_xlsx t x :
  exec true (lits "xlsx") t at_end = Some x ->
  exists e nl, t = e +:+ nl /\ upper e = "XLSX"
               /\ split_last "." (String "." (e +:+ nl)) = e +:+ nl
               /\ (nl = "" \/ nl = newline).
Proof.
  cbn [exec lits].
  destruct t as [|c1 t]; [discriminate|].
  destruct (Ascii.eqb (lower_char "x") (lower_char c1)) eqn:E1; [|discriminate].
  destruct t as [|c2 t]; [discriminate|].
  destruct (Ascii.eqb (lower_char "l") (lower_char c2)) eqn:E2; [|discriminate].
  destruct t as [|c3 t]; [discriminate|].
  destruct (Ascii.eqb (lower_char "s") (lower_char c3)) eqn:E3; [|discriminate].
  destruct t as [|c4 t]; [discriminate|].
  destruct (Ascii.eqb (lower_char "x") (lower_char c4)) eqn:E4; [|discriminate].
  intros H. apply at_end_cases in H.
  apply (letter_cases c1) in E1. apply (letter_cases c2) in E2.
  apply (letter_cases c3) in E3. apply (letter_cases c4) in E4.
  exists (String c1 (String c2 (String c3 (String c4 "")))), t.
  split; [reflexivity|].
  destruct E1 as [-> | ->], E2 as [-> | ->], E3 as [-> | ->], E4 as [-> | ->],
    H as [-> | ->]; repeat split; auto.
Qed.

Lemma extension_exec tail :
  exec true extension_re tail Some
  = match tail with
    | String d t =>
        if Ascii.eqb (lower_char ".") (lower_char d) then
          match exec true (lits "pdf") t at_end with
          | Some x => Some x
          | None =>
              match exec true (lits "xls") t at_end with
              | Some x => Some x
              | None => exec true (lits "xlsx") t at_end
              end
          end
        else None
    | EmptyString => None
    end.
Proof. destruct tail; reflexivity. Qed.

(** What the extension pattern matches at the head of a text: a dot, one
    of the three extensions in any case, and the end of the text or a
    final newline. *)
Lemma extension_match tail m :
  match_here true extension_re tail = Some m ->
  exists e nl, tail = String "." (e +:+ nl)
               /\ In (upper e) ["PDF"; "XLS"; "XLSX"]
               /\ split_last "." (String "." (e +:+ nl)) = e +:+ nl
               /\ (nl = "" \/ nl = newline).
Proof.
  unfold match_here.
  destruct (exec true extension_re tail Some) as [rest|] eqn:E; [|discriminate].
  intros _. revert E. rewrite extension_exec.
  destruct tail as [|c0 t]; [discriminate|].
  destruct (Ascii.eqb (lower_char ".") (lower_char c0)) eqn:E0; [|discriminate].
  apply (proj1 (letter_cases c0)) in E0. subst c0.
  destruct (exec true (lits "pdf") t at_end) as [y|] eqn:Ea.
  - intros _. destruct (exec_pdf _ _ Ea) as (e & nl & -> & Hu & Hs & Hn).
    exists e, nl. rewrite Hu. cbn [In]. auto 6.
  - destruct (exec true (lits "xls") t at_end) as [y|] eqn:Eb.
    + intros _. destruct (exec_xls _ _ Eb) as (e & nl & -> & Hu & Hs & Hn).
      exists e, nl. rewrite Hu. cbn [In]. auto 6.
    + intros Ec. destruct (exec_xlsx _ _ Ec) as (e & nl & -> & Hu & Hs & Hn).
      exists e, nl. rewrite Hu. cbn [In]. auto 7.
Qed.

Lemma upper_append_newline e nl :
  nl = "" \/ nl = newline -> upper (e +:+ nl) = upper e +:+ nl.
Proof.
  intros Hn. unfold upper.
  induction e as [|c e IH].
  - destruct Hn as [-> | ->]; reflexivity.
  - change (String c e +:+ nl) with (String c (e +:+ nl)).
    cbn [map_chars]. rewrite IH. reflexivity.
Qed.

Lemma suffix_of_append pre tail : suffix_of tail (pre +:+ tail).
Proof.
  induction pre as [|c pre IH]; [constructor|].
  change (String c pre +:+ tail) with (String c (pre +:+ tail)).
  constructor. exact IH.
Qed.

(** A match at some position makes the search succeed. *)
Lemma search_found icase r s tail :
  suffix_of tail s -> match_here icase r tail <> None -> search icase r s <> None.
Proof.
  induction 1 as [s|c s tail Hs IH]; intros Hm.
  - destruct s; cbn [search]; destruct (match_here icase r _); congruence.
  - cbn [search]. destruct (match_here icase r (String c s)); [discriminate|].
    apply IH, Hm.
Qed.

Lemma upper_char_cases c :
  (upper_char c = "P"%char -> c = "p"%char \/ c = "P"%char)
  /\ (upper_char c = "D"%char -> c = "d"%char \/ c = "D"%char)
  /\ (upper_char c = "F"%char -> c = "f"%char \/ c = "F"%char)
  /\ (upper_char c = "X"%char -> c = "x"%char \/ c = "X"%char)
  /\ (upper_char c = "L"%char -> c = "l"%char \/ c = "L"%char)
  /\ (upper_char c = "S"%char -> c = "s"%char \/ c = "S"%char).
Proof.
  destruct c as [[] [] [] [] [] [] [] []]; vm_compute;
    repeat split; intros H; try discriminate H; auto.
Qed.

(** An extension of a statement file, followed by nothing or by a
    newline: it has no dot, and the extension pattern matches it behind a
    dot. *)
Lemma statement_ext_facts ext nl :
  In (upper ext) statement_types -> nl = "" \/ nl = newline ->
  split_last "." (ext +:+ nl) = ext +:+ nl
  /\ match_here true extension_re (String "." (ext +:+ nl)) <> None.
Proof.
  intros He Hn. unfold statement_types in He. cbn [In] in He.
  destruct He as [He|[He|[He|[]]]]; symmetry in He;
    destruct ext as [|c1 [|c2 [|c3 [|c4 [|c5 e]]]]]; try discriminate He;
    cbn [upper map_chars] in He; injection He as E1 E2 E3 E4 || injection He as E1 E2 E3;
    apply (upper_char_cases c1) in E1; apply (upper_char_cases c2) in E2;
    apply (upper_char_cases c3) in E3;
    try apply (upper_char_cases c4) in E4;
    destruct Hn as [-> | ->];
    destruct E1 as [-> | ->], E2 as [-> | ->], E3 as [-> | ->];
    try destruct E4 as [-> | ->];
    (split; [reflexivity | vm_compute; discriminate]).
Qed.

(** X22: what the link filter of both versions of
    [fetch_financial_statements] lets through.  A link gives no entry or
    one, and the one it can give is the entry of its url: the href itself
    when that starts with "http", otherwise the href behind
    "https://www.set.or.th", so the url always starts with "http".  The
    link gives this entry exactly when the href ends with a dot and pdf,
    xls or xlsx in any case, followed by nothing or by one newline (the
    pattern's [$] accepts a final newline), and the lower-cased href
    contains the lower-cased symbol.  The type of the entry is then the
    extension in upper case, followed by the newline when the href ends
    with one. *)
Theorem link_entries_shape symbol href :
  let url := if startswith "http" href then href else set_or_th +:+ href in
  let ends_with ext nl :=
    (exists stem, href = stem +:+ "." +:+ ext +:+ nl)
    /\ In (upper ext) statement_types /\ (nl = "" \/ nl = newline) in
  (* one entry at most, and only that of the url *)
  (link_entries symbol href = []
   \/ link_entries symbol href = [VDict (file_entry url)])
  (* when the link gives it *)
  /\ (link_entries symbol href = [VDict (file_entry url)]
      <-> (exists ext nl, ends_with ext nl)
          /\ contains (lower symbol) (lower href) = true)
  /\ startswith "http" url = true
  (* the type: the extension, and the newline if there is one *)
  /\ (forall ext nl, ends_with ext nl ->
        type_of url = upper ext +:+ nl
        /\ Dict.get "type" (file_entry url) = Some (VStr (upper ext +:+ nl))).
Proof.
  intros url ends_with.
  assert (Hhttp : startswith "http" url = true).
  { unfold url. destruct (startswith "http" href) eqn:E; [exact E | reflexivity]. }
  assert (Hshape : link_entries symbol href
                   = match search true extension_re href with
                     | Some _ =>
                         if contains (lower symbol) (lower href)
                         then [VDict (file_entry url)] else []
                     | None => []
                     end) by reflexivity.
  assert (Hfound : forall ext nl, ends_with ext nl ->
                     search true extension_re href <> None).
  { intros ext nl ([stem ->] & He & Hn).
    destruct (statement_ext_facts ext nl He Hn) as [_ Hm].
    eapply search_found; [|exact Hm].
    change (stem +:+ "." +:+ ext +:+ nl) with (stem +:+ String "." (ext +:+ nl)).
    apply suffix_of_append. }
  split; [|split; [|split; [exact Hhttp|]]].
  - rewrite Hshape. destruct (search true extension_re href); [|auto].
    destruct (contains (lower symbol) (lower href)); auto.
  - rewrite Hshape. split.
    + destruct (search true extension_re href) as [m|] eqn:Es; [|discriminate].
      destruct (contains (lower symbol) (lower href)); [|discriminate].
      intros _. split; [|reflexivity].
      destruct (search_some _ _ _ _ Es) as (tail & Hsuf & Hm).
      destruct (extension_match _ _ Hm) as (e & nl & -> & He & _ & Hn).
      destruct (suffix_append _ _ Hsuf) as [pre Hpre].
      exists e, nl. split; [|split; assumption]. exists pre. exact Hpre.
    + intros [(ext & nl & Hends) Hc]. pose proof (Hfound ext nl Hends) as Hs.
      destruct (search true extension_re href); [|congruence].
      rewrite Hc. reflexivity.
  - intros ext nl ([stem Hhref] & He & Hn).
    destruct (statement_ext_facts ext nl He Hn) as [Hsplit _].
    assert (Htype : type_of url = upper ext +:+ nl).
    { unfold type_of, url.
      assert (Hany : forall before,
                 split_last "." (before +:+ href) = ext +:+ nl).
      { intros before. rewrite Hhref.
        change (stem +:+ "." +:+ ext +:+ nl) with (stem +:+ String "." (ext +:+ nl)).
        rewrite <- append_assoc, split_last_append. exact Hsplit. }
      destruct (startswith "http" href).
      - pose proof (Hany "") as H0. change ("" +:+ href) with href in H0.
        rewrite H0. apply upper_append_newline, Hn.
      - rewrite Hany. apply upper_append_newline, Hn. }
    split; [exact Htype|]. unfold file_entry. cbn [Dict.get String.eqb Ascii.eqb Bool.eqb].
    rewrite Htype. reflexivity.
Qed.

End LinkFacts.

(** * Statement file metadata: what is read off the name *)

Section NameFacts.
Import PyStr Re Statements.

Lemma append_nil_inv (a b : string) : a +:+ b = "" -> a = "" /\ b = "".
Proof.
  destruct a as [|c a]; [intros H; split; [reflexivity | exact H]|].
  change (String c a +:+ b) with (String c (a +:+ b)). discriminate.
Qed.

(** The search returns the match at the leftmost position that has
    one. *)
Lemma search_first icase r s m :
  search icase r s = Some m ->
  exists before tail,
    s = before +:+ tail /\ match_here icase r tail = Some m
    /\ forall skipped rest,
         before = skipped +:+ rest -> rest <> "" ->
         match_here icase r (rest +:+ tail) = None.
Proof.
  induction s as [|c s IH]; cbn [search].
  - destruct (match_here icase r "") eqn:E; [|discriminate].
    intros [= ->]. exists "", "". split; [reflexivity|]. split; [exact E|].
    intros skipped rest H Hne. symmetry in H. apply append_nil_inv in H as [_ H].
    contradiction.
  - destruct (match_here icase r (String c s)) eqn:E.
    + intros [= ->]. exists "", (String c s). split; [reflexivity|].
      split; [exact E|].
      intros skipped rest H Hne. symmetry in H. apply append_nil_inv in H as [_ H].
      contradiction.
    + intros H. destruct (IH H) as (before & tail & -> & Hm & Hfirst).
      exists (String c before), tail. split; [reflexivity|]. split; [exact Hm|].
      intros [|c' skipped] rest Hb Hne.
      * change ("" +:+ rest) with rest in Hb. subst rest.
        change (String c before +:+ tail) with (String c (before +:+ tail)).
        exact E.
      * change (String c' skipped +:+ rest) with (String c' (skipped +:+ rest)) in Hb.
        injection Hb as _ Hb. apply (Hfirst skipped rest Hb Hne).
Qed.

Lemma match_here_split icase r tail m :
  match_here icase r tail = Some m ->
  exists rest, exec icase r tail Some = Some rest
               /\ m = take (String.length tail - String.length rest) tail.
Proof.
  unfold match_here. destruct (exec icase r tail Some) as [rest|]; [|discriminate].
  intros [= <-]. exists rest. auto.
Qed.

Lemma period_exec_complete p x :
  period_token p -> exec false period_re (p +:+ x) Some <> None.
Proof.
  unfold period_token. cbn [In].
  intros [<-|[<-|[<-|[<-|[<-|[<-|[]]]]]]];
    [vm_compute; discriminate | vm_compute; discriminate
     | vm_compute; discriminate | vm_compute; discriminate
     | apply (period_exec_yearly x)
     | apply (period_exec_yearly ("early" +:+ x))].
Qed.

Lemma length_append_cancel (p q rest : string) :
  p +:+ rest = q +:+ rest -> String.length p = String.length q.
Proof.
  intros H. apply (f_equal String.length) in H.
  rewrite !length_append_string in H. lia.
Qed.

(** The period pattern is greedy: what it matches is the longest marker
    at that position. *)
Lemma period_longest tail rest p :
  exec false period_re tail Some = Some rest ->
  period_token p -> tail = p +:+ rest ->
  longest_token period_token p tail.
Proof.
  intros He Hp -> m' Hm' Hpre.
  destruct (Nat.le_gt_cases (String.length m') (String.length p)) as [Hle|Hgt];
    [exact Hle|exfalso].
  unfold period_token in Hp, Hm'. cbn [In] in Hp, Hm'.
  destruct Hp as [<-|[<-|[<-|[<-|[<-|[<-|[]]]]]]];
    destruct Hm' as [<-|[<-|[<-|[<-|[<-|[<-|[]]]]]]];
    cbn [String.length] in Hgt; try lia;
    try (vm_compute in Hpre; discriminate Hpre).
  apply prefix_inv in Hpre as [x Hx].
  assert (Hy : exec false period_re ("yearly" +:+ x) Some = Some x) by reflexivity.
  rewrite Hx, Hy in He. injection He as ->.
  apply length_append_cancel in Hx. discriminate Hx.
Qed.

(** The first marker of a name. *)
Lemma period_first name m :
  search false period_re name = Some m ->
  exists before p after,
    m = p /\ name = before +:+ p +:+ after
    /\ first_token period_token before p after
    /\ longest_token period_token p (p +:+ after).
Proof.
  intros Hs. destruct (search_first _ _ _ _ Hs) as (before & tail & -> & Hm & Hfirst).
  destruct (match_here_split _ _ _ _ Hm) as (rest & He & ->).
  destruct (period_exec _ _ He) as (p & Hp & ->).
  rewrite matched_text. exists before, p, rest.
  split; [reflexivity|]. split; [reflexivity|]. split; [split; [exact Hp|]|].
  - intros skipped tl Hb Hne m' Hm'.
    destruct (String.prefix m' (tl +:+ p +:+ rest)) eqn:E; [|reflexivity].
    apply prefix_inv in E as [x Hx].
    pose proof (Hfirst skipped tl Hb Hne) as Hnone.
    unfold match_here in Hnone. rewrite Hx in Hnone.
    pose proof (period_exec_complete m' x Hm') as Hc.
    destruct (exec false period_re (m' +:+ x) Some); [discriminate | congruence].
  - apply (period_longest _ rest); auto.
Qed.

(** The first year token of a name. *)
Lemma year_first name m :
  search false year_re name = Some m ->
  exists before after,
    name = before +:+ m +:+ after /\ first_token year_token before m after.
Proof.
  intros Hs. destruct (search_first _ _ _ _ Hs) as (before & tail & -> & Hm & Hfirst).
  destruct (match_here_split _ _ _ _ Hm) as (rest & He & ->).
  destruct (year_exec _ _ He) as (d1 & d2 & H1 & H2 & ->).
  rewrite matched_text. eexists before, rest.
  split; [reflexivity|]. split; [exists d1, d2; auto|].
  intros skipped tl Hb Hne m' Hm'.
  match goal with |- ?b = false => destruct b eqn:E; [|reflexivity] end.
  apply prefix_inv in E as [x Hx].
  pose proof (Hfirst skipped tl Hb Hne) as Hnone.
  unfold match_here in Hnone. rewrite Hx in Hnone.
  rewrite (year_exec_complete m' x Hm') in Hnone. discriminate.
Qed.

Lemma year_present name :
  (forall y, year_token y -> contains y name = false) ->
  search false year_re name = None.
Proof.
  intros Hno. destruct (search false year_re name) as [m|] eqn:E; [|reflexivity].
  apply search_some in E as (tail & Hsuf & Hm).
  apply year_match_here in Hm as (Hy & Hp).
  pose proof (Hno m Hy) as Hc.
  rewrite (contains_suffix _ _ _ Hsuf Hp) in Hc. discriminate.
Qed.

Lemma contains_longer p x s : contains (p +:+ x) s = true -> contains p s = true.
Proof.
  intros H. apply contains_inv in H as (tail & Hsuf & Hp).
  apply prefix_inv in Hp as [rest ->]. rewrite append_assoc in Hsuf.
  eapply contains_suffix; [exact Hsuf | apply prefix_append].
Qed.

(** No marker in the name: exactly when the search finds none. *)
Lemma period_none name :
  search false period_re name = None
  <-> forall p, period_token p -> contains p name = false.
Proof.
  split.
  - intros Hs. destruct (period_absent name Hs) as [Hy Hq].
    intros p Hp. unfold period_token in Hp. cbn [In] in Hp.
    destruct Hp as [<-|[<-|[<-|[<-|[<-|[<-|[]]]]]]];
      try (apply Hq; reflexivity); [exact Hy|].
    destruct (contains "yearly" name) eqn:E; [|reflexivity].
    apply (contains_longer "y" "early") in E. congruence.
  - intros Hno.
    destruct (search false period_re name) as [m|] eqn:E; [|reflexivity].
    apply search_some in E as (tail & Hsuf & Hm).
    destruct (match_here_split _ _ _ _ Hm) as (rest & He & _).
    destruct (period_exec _ _ He) as (p & Hp & ->).
    pose proof (Hno p Hp) as Hc.
    rewrite (contains_suffix _ _ _ Hsuf (prefix_append p rest)) in Hc.
    discriminate.
Qed.

Lemma period_of_token p :
  period_token p ->
  In (upper p) ["Q1"; "Q2"; "Q3"; "Q4"; "Y"; "YEARLY"] /\ upper p <> "UNKNOWN".
Proof.
  unfold period_token. cbn [In].
  intros [<-|[<-|[<-|[<-|[<-|[<-|[]]]]]]]; (split; [cbn; tauto | discriminate]).
Qed.

Lemma split_no_sep sep s :
  contains (String sep "") s = false -> split sep s = [s].
Proof.
  induction s as [|c s IH]; [reflexivity|].
  rewrite contains_unfold. cbn [String.prefix].
  destruct (ascii_dec sep c) as [->|Hne]; [rewrite prefix_nil; discriminate|].
  intros H. cbn [split].
  destruct (Ascii.eqb_spec c sep) as [->|_]; [congruence|].
  rewrite (IH H). reflexivity.
Qed.

(** [s.split(sep)[-1]] is the last part of [s]. *)
Lemma split_last_part sep part s :
  last_part sep part s -> split_last sep s = part.
Proof.
  intros [Hno [->|[front ->]]].
  - unfold split_last. rewrite (split_no_sep _ _ Hno). reflexivity.
  - rewrite split_last_append. unfold split_last.
    rewrite (split_no_sep _ _ Hno). reflexivity.
Qed.

(** C7: the entry of a statement file is read off its url alone.  With
    the name being the lower-cased part of the url after its last "/":
    the year is the leftmost "20" followed by two digits in the name, a
    number in [2000,2099], and null exactly when the name has none; the
    period is the leftmost marker of the name (q1-q4, yearly or y, the
    longest at that position) in upper case, and "UNKNOWN" exactly when
    the name has no marker; the language is "th" when the name contains
    "th", else "en" when it contains "en", else "unknown"; the type is
    the upper-cased part of the url after its last dot.
    "abc_2023_q2_en.pdf" gives "2023", "Q2", "en", "PDF" and
    "abc_yearly_th.xlsx" gives "YEARLY" and "th"; the leftmost marker
    wins wherever it stands, so "company_2023_q2.pdf" has period "Y" and
    "smooth_2023_q4_en.pdf" has language "th". *)
Theorem statement_metadata_from_name file_url base ext :
  last_part "/" base file_url ->
  last_part "." ext file_url ->
  let name := lower base in
  exists year period language,
    file_entry file_url
    = [("url", VStr file_url); ("year", year); ("period", VStr period);
       ("language", VStr language); ("type", VStr (upper ext))]
    (* the year: the leftmost "20dd" of the name, else null *)
    /\ match year with
       | VNone => forall y, year_token y -> contains y name = false
       | VStr y =>
           (exists n, PyNum.py_int y = Some n /\ (2000 <= n <= 2099)%Z)
           /\ exists before after,
                name = before +:+ y +:+ after
                /\ first_token year_token before y after
       | _ => False
       end
    /\ ((forall y, year_token y -> contains y name = false) -> year = VNone)
    (* the period: the leftmost marker of the name, else "UNKNOWN" *)
    /\ ((period = "UNKNOWN" /\ forall p, period_token p -> contains p name = false)
        \/ exists before p after,
             name = before +:+ p +:+ after
             /\ first_token period_token before p after
             /\ longest_token period_token p (p +:+ after)
             /\ period = upper p
             /\ In period ["Q1"; "Q2"; "Q3"; "Q4"; "Y"; "YEARLY"])
    /\ (period = "UNKNOWN" <-> forall p, period_token p -> contains p name = false)
    (* the language: presence of a language code, "th" first *)
    /\ (language = "th" <-> contains "th" name = true)
    /\ (language = "en" <-> contains "th" name = false /\ contains "en" name = true)
    /\ (language = "unknown"
        <-> contains "th" name = false /\ contains "en" name = false)
    (* the files of the specification *)
    /\ file_entry "abc_2023_q2_en.pdf"
       = [("url", VStr "abc_2023_q2_en.pdf"); ("year", VStr "2023");
          ("period", VStr "Q2"); ("language", VStr "en"); ("type", VStr "PDF")]
    /\ link_entries "abc" "/files/abc_yearly_th.xlsx"
       = [VDict [("url", VStr "https://www.set.or.th/files/abc_yearly_th.xlsx");
                 ("year", VNone); ("period", VStr "YEARLY");
                 ("language", VStr "th"); ("type", VStr "XLSX")]]
    (* the leftmost marker wins, wherever it stands *)
    /\ Dict.get "period" (file_entry "company_2023_q2.pdf") = Some (VStr "Y")
    /\ Dict.get "language" (file_entry "smooth_2023_q4_en.pdf") = Some (VStr "th").
Proof.
  intros Hbase Hext name.
  exists (year_of name), (period_of name), (language_of name).
  split.
  { unfold file_entry, file_name_of, type_of.
    rewrite (split_last_part _ _ _ Hbase), (split_last_part _ _ _ Hext).
    reflexivity. }
  split.
  { unfold year_of. destruct (search false year_re name) as [m|] eqn:E.
    - split.
      + destruct (search_some _ _ _ _ E) as (tail & _ & Hm).
        apply year_match_here in Hm as (Hy & _).
        destruct (year_token_value m Hy) as (_ & n & Hn & Hr). eauto.
      + apply year_first, E.
    - apply year_absent, E. }
  split.
  { intros Hno. unfold year_of. rewrite (year_present name Hno). reflexivity. }
  assert (Hperiod :
    (period_of name = "UNKNOWN"
     /\ forall p, period_token p -> contains p name = false)
    \/ exists before p after,
         name = before +:+ p +:+ after
         /\ first_token period_token before p after
         /\ longest_token period_token p (p +:+ after)
         /\ period_of name = upper p
         /\ In (period_of name) ["Q1"; "Q2"; "Q3"; "Q4"; "Y"; "YEARLY"]).
  { unfold period_of. destruct (search false period_re name) as [m|] eqn:E.
    - right. destruct (period_first _ _ E) as (before & p & after & -> & Hn & Hf & Hl).
      exists before, p, after. repeat split; auto; try apply Hf.
      apply period_of_token, Hf.
    - left. split; [reflexivity | apply period_none, E]. }
  split; [exact Hperiod|]. split.
  { split.
    - intros Hu. destruct Hperiod as [[_ H]|(before & p & after & _ & Hf & _ & Hp & _)];
        [exact H|].
      rewrite Hp in Hu. destruct (period_of_token p (proj1 Hf)) as [_ Hne].
      contradiction.
    - intros Hno. unfold period_of.
      rewrite (proj2 (period_none name) Hno). reflexivity. }
  unfold language_of.
  destruct (contains "th" name), (contains "en" name);
    repeat split; intros; try discriminate; try reflexivity;
    try match goal with H : _ /\ _ |- _ => destruct H; discriminate end.
Qed.

End NameFacts.

Lemma statement_metadata_from_name_witness :
  Dict.get "type" (Statements.file_entry "https://www.set.or.th/dl/AOT_2023_Q2_EN.PDF")
  = Some (VStr "PDF").
Proof.
  destruct (statement_metadata_from_name
              "https://www.set.or.th/dl/AOT_2023_Q2_EN.PDF" "AOT_2023_Q2_EN.PDF" "PDF")
    as (year & period & language & He & _).
  - split; [reflexivity|]. right. exists "https://www.set.or.th/dl". reflexivity.
  - split; [reflexivity|]. right.
    exists "https://www.set.or.th/dl/AOT_2023_Q2_EN". reflexivity.
  - rewrite He. reflexivity.
Defined.
